(** * atomman.core.System: coordinate transforms, box updates, wrapping

    A shallow embedding of [atomman/core/System.py].  Floating point numbers
    are read as exact rationals ([Qc], canonical fractions with Leibniz
    equality), numpy arrays of 3-vectors as lists of rows, Python exceptions
    as [None], and the in-place mutation of a System as explicit state
    passing.  What rounding does to [scale] and [unscale] is measured on
    binary64 numbers in the module [Binary64]. *)

From Stdlib Require Import QArith Qcanon Qround Field Lia Lqa ZArith.
From Stdlib Require Floats.PrimFloat.
From stdpp Require Import gmap strings list fin_maps.

Local Open Scope Qc_scope.
Set Warnings "-register-all".

(** ** Rationals *)

Arguments Qcplus : simpl never.
Arguments Qcmult : simpl never.
Arguments Qcminus : simpl never.
Arguments Qcopp : simpl never.
Arguments Qcdiv : simpl never.
Arguments Qcinv : simpl never.
Arguments Q2Qc : simpl never.

Definition qc (n : Z) (d : positive) : Qc := Q2Qc (n # d).
Definition Qc_of_Z (z : Z) : Qc := Q2Qc (inject_Z z).

(** [np.floor] on an exact value. *)
Definition Qcfloor (x : Qc) : Qc := Qc_of_Z (Qfloor (this x)).

Definition Qcltb (x y : Qc) : bool := bool_decide (x < y).
Definition Qcmin (x y : Qc) : Qc := if Qcltb y x then y else x.
Definition Qcmax (x y : Qc) : Qc := if Qcltb x y then y else x.

(** ** 3-vectors and 3x3 matrices (numpy arrays of shape (3,) and (3,3)) *)

Record vec3 := V3 { vx : Qc; vy : Qc; vz : Qc }.
Record mat3 := M3 { row0 : vec3; row1 : vec3; row2 : vec3 }.

Definition vadd (u v : vec3) : vec3 := V3 (vx u + vx v) (vy u + vy v) (vz u + vz v).
Definition vsub (u v : vec3) : vec3 := V3 (vx u - vx v) (vy u - vy v) (vz u - vz v).
Definition vmul (v : vec3) (k : Qc) : vec3 := V3 (vx v * k) (vy v * k) (vz v * k).

(** [v.dot(m)]: a row vector times a matrix. *)
Definition vdot (v : vec3) (m : mat3) : vec3 :=
  V3 (vx v * vx (row0 m) + vy v * vx (row1 m) + vz v * vx (row2 m))
     (vx v * vy (row0 m) + vy v * vy (row1 m) + vz v * vy (row2 m))
     (vx v * vz (row0 m) + vy v * vz (row1 m) + vz v * vz (row2 m)).

Definition det (m : mat3) : Qc :=
  let (a, b, c) := m in
    vx a * (vy b * vz c - vz b * vy c)
  - vy a * (vx b * vz c - vz b * vx c)
  + vz a * (vx b * vy c - vy b * vx c).

(** The adjugate; [adj m / det m] is the inverse whenever there is one. *)
Definition adj (m : mat3) : mat3 :=
  let (a, b, c) := m in
  M3 (V3 (vy b * vz c - vz b * vy c) (vz a * vy c - vy a * vz c) (vy a * vz b - vz a * vy b))
     (V3 (vz b * vx c - vx b * vz c) (vx a * vz c - vz a * vx c) (vz a * vx b - vx a * vz b))
     (V3 (vx b * vy c - vy b * vx c) (vy a * vx c - vx a * vy c) (vx a * vy b - vy a * vx b)).

Definition mdiv (m : mat3) (k : Qc) : mat3 :=
  M3 (V3 (vx (row0 m) / k) (vy (row0 m) / k) (vz (row0 m) / k))
     (V3 (vx (row1 m) / k) (vy (row1 m) / k) (vz (row1 m) / k))
     (V3 (vx (row2 m) / k) (vy (row2 m) / k) (vz (row2 m) / k)).

(** [np.linalg.inv]: raises [LinAlgError] on a singular matrix. *)
Definition linalg_inv (m : mat3) : option mat3 :=
  if decide (det m = 0) then None else Some (mdiv (adj m) (det m)).

(** A value handed to [scale]/[unscale]: one 3-vector (shape (3,)) or an
    array of them (shape (N,3)).  Arithmetic with a 3-vector broadcasts over
    the rows. *)
Inductive varray := One (v : vec3) | Many (vs : list vec3).

Definition vmap (f : vec3 -> vec3) (a : varray) : varray :=
  match a with
  | One v => One (f v)
  | Many vs => Many (map f vs)
  end.

(** ** Box *)

(** Modelled from the spec: the [Box] class is not among the sources; the
    spec describes it as three lattice vectors (the rows of a 3x3 matrix)
    and an origin. *)
Record Box := mkBox { vects : mat3; origin : vec3 }.

Definition avect (b : Box) : vec3 := row0 (vects b).
Definition bvect (b : Box) : vec3 := row1 (vects b).
Definition cvect (b : Box) : vec3 := row2 (vects b).

(** ** The spec's wording of the transforms, by index *)

Definition vget (v : vec3) (i : nat) : Qc :=
  match i with 0%nat => vx v | 1%nat => vy v | _ => vz v end.
Definition mget (m : mat3) (i j : nat) : Qc :=
  vget (match i with 0%nat => row0 m | 1%nat => row1 m | _ => row2 m end) j.
Definition sum3 (f : nat -> Qc) : Qc := f 0%nat + f 1%nat + f 2%nat.
Definition vbuild (f : nat -> Qc) : vec3 := V3 (f 0%nat) (f 1%nat) (f 2%nat).
Definition mbuild (f : nat -> nat -> Qc) : mat3 :=
  M3 (vbuild (f 0%nat)) (vbuild (f 1%nat)) (vbuild (f 2%nat)).

Definition mmul (m n : mat3) : mat3 :=
  mbuild (fun i j => sum3 (fun k => mget m i k * mget n k j)).
Definition identity3 : mat3 :=
  mbuild (fun i j => if decide (i = j) then 1 else 0).

(** [n] is the inverse of the lattice matrix [m]. *)
Definition is_inverse (m n : mat3) : Prop := mmul m n = identity3.

(** [(v - origin) . n] *)
Definition scale_spec (b : Box) (n : mat3) (v : vec3) : vec3 :=
  vbuild (fun j => sum3 (fun i => (vget v i - vget (origin b) i) * mget n i j)).
(** [v . lattice + origin] *)
Definition unscale_spec (b : Box) (v : vec3) : vec3 :=
  vbuild (fun j => sum3 (fun i => vget v i * mget (vects b) i j) + vget (origin b) j).

(** ** Python values and numpy arrays *)

(** The dtypes that [np.asarray] infers from Python scalars, together with
    the two fixed-width integer types that C [long] can be. *)
Inductive dtype := bool_ | int32 | int64 | uint64 | float64 | str_ | object_.

Global Instance dtype_eq_dec : EqDecision dtype.
Proof. solve_decision. Defined.

Definition is_integer_dtype (d : dtype) : bool :=
  match d with int32 | int64 | uint64 => true | _ => false end.

(** [np.dtype(int)] is C [long]: 64 bits on LP64 hosts (Linux, macOS), 32
    bits on LLP64 and 32-bit hosts (Windows, where shapes print as [(3L,)]). *)
Inductive platform := LP64 | LLP64.

Definition default_int (p : platform) : dtype :=
  match p with LP64 => int64 | LLP64 => int32 end.

Inductive elem :=
  | ENone
  | EB (b : bool)
  | EI (z : Z)
  | EF (q : Qc)
  | ES (s : string).

(** Array contents, nested by axis. *)
Inductive nd := Item (e : elem) | Axis (l : list nd).

Record ndarray := NdArray { dt : dtype; data : nd }.

Inductive pyobj :=
  | PNone
  | PBool (b : bool)
  | PInt (z : Z)
  | PFloat (q : Qc)
  | PStr (s : string)
  | PList (l : list pyobj)
  | PArr (a : ndarray).

(** Python truth value ([bool(x)]). *)
Definition py_truthy (v : pyobj) : bool :=
  match v with
  | PNone => false
  | PBool b => b
  | PInt z => negb (Z.eqb z 0)
  | PFloat q => negb (bool_decide (q = 0))
  | PStr s => negb (bool_decide (s = ""%string))
  | PList l => negb (bool_decide (length l = 0%nat))
  | PArr _ => true
  end.

Fixpoint shape (d : nd) : option (list nat) :=
  match d with
  | Item _ => Some []
  | Axis l =>
      match map shape l with
      | [] => Some [0%nat]
      | None :: _ => None
      | Some sh :: rest =>
          if forallb (fun o => bool_decide (o = Some sh)) rest
          then Some (length l :: sh) else None
      end
  end.

(** Number of entries ([ndarray.size]). *)
Fixpoint nd_size (d : nd) : nat :=
  match d with
  | Item _ => 1%nat
  | Axis l => foldr (fun x n => (nd_size x + n)%nat) 0%nat l
  end.

Fixpoint nd_map (f : elem -> elem) (d : nd) : nd :=
  match d with
  | Item e => Item (f e)
  | Axis l => Axis (map (nd_map f) l)
  end.

Definition in_range (lo hi z : Z) : bool := (Z.leb lo z && Z.leb z hi)%bool.

(** dtype of one Python integer: C long when it fits, then wider types. *)
Definition int_dtype (p : platform) (z : Z) : dtype :=
  let fits32 := in_range (-2147483648) 2147483647 z in
  let fits64 := in_range (-9223372036854775808) 9223372036854775807 z in
  match p with
  | LP64 => if fits64 then int64
            else if in_range 0 18446744073709551615 z then uint64 else object_
  | LLP64 => if fits32 then int32
             else if fits64 then int64
             else if in_range 0 18446744073709551615 z then uint64 else object_
  end.

(** numpy's type promotion on these dtypes. *)
Definition promote (a b : dtype) : dtype :=
  match a, b with
  | object_, _ | _, object_ => object_
  | str_, _ | _, str_ => str_
  | float64, _ | _, float64 => float64
  | uint64, (int32 | int64) | (int32 | int64), uint64 => float64
  | uint64, _ | _, uint64 => uint64
  | int64, _ | _, int64 => int64
  | int32, _ | _, int32 => int32
  | bool_, bool_ => bool_
  end.

Fixpoint structure (v : pyobj) : nd :=
  match v with
  | PNone => Item ENone
  | PBool b => Item (EB b)
  | PInt z => Item (EI z)
  | PFloat q => Item (EF q)
  | PStr s => Item (ES s)
  | PList l => Axis (map structure l)
  | PArr a => data a
  end.

Fixpoint infer_dtype (p : platform) (v : pyobj) : option dtype :=
  match v with
  | PNone => Some object_
  | PBool _ => Some bool_
  | PInt z => Some (int_dtype p z)
  | PFloat _ => Some float64
  | PStr _ => Some str_
  | PList l =>
      foldr (fun x acc =>
               match infer_dtype p x, acc with
               | None, d | d, None => d
               | Some a, Some b => Some (promote a b)
               end) None l
  | PArr a => Some (dt a)
  end.

Definition bool_Qc (b : bool) : Qc := if b then 1 else 0.
Definition bool_Z (b : bool) : Z := if b then 1%Z else 0%Z.

Definition cast (d : dtype) (e : elem) : elem :=
  match d, e with
  | float64, EB b => EF (bool_Qc b)
  | float64, EI z => EF (Qc_of_Z z)
  | (int32 | int64 | uint64), EB b => EI (bool_Z b)
  | _, _ => e
  end.

(** [np.asarray(v)]: an array is returned as it is; nested lists of scalars
    become an array of the promoted dtype (an empty list is float64); lists
    that are not rectangular become an object array. *)
Definition np_asarray (p : platform) (v : pyobj) : ndarray :=
  match v with
  | PArr a => a
  | _ =>
      let d := structure v in
      match shape d with
      | None => NdArray object_ d
      | Some _ =>
          let t := default float64 (infer_dtype p v) in
          NdArray t (nd_map (cast t) d)
      end
  end.

Definition elem_truthy (e : elem) : bool :=
  match e with
  | ENone => false
  | EB b => b
  | EI z => negb (Z.eqb z 0)
  | EF q => negb (bool_decide (q = 0))
  | ES s => negb (bool_decide (s = ""%string))
  end.

(** [np.asarray(v, dtype=bool)]: every entry is converted to a bool; a
    nesting that is not rectangular raises [ValueError]. *)
Definition np_asarray_bool (v : pyobj) : option ndarray :=
  let d := structure v in
  match shape d with
  | None => None
  | Some _ => Some (NdArray bool_ (nd_map (fun e => EB (elem_truthy e)) d))
  end.

Definition elem_num (e : elem) : option Qc :=
  match e with
  | EB b => Some (bool_Qc b)
  | EI z => Some (Qc_of_Z z)
  | EF q => Some q
  | _ => None
  end.

Definition nd_vec3 (d : nd) : option vec3 :=
  match d with
  | Axis [Item a; Item b; Item c] =>
      x ← elem_num a; y ← elem_num b; z ← elem_num c; Some (V3 x y z)
  | _ => None
  end.

Definition vec3_nd (v : vec3) : nd :=
  Axis [Item (EF (vx v)); Item (EF (vy v)); Item (EF (vz v))].

(** A float array of shape (3,) as a Python value and back. *)
Definition of_vec3 (v : vec3) : pyobj := PArr (NdArray float64 (vec3_nd v)).
Definition to_vec3 (v : pyobj) : option vec3 := nd_vec3 (structure v).

Definition of_varray (a : varray) : pyobj :=
  match a with
  | One v => of_vec3 v
  | Many vs => PArr (NdArray float64 (Axis (map vec3_nd vs)))
  end.

Definition to_varray (v : pyobj) : option varray :=
  match v with
  | PList [] => None
  | _ =>
      match structure v with
      | Axis (Item a :: r) => One <$> nd_vec3 (Axis (Item a :: r))
      | Axis rows => Many <$> mapM nd_vec3 rows
      | Item _ => None
      end
  end.

(** ** Arrays of any number of axes in [scale] and [unscale] *)

Definition is_item (d : nd) : bool :=
  match d with Item _ => true | Axis _ => false end.

(** [f] on each vector along the last axis of an array that has an axis. *)
Fixpoint on_last_axis (f : nd -> option nd) (d : nd) : option nd :=
  match d with
  | Item _ => None
  | Axis l =>
      if forallb is_item l then f d
      else Axis <$> (fix go (l : list nd) : option (list nd) :=
                       match l with
                       | [] => Some []
                       | x :: r => y ← on_last_axis f x; ys ← go r; Some (y :: ys)
                       end) l
  end.

(** [row.dot(vects) + origin]: the last axis has to hold 3 numbers. *)
Definition unscale_row (b : Box) (row : nd) : option nd :=
  v ← nd_vec3 row; Some (vec3_nd (vadd (vdot v (vects b)) (origin b))).

(** [(row - origin).dot(inverse)]: the subtraction broadcasts a last axis
    of one number to three. *)
Definition scale_row (b : Box) (inverse : mat3) (row : nd) : option nd :=
  v ← match row with
      | Axis [Item e] => c ← elem_num e; Some (V3 c c c)
      | _ => nd_vec3 row
      end;
  Some (vec3_nd (vdot (vsub v (origin b)) inverse)).

Definition to_num (v : pyobj) : option Qc :=
  match structure v with Item e => elem_num e | _ => None end.

(** ** Box.set *)

Abbreviation kwargs := (gmap string pyobj).

Definition zero3 : vec3 := V3 0 0 0.

Definition kw_vec (kw : kwargs) (k : string) (dflt : option vec3) : option vec3 :=
  match kw !! k with
  | None => dflt
  | Some v => to_vec3 v
  end.

Definition kw_num (kw : kwargs) (k : string) (dflt : option Qc) : option Qc :=
  match kw !! k with
  | None => dflt
  | Some v => to_num v
  end.

Definition to_mat3 (v : pyobj) : option mat3 :=
  match structure v with
  | Axis [a; b; c] => x ← nd_vec3 a; y ← nd_vec3 b; z ← nd_vec3 c; Some (M3 x y z)
  | _ => None
  end.

(** Modelled from the spec: a box is kept only when its vectors are linearly
    independent. *)
Definition valid_box (b : Box) : option Box :=
  if decide (det (vects b) = 0) then None else Some b.

Definition has_key (kw : kwargs) (k : string) : bool := bool_decide (is_Some (kw !! k)).

(** Modelled from the spec: [Box.set] is not among the sources.  The spec
    (4.4) and the docstring of [System.box_set] list the parameter sets:
    none (unit box at the origin); [vects] (and [origin]); [avect], [bvect],
    [cvect] (and [origin]); [a], [b], [c] (and angles, [origin]); [lx], [ly],
    [lz] (and tilts, [origin]); the six lo/hi bounds (and tilts).  The
    lengths-and-angles set needs trigonometry and is taken as the parameter
    [set_abc]. *)
Definition Box_set (set_abc : kwargs -> option Box) (kw : kwargs) : option Box :=
  if bool_decide (kw = ∅) then
    Some (mkBox (M3 (V3 1 0 0) (V3 0 1 0) (V3 0 0 1)) zero3)
  else if has_key kw "vects" then
    m ← kw !! "vects" ≫= to_mat3;
    o ← kw_vec kw "origin" (Some zero3);
    valid_box (mkBox m o)
  else if has_key kw "avect" then
    a ← kw_vec kw "avect" None;
    b ← kw_vec kw "bvect" None;
    c ← kw_vec kw "cvect" None;
    o ← kw_vec kw "origin" (Some zero3);
    valid_box (mkBox (M3 a b c) o)
  else if has_key kw "a" then
    set_abc kw ≫= valid_box
  else if has_key kw "lx" then
    lx ← kw_num kw "lx" None; ly ← kw_num kw "ly" None; lz ← kw_num kw "lz" None;
    xy ← kw_num kw "xy" (Some 0); xz ← kw_num kw "xz" (Some 0); yz ← kw_num kw "yz" (Some 0);
    o ← kw_vec kw "origin" (Some zero3);
    valid_box (mkBox (M3 (V3 lx 0 0) (V3 xy ly 0) (V3 xz yz lz)) o)
  else if has_key kw "xlo" then
    xlo ← kw_num kw "xlo" None; xhi ← kw_num kw "xhi" None;
    ylo ← kw_num kw "ylo" None; yhi ← kw_num kw "yhi" None;
    zlo ← kw_num kw "zlo" None; zhi ← kw_num kw "zhi" None;
    xy ← kw_num kw "xy" (Some 0); xz ← kw_num kw "xz" (Some 0); yz ← kw_num kw "yz" (Some 0);
    valid_box (mkBox (M3 (V3 (xhi - xlo) 0 0) (V3 xy (yhi - ylo) 0) (V3 xz yz (zhi - zlo)))
                     (V3 xlo ylo zlo))
  else None.

(** Modelled from the spec: the lo/hi bounds of a box along x, read back
    from the lo/hi parameter set (origin and first lattice vector). *)
Definition xlo (b : Box) : Qc := vx (origin b).
Definition xhi (b : Box) : Qc := vx (origin b) + vx (avect b).

(** ** Atoms and System *)

(** Modelled from the spec: the [Atoms] class is not among the sources; it
    is an ordered store of per-atom properties of which the integer type and
    the absolute position [pos] (the (N,3) array [view['pos']]) are used. *)
Record Atoms := mkAtoms { atype : list Z; pos : list vec3 }.

Record System := mkSystem {
  atoms : Atoms;
  box : Box;
  pbc : ndarray;
  prop : gmap string pyobj
}.

Definition with_pos (s : System) (p : list vec3) : System :=
  mkSystem (mkAtoms (atype (atoms s)) p) (box s) (pbc s) (prop s).
Definition with_atoms (s : System) (a : Atoms) : System :=
  mkSystem a (box s) (pbc s) (prop s).
Definition with_box (s : System) (b : Box) : System :=
  mkSystem (atoms s) b (pbc s) (prop s).
Definition with_pbc (s : System) (p : ndarray) : System :=
  mkSystem (atoms s) (box s) p (prop s).
Definition with_prop (s : System) (m : gmap string pyobj) : System :=
  mkSystem (atoms s) (box s) (pbc s) m.

(** The functions of the repository that [System] calls and that are not
    among the sources. *)
Class Extern := {
  host : platform;
  (** the reduction of a lattice to its canonical form in [Box.normalize()] *)
  normalize_reduce : Box -> option Box;
  (** the lengths-and-angles parameter set of [Box.set] *)
  Box_set_abc : kwargs -> option Box;
  (** [Atoms.prop(a_id, key, value, dtype)] *)
  Atoms_prop : Atoms -> pyobj -> pyobj -> pyobj -> pyobj -> option (pyobj * Atoms);
  (** [atomman.tools.nlist(system, cutoff, cmult)] *)
  tools_nlist : System -> pyobj -> pyobj -> option pyobj;
  (** [atomman.tools.dvect(pos_0, pos_1, box, pbc)] *)
  tools_dvect : ndarray -> ndarray -> Box -> ndarray -> option ndarray
}.

(** Modelled from the spec: [Box.normalize] is not among the sources.  It
    reduces the lattice to a canonical form (the parameter
    [normalize_reduce]); as for every box, the result is kept only when its
    vectors are linearly independent. *)
Definition Box_normalize {E : Extern} (b : Box) : option Box :=
  normalize_reduce b ≫= valid_box.

(** A method of a System: it may raise ([None]) or return a value and the
    System as it is afterwards. *)
Definition M (A : Type) : Type := System -> option (A * System).

Definition ret {A} (a : A) : M A := fun s => Some (a, s).
Definition bind {A B} (m : M A) (k : A -> M B) : M B :=
  fun s => match m s with
           | None => None
           | Some (a, s') => k a s'
           end.
Definition raise {A} : M A := fun _ => None.
Definition get : M System := fun s => Some (s, s).
Definition lift {A} (o : option A) : M A :=
  fun s => match o with None => None | Some a => Some (a, s) end.

Declare Scope sys_scope.
Delimit Scope sys_scope with sys.
Notation "'do' x <- m ; k" := (bind m (fun x => k))
  (at level 10, x name, m at level 100, k at level 200) : sys_scope.
Notation "'exec' m ; k" := (bind m (fun _ => k))
  (at level 10, m at level 100, k at level 200) : sys_scope.

(** [v is True], [v is False], [v is None] *)
Definition is_True (v : pyobj) : bool := match v with PBool true => true | _ => false end.
Definition is_False (v : pyobj) : bool := match v with PBool false => true | _ => false end.
Definition is_None (v : pyobj) : bool := match v with PNone => true | _ => false end.

(** ** The methods of [System] *)

Section Methods.
Context {E : Extern}.
Local Open Scope sys_scope.

(** [System.scale(value)] *)
Definition scale (s : System) (value : varray) : option varray :=
  let vects := vects (box s) in
  inverse ← linalg_inv vects;
  let origin := origin (box s) in
  Some (vmap (fun v => vdot (vsub v origin) inverse) value).

(** [System.unscale(value)] *)
Definition unscale (s : System) (value : varray) : varray :=
  let vects := vects (box s) in
  let origin := origin (box s) in
  vmap (fun v => vadd (vdot v vects) origin) value.

(** The rows of an (N,3) array. *)
Definition rows (a : varray) : list vec3 :=
  match a with One v => [v] | Many vs => vs end.

(** A value broadcast to shape (n,3): one vector, or one row, is repeated;
    otherwise the number of rows has to be [n] ([ValueError]). *)
Definition broadcast_rows (n : nat) (value : varray) : option (list vec3) :=
  match value with
  | One v | Many [v] => Some (replicate n v)
  | Many vs => if decide (length vs = n) then Some vs else None
  end.

(** [self.atoms.view['pos'][:] = value] *)
Definition assign_pos (value : varray) : M unit :=
  fun s =>
    p ← broadcast_rows (length (pos (atoms s))) value;
    Some (tt, with_pos s p).

(** The [pbc] setter. *)
Definition pbc_set (value : pyobj) : M unit :=
  do pbc <- lift (np_asarray_bool value);
  if decide (shape (data pbc) = Some [3%nat])
  then fun s => Some (tt, with_pbc s pbc)
  else raise.

(** [System.__init__(atoms, box, pbc, scale, prop)], run on a System that
    has no attribute yet; the two [isinstance] assertions are the types of
    [atoms] and [box]. *)
Definition __init__ (atoms : Atoms) (box : Box) (pbc : pyobj) (scale : pyobj)
    (prop : gmap string pyobj) : option System :=
  let self := mkSystem atoms box (NdArray bool_ (Axis [])) ∅ in
  let m :=
    exec (if is_True scale
          then fun s => assign_pos (unscale s (Many (pos atoms))) s
          else ret tt);
    exec pbc_set pbc;
    fun s => Some (tt, with_prop s prop) in
  snd <$> m self.

(** [self.unscale(value)] for a [value] of any kind: [np.asarray(value)]
    times the lattice matrix, along the last axis, plus the origin.  A
    number multiplies the whole matrix.  The list [[]] has shape (0,) and
    raises in the dot product, as does every last axis that does not hold 3
    numbers and every nesting that is not rectangular.  An array without
    rows stands for the positions of no atom, shape (0,3): [nd] keeps no
    lengths for the axes of an array without entries. *)
Definition unscale_value (s : System) (value : pyobj) : option pyobj :=
  match value with
  | PArr (NdArray _ (Axis [])) => Some (of_varray (unscale s (Many [])))
  | _ =>
      let d := structure value in
      match shape d, d with
      | None, _ => None
      | Some _, Item e =>
          c ← elem_num e;
          Some (of_varray
                  (Many (map (fun row => vadd (vmul row c) (origin (box s)))
                             [avect (box s); bvect (box s); cvect (box s)])))
      | Some _, Axis _ =>
          (fun r => PArr (NdArray float64 r)) <$> on_last_axis (unscale_row (box s)) d
      end
  end.

(** [self.scale(value)] for a [value] of any kind: the inverse is computed
    first, the origin is subtracted along the last axis, which holds 3
    numbers or one, and a number gives one 3-vector. *)
Definition scale_value (s : System) (value : pyobj) : option pyobj :=
  inverse ← linalg_inv (vects (box s));
  match value with
  | PArr (NdArray _ (Axis [])) => of_varray <$> scale s (Many [])
  | _ =>
      let d := structure value in
      match shape d, d with
      | None, _ => None
      | Some _, Item e =>
          c ← elem_num e;
          Some (of_vec3 (vdot (vsub (V3 c c c) (origin (box s))) inverse))
      | Some _, Axis _ =>
          (fun r => PArr (NdArray float64 r))
            <$> on_last_axis (scale_row (box s) inverse) d
      end
  end.

(** [System.atoms_prop(a_id, key, value, dtype, scale)] *)
Definition atoms_prop (a_id key value dtype scale_kw : pyobj) : M pyobj :=
  fun s =>
  if is_False scale_kw then
    '(r, a) ← Atoms_prop (atoms s) a_id key value dtype;
    Some (r, with_atoms s a)
  else if negb (is_None value) then
    value ← unscale_value s value;
    '(_, a) ← Atoms_prop (atoms s) a_id key value dtype;
    Some (PNone, with_atoms s a)
  else
    '(value, a) ← Atoms_prop (atoms s) a_id key PNone dtype;
    let s := with_atoms s a in
    if is_None value then Some (PNone, s)
    else
      r ← scale_value s value;
      Some (r, s).

(** [System.box_set], called with keyword arguments.  The test is on the
    string literal 'scale', not on the popped flag. *)
Definition box_set (kwargs : kwargs) : M unit :=
  let scale_flag := default (PBool false) (kwargs !! "scale") in
  let kwargs := delete "scale" kwargs in
  if negb (py_truthy (PStr "scale")) then
    do b <- lift (Box_set Box_set_abc kwargs);
    fun s => Some (tt, with_box s b)
  else
    do spos <- (fun s => lift (scale s (Many (pos (atoms s)))) s);
    do b <- lift (Box_set Box_set_abc kwargs);
    exec (fun s => Some (tt, with_box s b));
    fun s => assign_pos (unscale s spos) s.

(** [System.box_normalize()] *)
Definition box_normalize : M unit :=
  do spos <- (fun s => lift (scale s (Many (pos (atoms s)))) s);
  do b <- (fun s => lift (Box_normalize (box s)) s);
  exec (fun s => Some (tt, with_box s b));
  fun s => assign_pos (unscale s spos) s.

(** ** [System.dvect] *)

Definition take_row (rows : list vec3) (k : Z) : option nd :=
  let n := Z.of_nat (length rows) in
  if bool_decide (- n ≤ k < n)%Z
  then vec3_nd <$> rows !! Z.to_nat (k `mod` n)
  else None.

(** [pos[idx]] for an integer array [idx]: one row for each index, negative
    indexes counted from the end, [IndexError] when out of range. *)
Fixpoint take (rows : list vec3) (idx : nd) : option nd :=
  match idx with
  | Item (EI k) => take_row rows k
  | Item _ => None
  | Axis l =>
      Axis <$> (fix go (l : list nd) : option (list nd) :=
                  match l with
                  | [] => Some []
                  | x :: r => y ← take rows x; ys ← go r; Some (y :: ys)
                  end) l
  end.

(** The integer test of [dvect] and the lookup of the positions. *)
Definition resolve (s : System) (pos_0 : ndarray) : option ndarray :=
  if bool_decide (dt pos_0 = default_int host)
  then NdArray float64 <$> take (pos (atoms s)) (data pos_0)
  else Some pos_0.

Definition dvect (s : System) (pos_0 pos_1 : pyobj) : option ndarray :=
  let pos_0 := np_asarray host pos_0 in
  pos_0 ← resolve s pos_0;
  let pos_1 := np_asarray host pos_1 in
  pos_1 ← resolve s pos_1;
  tools_dvect pos_0 pos_1 (box s) (pbc s).

(** ** [System.wrap] *)

Definition vset (v : vec3) (i : nat) (x : Qc) : vec3 :=
  match i with
  | 0%nat => V3 x (vy v) (vz v)
  | 1%nat => V3 (vx v) x (vz v)
  | _ => V3 (vx v) (vy v) x
  end.

(** [a.min()] and [a.max()]: [ValueError] on an empty array. *)
Definition col_min (l : list Qc) : option Qc :=
  match l with [] => None | x :: r => Some (foldl Qcmin x r) end.
Definition col_max (l : list Qc) : option Qc :=
  match l with [] => None | x :: r => Some (foldl Qcmax x r) end.

(** [pbc[i]] for a one-axis array. *)
Definition pbc_at (p : ndarray) (i : nat) : option bool :=
  match data p with
  | Axis l => match l !! i with Some (Item e) => Some (elem_truthy e) | _ => None end
  | Item _ => None
  end.

Record wrap_state := WS { ws_spos : list vec3; ws_mins : vec3; ws_maxs : vec3 }.

(** One pass of the loop body of [wrap] for axis [i]. *)
Definition wrap_axis (p : ndarray) (i : nat) (w : wrap_state) : option wrap_state :=
  periodic ← pbc_at p i;
  if (periodic : bool) then
    Some (WS (map (fun v => vset v i (vget v i - Qcfloor (vget v i))) (ws_spos w))
             (ws_mins w) (ws_maxs w))
  else
    min ← col_min (map (fun v => vget v i) (ws_spos w));
    max ← col_max (map (fun v => vget v i) (ws_spos w));
    let mins := if Qcltb min 0 then vset (ws_mins w) i (min - qc 1 1000) else ws_mins w in
    let maxs := if Qcltb 1 max then vset (ws_maxs w) i (max + qc 1 1000) else ws_maxs w in
    Some (WS (ws_spos w) mins maxs).

(** The body of [wrap]; [self_box_set] is the method that [self.box_set]
    resolves to. *)
Definition wrap_with (self_box_set : kwargs -> M unit) : M unit :=
  let mins := V3 0 0 0 in
  let maxs := V3 1 1 1 in
  do spos <- (fun s => lift (scale s (Many (pos (atoms s)))) s);
  do w <- (fun s => lift (foldl (fun acc i => acc ≫= wrap_axis (pbc s) i)
                                (Some (WS (rows spos) mins maxs)) (seq 0 3)) s);
  let mins := ws_mins w in
  let maxs := ws_maxs w in
  exec (fun s => assign_pos (unscale s (Many (ws_spos w))) s);
  do s <- get;
  let origin := vadd (origin (box s)) (vdot mins (vects (box s))) in
  let avect := vmul (avect (box s)) (vx maxs - vx mins) in
  let bvect := vmul (bvect (box s)) (vy maxs - vy mins) in
  let cvect := vmul (cvect (box s)) (vz maxs - vz mins) in
  self_box_set (<["avect" := of_vec3 avect]> (<["bvect" := of_vec3 bvect]>
                (<["cvect" := of_vec3 cvect]> (<["origin" := of_vec3 origin]> ∅)))).

(** [System.wrap()] *)
Definition wrap : M unit := wrap_with box_set.

(** ** The docstring of [box_set]

    "scale = False (default). The absolute atom positions remain unchanged.
    scale = True. The scaled (box-relative) positions remain unchanged."
    This is [box_set] with the test made on the popped flag; it is not the
    code, and serves to compare the code with its documentation. *)
Definition box_set_documented (kwargs : kwargs) : M unit :=
  let scale_flag := default (PBool false) (kwargs !! "scale") in
  let kwargs := delete "scale" kwargs in
  if negb (py_truthy scale_flag) then
    do b <- lift (Box_set Box_set_abc kwargs);
    fun s => Some (tt, with_box s b)
  else
    do spos <- (fun s => lift (scale s (Many (pos (atoms s)))) s);
    do b <- lift (Box_set Box_set_abc kwargs);
    exec (fun s => Some (tt, with_box s b));
    fun s => assign_pos (unscale s spos) s.

Definition wrap_documented : M unit := wrap_with box_set_documented.

(** ** [System.nlist] *)

Definition nlist (cutoff cmult : pyobj) : M pyobj :=
  fun s =>
    r ← tools_nlist s cutoff cmult;
    Some (PNone, with_prop s (<["nlist" := r]> (prop s))).

End Methods.

(** ** A concrete environment and concrete systems *)

Definition norm1 (v : vec3) : Qc :=
  Qcmax (vx v) (- vx v) + Qcmax (vy v) (- vy v) + Qcmax (vz v) (- vz v).

Definition on_axis (v : vec3) : bool :=
  match bool_decide (vx v = 0), bool_decide (vy v = 0), bool_decide (vz v = 0) with
  | false, true, true | true, false, true | true, true, false => true
  | _, _, _ => false
  end.

(** [Box.normalize] on the boxes whose vectors lie along the coordinate
    axes, where the lengths are rational: the vectors are rotated onto x, y
    and z and the origin is kept. *)
Definition normalize_on_axes (b : Box) : option Box :=
  if (on_axis (avect b) && on_axis (bvect b) && on_axis (cvect b)
      && negb (bool_decide (det (vects b) = 0)))%bool
  then Some (mkBox (M3 (V3 (norm1 (avect b)) 0 0)
                       (V3 0 (norm1 (bvect b)) 0)
                       (V3 0 0 (norm1 (cvect b))))
                   (origin b))
  else None.

Definition dist2 (u v : vec3) : Qc :=
  let d := vsub v u in vx d * vx d + vy d * vy d + vz d * vz d.

(** A neighbor list by direct comparison of all pairs, without periodic
    images: for each atom the indexes of the others within the cutoff. *)
Definition nlist_all_pairs (s : System) (cutoff cmult : pyobj) : option pyobj :=
  c ← to_num cutoff;
  if (Qcltb 0 c && is_integer_dtype (dt (np_asarray LP64 cmult)))%bool then
    let ps := pos (atoms s) in
    Some (PList (imap (fun i p =>
            PList (omap (fun '(j, q) =>
                     if (negb (Nat.eqb i j) && negb (Qcltb (c * c) (dist2 p q)))%bool
                     then Some (PInt (Z.of_nat j)) else None)
                   (imap (fun j q => (j, q)) ps))) ps))
  else None.

(** The plain difference of two positions of shape (3,). *)
Definition dvect_direct (pos_0 pos_1 : ndarray) (b : Box) (p : ndarray) : option ndarray :=
  u ← nd_vec3 (data pos_0);
  v ← nd_vec3 (data pos_1);
  Some (NdArray float64 (vec3_nd (vsub v u))).

Definition example_extern (p : platform) : Extern := {|
  host := p;
  normalize_reduce := normalize_on_axes;
  Box_set_abc := fun _ => None;
  Atoms_prop := fun a _ _ _ _ => Some (PNone, a);
  tools_nlist := nlist_all_pairs;
  tools_dvect := dvect_direct
|}.

Definition cube10 : Box := mkBox (M3 (V3 (qc 10 1) 0 0) (V3 0 (qc 10 1) 0) (V3 0 0 (qc 10 1))) zero3.

Definition pbc_of (x y z : bool) : ndarray :=
  NdArray bool_ (Axis [Item (EB x); Item (EB y); Item (EB z)]).

(** The scenario of the spec: x is not periodic, the box spans 0..10 and
    the only atom sits at x = -0.5. *)
Definition outside_x : System :=
  mkSystem (mkAtoms [1%Z] [V3 (qc (-1) 2) (qc 5 1) (qc 5 1)]) cube10 (pbc_of false true true) ∅.

Definition cube10_inv : mat3 :=
  M3 (V3 (qc 1 10) 0 0) (V3 0 (qc 1 10) 0) (V3 0 0 (qc 1 10)).

(** What [wrap] makes of [outside_x], and of that System in turn. *)
Definition wrapped_once : System :=
  mkSystem (mkAtoms [1%Z] [V3 (qc (-2071) 2000) (qc 5 1) (qc 5 1)])
           (mkBox (M3 (V3 (qc 1051 100) 0 0) (V3 0 (qc 10 1) 0) (V3 0 0 (qc 10 1)))
                  (V3 (qc (-51) 100) 0 0))
           (pbc_of false true true) ∅.

Definition wrapped_twice : System :=
  mkSystem (mkAtoms [1%Z] [V3 (qc (-3196621) 2000000) (qc 5 1) (qc 5 1)])
           (mkBox (M3 (V3 (qc 1104601 100000) 0 0) (V3 0 (qc 10 1) 0) (V3 0 0 (qc 10 1)))
                  (V3 (qc (-104601) 100000) 0 0))
           (pbc_of false true true) ∅.

(** One atom in the middle of the cube, and the keyword arguments that
    double the box. *)
Definition centred : System :=
  mkSystem (mkAtoms [1%Z] [V3 (qc 5 1) (qc 5 1) (qc 5 1)]) cube10 (pbc_of true true true) ∅.

Definition cube20_kwargs : kwargs :=
  <["avect" := PList [PFloat (qc 20 1); PFloat 0; PFloat 0]]>
  (<["bvect" := PList [PFloat 0; PFloat (qc 20 1); PFloat 0]]>
  (<["cvect" := PList [PFloat 0; PFloat 0; PFloat (qc 20 1)]]> ∅)).

(** A box along the axes that is not in normal form, with one atom. *)
Definition turned : System :=
  mkSystem (mkAtoms [1%Z] [V3 (qc 2 1) 1 1])
           (mkBox (M3 (V3 0 (qc 2 1) 0) (V3 0 0 (qc 3 1)) (V3 (qc 4 1) 0 0)) zero3)
           (pbc_of true true true) ∅.

(** Three atoms on a line, with a stale neighbor list and one more property
    already bound. *)
Definition three_atoms : System :=
  mkSystem (mkAtoms [1%Z; 1%Z; 2%Z]
                    [V3 1 (qc 5 1) (qc 5 1); V3 (qc 3 2) (qc 5 1) (qc 5 1);
                     V3 (qc 9 1) (qc 5 1) (qc 5 1)])
           cube10 (pbc_of false false false)
           (<["nlist" := PStr "stale"]> (<["note" := PInt 7]> ∅)).

Definition three_atoms_nlist : pyobj :=
  PList [PList [PInt 1]; PList [PInt 0]; PList []].

(** ** Calls on a System, for invariants *)

(** Number of entries of a value read as an array. *)
Definition entries (v : pyobj) : nat := nd_size (structure v).

(** A bool array of shape (3,). *)
Definition bool3 (a : ndarray) : Prop :=
  dt a = bool_ /\ exists x y z, data a = Axis [Item (EB x); Item (EB y); Item (EB z)].

(** The operations of a System, and the updates a caller can make through
    the objects that the [atoms], [box] and [prop] attributes hand out. *)
Inductive call :=
  | Call_atoms_prop (a_id key value dtype scale_kw : pyobj)
  | Call_box_set (kw : kwargs)
  | Call_box_normalize
  | Call_pbc_set (value : pyobj)
  | Call_scale (value : varray)
  | Call_unscale (value : varray)
  | Call_dvect (pos_0 pos_1 : pyobj)
  | Call_wrap
  | Call_nlist (cutoff cmult : pyobj)
  | Via_atoms (a : Atoms)
  | Via_box (b : Box)
  | Via_prop (m : gmap string pyobj).

(** The System after a call that returns. *)
Definition run_call {E : Extern} (c : call) (s : System) : option System :=
  match c with
  | Call_atoms_prop a_id key value dtype scale_kw =>
      snd <$> atoms_prop a_id key value dtype scale_kw s
  | Call_box_set kw => snd <$> box_set kw s
  | Call_box_normalize => snd <$> box_normalize s
  | Call_pbc_set value => snd <$> pbc_set value s
  | Call_scale value => scale s value ≫= fun _ => Some s
  | Call_unscale value => Some s
  | Call_dvect pos_0 pos_1 => dvect s pos_0 pos_1 ≫= fun _ => Some s
  | Call_wrap => snd <$> wrap s
  | Call_nlist cutoff cmult => snd <$> nlist cutoff cmult s
  | Via_atoms a => Some (with_atoms s a)
  | Via_box b => Some (with_box s b)
  | Via_prop m => Some (with_prop s m)
  end.

(** The Systems that exist: made by the constructor, then changed by calls. *)
Inductive reachable {E : Extern} : System -> Prop :=
  | reach_init atoms box pbc scale_kw prop s :
      __init__ atoms box pbc scale_kw prop = Some s -> reachable s
  | reach_call c s s' :
      reachable s -> run_call c s = Some s' -> reachable s'.

(** The integer dtype that is not C long on the host. *)
Definition other_int (p : platform) : dtype :=
  match p with LP64 => int32 | LLP64 => int64 end.

(** ** Closed forms for what [wrap] computes *)

(** [x - np.floor(x)] *)
Definition frac (x : Qc) : Qc := x - Qcfloor x.

Definition vfloor (v : vec3) : vec3 := V3 (Qcfloor (vx v)) (Qcfloor (vy v)) (Qcfloor (vz v)).

(** The scaled coordinate after the loop of [wrap], for an axis whose flag
    is [b]. *)
Definition wrap_coord (b : bool) (x : Qc) : Qc := if b then frac x else x.

Definition wrapv (b0 b1 b2 : bool) (v : vec3) : vec3 :=
  V3 (wrap_coord b0 (vx v)) (wrap_coord b1 (vy v)) (wrap_coord b2 (vz v)).

(** One entry of [mins] or [maxs] after the pass for its axis, when it was
    [cur] before. *)
Definition step_lo (b : bool) (cur : Qc) (col : list Qc) : option Qc :=
  if b then Some cur
  else min ← col_min col; Some (if Qcltb min 0 then min - qc 1 1000 else cur).
Definition step_hi (b : bool) (cur : Qc) (col : list Qc) : option Qc :=
  if b then Some cur
  else max ← col_max col; Some (if Qcltb 1 max then max + qc 1 1000 else cur).

(** The entries of [mins] and [maxs] after the loop, which starts from 0
    and 1. *)
Definition wrap_lo (b : bool) (col : list Qc) : option Qc := step_lo b 0 col.
Definition wrap_hi (b : bool) (col : list Qc) : option Qc := step_hi b 1 col.

(** What [scale] and [unscale] do to one vector of a box whose matrix is
    invertible. *)
Definition scaled (b : Box) (v : vec3) : vec3 :=
  vdot (vsub v (origin b)) (mdiv (adj (vects b)) (det (vects b))).
Definition unscaled (b : Box) (v : vec3) : vec3 := vadd (vdot v (vects b)) (origin b).

(** The box that [wrap] asks [box_set] for. *)
Definition grown (b : Box) (lo hi : vec3) : Box :=
  mkBox (M3 (vmul (avect b) (vx hi - vx lo)) (vmul (bvect b) (vy hi - vy lo))
            (vmul (cvect b) (vz hi - vz lo)))
        (vadd (origin b) (vdot lo (vects b))).

(** ** More concrete systems *)

(** [Atoms.prop] for the whole 'pos' array, after the docstring of
    [System.atoms_prop]: without a value the stored array is returned, with
    a value it is saved. *)
Definition Atoms_prop_pos (a : Atoms) (a_id key value dtype : pyobj)
    : option (pyobj * Atoms) :=
  match a_id, key with
  | PNone, PStr k =>
      if bool_decide (k = "pos"%string) then
        if is_None value then Some (of_varray (Many (pos a)), a)
        else
          v ← to_varray value;
          p ← (match v with
               | One u | Many [u] => Some (replicate (length (pos a)) u)
               | Many vs => if decide (length vs = length (pos a)) then Some vs else None
               end);
          Some (PNone, mkAtoms (atype a) p)
      else None
  | _, _ => None
  end.

Definition store_extern : Extern := {|
  host := LP64;
  normalize_reduce := normalize_on_axes;
  Box_set_abc := fun _ => None;
  Atoms_prop := Atoms_prop_pos;
  tools_nlist := nlist_all_pairs;
  tools_dvect := dvect_direct
|}.

(** Two atoms in a fully periodic cube, one of them outside of it. *)
Definition stray : System :=
  mkSystem (mkAtoms [1%Z; 1%Z]
                    [V3 (qc 12 1) (qc (-3) 1) (qc 5 1); V3 (qc 5 1) (qc 5 1) (qc 5 1)])
           cube10 (pbc_of true true true) ∅.

Definition stray_wrapped : System :=
  mkSystem (mkAtoms [1%Z; 1%Z]
                    [V3 (qc 2 1) (qc 7 1) (qc 5 1); V3 (qc 5 1) (qc 5 1) (qc 5 1)])
           cube10 (pbc_of true true true) ∅.


(** What [box_set] makes of [centred] when the cube of side 20 is asked
    for. *)
Definition centred_rescaled : System :=
  mkSystem (mkAtoms [1%Z] [V3 (qc 10 1) (qc 10 1) (qc 10 1)])
           (mkBox (M3 (V3 (qc 20 1) 0 0) (V3 0 (qc 20 1) 0) (V3 0 0 (qc 20 1))) zero3)
           (pbc_of true true true) ∅.

(** [three_atoms] after a neighbor list with cutoff 1, and the list for
    cutoff 10. *)
Definition three_atoms_listed : System :=
  with_prop three_atoms (<["nlist" := three_atoms_nlist]> (prop three_atoms)).

Definition three_atoms_nlist_10 : pyobj :=
  PList [PList [PInt 1; PInt 2]; PList [PInt 0; PInt 2]; PList [PInt 0; PInt 1]].


(** * atomman.cluster.BondAngleMap: coordinates, energies and their
    distribution *)

(** A float that may be [np.nan]. *)
Inductive flt := Num (q : Qc) | NaN.

Inductive exn :=
  | ValueError (msg : string)
  | IndexError
  | AssertionError
  | UnboundLocalError
  | UnitError.

Inductive outcome := Returned | Raised (e : exn).

(** The five columns of the pandas DataFrame. *)
Record DataFrame := mkDF {
  r_ij : list Qc;
  r_ik : list Qc;
  r_jk : list Qc;
  theta : list Qc;
  energy : list flt
}.

(** [pd.DataFrame(dict)]: the columns have to have one length. *)
Definition pd_DataFrame (a b c d : list Qc) (e : list flt) : option DataFrame :=
  if (Nat.eqb (length b) (length a) && Nat.eqb (length c) (length a)
      && Nat.eqb (length d) (length a) && Nat.eqb (length e) (length a))%bool
  then Some (mkDF a b c d e) else None.

(** [len(self.df)] *)
Definition df_len (d : DataFrame) : nat := length (r_ij d).

Record BondAngleMap := mkBAM {
  rmin : option Qc;
  rmax : option Qc;
  rnum : option Z;
  thetamin : option Qc;
  thetamax : option Qc;
  thetanum : option Z;
  df : option DataFrame;
  symbols : option (list string)
}.

(** The numpy functions on floats that have no rational value. *)
Class Numerics := {
  (** [np.sqrt(a**2 + b**2 - a * b * 2 * np.cos(np.radians(t)))] *)
  law_of_cosines : Qc -> Qc -> Qc -> Qc
}.

(** [np.linspace(start, stop, num)] on exact values: [TypeError] when an
    argument is None and [ValueError] when [num] is negative are both
    [None]. *)
Definition np_linspace (start stop : option Qc) (num : option Z) : option (list Qc) :=
  match start, stop, num with
  | Some a, Some b, Some n =>
      if (n <? 0)%Z then None
      else if (n =? 1)%Z then Some [a]
      else Some (map (fun i => a + Qc_of_Z (Z.of_nat i) * ((b - a) / Qc_of_Z (n - 1)))
                     (seq 0 (Z.to_nat n)))
  | _, _, _ => None
  end.

(** [np.meshgrid(x, y, z, indexing='ij')], each of the three arrays
    flattened. *)
Definition meshgrid_ij (x y z : list Qc) : list Qc * list Qc * list Qc :=
  (flat_map (fun a => flat_map (fun _ => map (fun _ => a) z) y) x,
   flat_map (fun _ => flat_map (fun b => map (fun _ => b) z) y) x,
   flat_map (fun _ => flat_map (fun _ => z) y) x).

Definition Qcabs (x : Qc) : Qc := Qcmax x (- x).

(** [np.isclose(a, b)] with the default tolerances. *)
Definition isclose (a b : Qc) : bool :=
  negb (Qcltb (qc 1 100000000 + qc 1 100000 * Qcabs b) (Qcabs (a - b))).

(** [np.allclose(a, b)] for two arrays of one axis; arrays of different
    lengths either raise or are not close. *)
Definition allclose (a b : list Qc) : bool :=
  (Nat.eqb (length a) (length b) && forallb (fun '(x, y) => isclose x y) (zip a b))%bool.

(** [len(np.unique(a))] *)
Definition unique_count (a : list Qc) : Z := Z.of_nat (length (remove_dups a)).

Record set_args := mkArgs {
  a_rmin : option Qc;
  a_rmax : option Qc;
  a_rnum : option Z;
  a_thetamin : option Qc;
  a_thetamax : option Qc;
  a_thetanum : option Z;
  a_r_ij : option (list Qc);
  a_r_ik : option (list Qc);
  a_theta : option (list Qc);
  a_energy : option (list flt)
}.

Definition with_ranges (self : BondAngleMap)
    (r0 r1 : option Qc) (rn : option Z) (t0 t1 : option Qc) (tn : option Z) : BondAngleMap :=
  mkBAM r0 r1 rn t0 t1 tn (df self) (symbols self).

Definition with_df (self : BondAngleMap) (d : DataFrame) : BondAngleMap :=
  mkBAM (rmin self) (rmax self) (rnum self) (thetamin self) (thetamax self) (thetanum self)
        (Some d) (symbols self).

Section BondAngleMapMethods.
Context {N : Numerics}.

(** The end of [set]: the energies are checked, r_jk is computed and the
    DataFrame is built. *)
Definition set_table (self : BondAngleMap) (r_ij r_ik theta : list Qc)
    (energy : option (list flt)) : BondAngleMap * outcome :=
  let checked :=
    match energy with
    | None => Some (replicate (length r_ij) NaN)
    | Some e => if negb (Nat.eqb (length e) (length r_ij)) then None else Some e
    end in
  match checked with
  | None => (self, Raised (ValueError "Mismatch between number of energies given and expected"))
  | Some energy =>
      let r_jk := map (fun '(a, b, t) => law_of_cosines a b t) (zip (zip r_ij r_ik) theta) in
      match pd_DataFrame r_ij r_ik r_jk theta energy with
      | Some d => (with_df self d, Returned)
      | None => (self, Raised (ValueError "All arrays must be of the same length"))
      end
  end.

(** [BondAngleMap.set(rmin, rmax, rnum, thetamin, thetamax, thetanum, r_ij,
    r_ik, theta, energy)] *)
Definition BondAngleMap_set (a : set_args) (self : BondAngleMap) : BondAngleMap * outcome :=
  match a_rmin a with
  | Some rmin =>
      if (bool_decide (is_Some (a_r_ij a)) || bool_decide (is_Some (a_r_ik a))
          || bool_decide (is_Some (a_theta a)))%bool
      then (self, Raised (ValueError "range parameters and explicit values cannot be mixed"))
      else
        match np_linspace (Some rmin) (a_rmax a) (a_rnum a),
              np_linspace (a_thetamin a) (a_thetamax a) (a_thetanum a) with
        | Some rvals, Some tvals =>
            let self := with_ranges self (Some rmin) (a_rmax a) (a_rnum a)
                                    (a_thetamin a) (a_thetamax a) (a_thetanum a) in
            let '(r_ij, r_ik, theta) := meshgrid_ij rvals rvals tvals in
            set_table self r_ij r_ik theta (a_energy a)
        | _, _ => (self, Raised (ValueError "Invalid range parameters"))
        end
  | None =>
      if negb (bool_decide (a_rmax a = None) && bool_decide (a_rnum a = None)
               && bool_decide (a_thetamin a = None) && bool_decide (a_thetamax a = None)
               && bool_decide (a_thetanum a = None))%bool
      then (self, Raised (ValueError "range parameters and explicit values cannot be mixed"))
      else
        match a_r_ij a, a_r_ik a, a_theta a with
        | Some r_ij, Some r_ik, Some theta =>
            if (negb (Nat.eqb (length r_ij) (length r_ik))
                || negb (Nat.eqb (length r_ij) (length theta)))%bool
            then (self, Raised (ValueError "Invalid parameters"))
            else
              match col_min r_ij, col_max r_ij, col_min theta, col_max theta with
              | Some rmin, Some rmax, Some thetamin, Some thetamax =>
                  let rnum := unique_count r_ij in
                  let thetanum := unique_count theta in
                  let regular :=
                    if (Z.of_nat (length r_ij) =? thetanum * rnum * rnum)%Z then
                      match np_linspace (Some rmin) (Some rmax) (Some rnum),
                            np_linspace (Some thetamin) (Some thetamax) (Some thetanum) with
                      | Some rvals, Some tvals =>
                          let '(r_ij_test, r_ik_test, theta_test) :=
                            meshgrid_ij rvals rvals tvals in
                          (allclose r_ij r_ij_test && allclose r_ik r_ik_test
                           && allclose theta theta_test)%bool
                      | _, _ => false
                      end
                    else false in
                  let self :=
                    if regular
                    then with_ranges self (Some rmin) (Some rmax) (Some rnum)
                                     (Some thetamin) (Some thetamax) (Some thetanum)
                    else with_ranges self None None None None None None in
                  set_table self r_ij r_ik theta (a_energy a)
              | _, _, _, _ =>
                  (self, Raised (ValueError
                     "zero-size array to reduction operation minimum which has no identity"))
              end
        | _, _, _ => (self, Raised (ValueError "Invalid parameters"))
        end
  end.

(** [BondAngleMap.itercoords()]: the tuples that the generator yields, in
    order; [AttributeError] before a first [set] is [None]. *)
Definition itercoords (self : BondAngleMap) : option (list (Qc * Qc * Qc * Qc)) :=
  d ← df self;
  Some (map (fun '(a, b, c, t) => (a, b, c, t))
            (zip (zip (zip (r_ij d) (r_ik d)) (r_jk d)) (theta d))).

End BondAngleMapMethods.

(** ** Example maps *)

(** The third side at the two straight angles, where it is rational:
    |a - b| at 0 degrees and a + b at 180 degrees.  The examples use no
    other angle. *)
Definition straight_angles : Numerics :=
  {| law_of_cosines a b t := if Qcltb t (qc 90 1) then Qcabs (a - b) else a + b |}.

(** The object inside [__init__], before its first [set]. *)
Definition unset_map : BondAngleMap := mkBAM None None None None None None None None.

(** rmin=1, rmax=2, rnum=2, thetamin=0, thetamax=180, thetanum=2 *)
Definition grid_args (e : option (list flt)) : set_args :=
  mkArgs (Some 1) (Some (qc 2 1)) (Some 2%Z) (Some 0) (Some (qc 180 1)) (Some 2%Z)
         None None None e.



(** ** The distribution of the energies *)

Definition Qcleb (x y : Qc) : bool := negb (Qcltb y x).

(** The numbers among the energies.  A comparison with nan is False, so
    that a nan is in no bin and below no bound. *)
Definition numbers (e : list flt) : list Qc :=
  omap (fun v => match v with Num q => Some q | NaN => None end) e.

(** [np.sum(cond)]: the number of the values on which [cond] holds. *)
Fixpoint count_where (cond : Qc -> bool) (l : list Qc) : Z :=
  match l with
  | [] => 0
  | x :: r => ((if cond x then 1 else 0) + count_where cond r)%Z
  end.

(** Bin [i] of a histogram: [edges[i] <= x < edges[i+1]], and
    [x <= edges[i+1]] as well in the last bin. *)
Definition in_bin (edges : list Qc) (i : nat) (x : Qc) : bool :=
  match edges !! i, edges !! S i with
  | Some l, Some r =>
      (Qcleb l x && (if Nat.eqb (S (S i)) (length edges) then Qcleb x r else Qcltb x r))%bool
  | _, _ => false
  end.

(** [np.histogram(a, bins=n, range=(lo, hi))] for an int [n], as numpy
    documents it: the n + 1 edges are [np.linspace(lo, hi, n + 1)], all bins
    but the last are half-open, and a value outside of the range is in no
    bin.  A range of no width is widened by 0.5 on either side.
    [ValueError] for n < 1 and for lo > hi is [None]. *)
Definition np_histogram (a : list flt) (n : Z) (lo hi : Qc) : option (list Z * list Qc) :=
  if (n <? 1)%Z then None
  else if Qcltb hi lo then None
  else
    let '(first_edge, last_edge) :=
      if bool_decide (lo = hi) then (lo - qc 1 2, hi + qc 1 2) else (lo, hi) in
    edges ← np_linspace (Some first_edge) (Some last_edge) (Some (n + 1)%Z);
    Some (map (fun i => count_where (in_bin edges i) (numbers a)) (seq 0 (Z.to_nat n)),
          edges).

(** A count divided by [len(self.df)].  Without rows every count is 0, and
    0 / 0 is nan. *)
Definition true_divide (h : Z) (n : nat) : flt :=
  if Nat.eqb n 0 then NaN else Num (Qc_of_Z h / Qc_of_Z (Z.of_nat n)).

Definition flt_add (a b : flt) : flt :=
  match a, b with
  | Num x, Num y => Num (x + y)
  | _, _ => NaN
  end.

Fixpoint cumsum_from (acc : flt) (l : list flt) : list flt :=
  match l with
  | [] => []
  | x :: r => flt_add acc x :: cumsum_from (flt_add acc x) r
  end.

(** [np.cumsum(a)] *)
Definition np_cumsum (l : list flt) : list flt :=
  match l with
  | [] => []
  | x :: r => x :: cumsum_from x r
  end.

(** [BondAngleMap.pdf(nbins, energymin, energymax)]; an exception is
    [None]. *)
Definition pdf (self : BondAngleMap) (nbins : Z) (energymin energymax : Qc)
    : option (list flt * list Qc) :=
  d ← df self;
  '(hist, edges) ← np_histogram (energy d) nbins energymin energymax;
  let pdf := map (fun h => true_divide h (df_len d)) hist in
  let centers :=
    zip_with (fun a b => (a + b) / qc 2 1) (removelast edges) (tail edges) in
  Some (pdf, centers).

(** [BondAngleMap.cumulative_pdf(nbins, energymin, energymax)]; an exception
    is [None]. *)
Definition cumulative_pdf (self : BondAngleMap) (nbins : Z) (energymin energymax : Qc)
    : option (list flt * list Qc) :=
  '(pdf, centers) ← pdf self nbins energymin energymax;
  d ← df self;
  let shift :=
    true_divide (count_where (fun x => Qcltb x energymin) (numbers (energy d)))
                (df_len d) in
  let cum_pdf := map (fun c => flt_add c shift) (np_cumsum pdf) in
  Some (cum_pdf, centers).

(** The upper edge of bin [i] of [nbins] bins over [lo, hi], and the center
    of the bin. *)
Definition bin_width (nbins : Z) (lo hi : Qc) : Qc := (hi - lo) / Qc_of_Z nbins.
Definition bin_edge (nbins : Z) (lo hi : Qc) (k : nat) : Qc :=
  lo + Qc_of_Z (Z.of_nat k) * bin_width nbins lo hi.
Definition bin_center (nbins : Z) (lo hi : Qc) (i : nat) : Qc :=
  lo + (Qc_of_Z (Z.of_nat i) + qc 1 2) * bin_width nbins lo hi.

(** An energy counted by entry [i] of the cumulative distribution: below
    the upper edge of bin [i], or up to [hi] for the last bin. *)
Definition below_bin (nbins : Z) (lo hi : Qc) (i : nat) (x : Qc) : bool :=
  if Nat.eqb (S i) (Z.to_nat nbins) then Qcleb x hi
  else Qcltb x (bin_edge nbins lo hi (S i)).

(** The edges of [n] bins between the values of [edge], the values up to
    edge [k] (and edge [n] itself), and those of them from edge 0 on. *)
Definition edges_of (n : nat) (edge : nat -> Qc) : list Qc := map edge (seq 0 (S n)).

Definition upto (n : nat) (edge : nat -> Qc) (k : nat) (x : Qc) : bool :=
  if Nat.eqb k n then Qcleb x (edge k) else Qcltb x (edge k).

Definition within (n : nat) (edge : nat -> Qc) (k : nat) (x : Qc) : bool :=
  (Qcleb (edge 0%nat) x && upto n edge k x)%bool.

(** The sum of an array of floats. *)
Definition np_sum (l : list flt) : flt := foldl flt_add (Num 0) l.

(** A table of four rows, one of which has no energy yet. *)
Definition four_rows_df : DataFrame :=
  mkDF [1; 1; 1; 1] [1; 1; 1; 1] [0; 0; 0; 0] [0; 0; 0; 0]
       [Num (qc (-3) 1); Num (qc 1 2); NaN; Num (qc 2 1)].

Definition four_rows : BondAngleMap :=
  mkBAM None None None None None None (Some four_rows_df) None.


(** ** Table files *)

(** A line of a text file and a part of it: a list of code points, those
    below 256. *)
Definition text := list Ascii.ascii.

(** [str.isspace] on a code point below 256. *)
Definition isspace (c : Ascii.ascii) : bool :=
  let n := Ascii.nat_of_ascii c in
  ((9 <=? n) && (n <=? 13) || (28 <=? n) && (n <=? 32) || (n =? 133) || (n =? 160))%nat.

(** The code point of the comment sign. *)
Definition hash : Ascii.ascii := Ascii.ascii_of_nat 35.

Fixpoint lstrip (s : text) : text :=
  match s with
  | [] => []
  | c :: r => if isspace c then lstrip r else s
  end.

(** [s.strip()] *)
Definition strip (s : text) : text := rev (lstrip (rev (lstrip s))).

(** [s.split()]: [cur] is the part that is being read, last code point
    first. *)
Fixpoint split_from (cur : text) (s : text) : list text :=
  match s with
  | [] => match cur with [] => [] | _ => [rev cur] end
  | c :: r =>
      if isspace c
      then match cur with [] => split_from [] r | _ => rev cur :: split_from [] r end
      else split_from (c :: cur) r
  end.

Definition split (s : text) : list text := split_from [] s.

(** What [load_table] calls and this file does not define: [float] and [int]
    on a text ([None] is ValueError; the texts of infinities are left
    out), the content of a fresh [np.empty] array, and [uc.set_in_units] on
    a number and on an array ([None] is an exception of that function,
    [UnitError] below). *)
Class TableText := {
  py_float : text -> option flt;
  py_int : text -> option Z;
  np_empty : nat -> list flt;
  np_empty_length : forall n, length (np_empty n) = n;
  set_in_units : flt -> text -> option flt;
  set_in_units_array : list flt -> text -> option (list flt)
}.

(** A statement that raises or gives a value. *)
Definition result (A : Type) : Type := exn + A.

Definition result_bind {A B : Type} (m : result A) (k : A -> result B) : result B :=
  match m with inl e => inl e | inr a => k a end.

Declare Scope result_scope.
Delimit Scope result_scope with result.
Notation "'try' x := m 'in' k" := (result_bind m (fun x => k))
  (at level 10, x name, m at level 100, k at level 200) : result_scope.

(** [np.isclose] on two floats: nan is close to nothing. *)
Definition isclose_flt (a b : flt) : bool :=
  match a, b with
  | Num x, Num y => isclose x y
  | _, _ => false
  end.

(** The local variables of [load_table]; [None] is a variable that is not
    bound yet. *)
Record table_vars := mkVars {
  t_count : nat;
  t_rmin : option flt;
  t_rmax : option flt;
  t_rnum : option Z;
  t_thetamin : option flt;
  t_thetamax : option flt;
  t_thetanum : option Z;
  t_energies : list flt
}.

Definition table_start : table_vars := mkVars 0 None None None None None None [].

Section LoadTable.
Context {T : TableText}.
Local Open Scope result_scope.

(** [terms[n]] *)
Definition term (terms : list text) (n : nat) : result text :=
  match terms !! n with Some t => inr t | None => inl IndexError end.

(** [float(terms[n])] *)
Definition float_term (terms : list text) (n : nat) : result flt :=
  try t := term terms n in
  match py_float t with
  | Some x => inr x
  | None => inl (ValueError "could not convert string to float")
  end.

(** [int(terms[n])] *)
Definition int_term (terms : list text) (n : nat) : result Z :=
  try t := term terms n in
  match py_int t with
  | Some x => inr x
  | None => inl (ValueError "invalid literal for int() with base 10")
  end.

(** A local variable that is read. *)
Definition bound {A : Type} (v : option A) : result A :=
  match v with Some a => inr a | None => inl UnboundLocalError end.

Definition py_assert (cond : bool) : result unit :=
  if cond then inr tt else inl AssertionError.

(** [energies[index] = value] on an array of one axis: a negative index
    counts from the end. *)
Definition setitem (a : list flt) (index : Z) (value : flt) : result (list flt) :=
  let n := Z.of_nat (length a) in
  if ((index <? - n) || (n <=? index))%Z then inl IndexError
  else inr (<[Z.to_nat (if (index <? 0)%Z then index + n else index) := value]> a).

(** The body of the loop over the lines for one line that is no comment. *)
Definition read_terms (terms : list text) (v : table_vars) : result table_vars :=
  match t_count v with
  | 0%nat =>
      try rmin := float_term terms 0 in
      try rmax := float_term terms 1 in
      try rnum := int_term terms 2 in
      inr (mkVars 1 (Some rmin) (Some rmax) (Some rnum)
                  (t_thetamin v) (t_thetamax v) (t_thetanum v) (t_energies v))
  | 1%nat =>
      try rmin := bound (t_rmin v) in
      try x := float_term terms 0 in
      try _ := py_assert (isclose_flt rmin x) in
      try rmax := bound (t_rmax v) in
      try y := float_term terms 1 in
      try _ := py_assert (isclose_flt rmax y) in
      try rnum := bound (t_rnum v) in
      try z := int_term terms 2 in
      try _ := py_assert (isclose (Qc_of_Z rnum) (Qc_of_Z z)) in
      inr (mkVars 2 (t_rmin v) (t_rmax v) (t_rnum v)
                  (t_thetamin v) (t_thetamax v) (t_thetanum v) (t_energies v))
  | 2%nat =>
      try thetamin := float_term terms 0 in
      try thetamax := float_term terms 1 in
      try thetanum := int_term terms 2 in
      try rnum := bound (t_rnum v) in
      if (rnum * rnum * thetanum <? 0)%Z
      then inl (ValueError "negative dimensions are not allowed")
      else inr (mkVars 3 (t_rmin v) (t_rmax v) (t_rnum v)
                       (Some thetamin) (Some thetamax) (Some thetanum)
                       (np_empty (Z.to_nat (rnum * rnum * thetanum))))
  | _ =>
      try i := int_term terms 0 in
      try j := int_term terms 1 in
      try k := int_term terms 2 in
      try thetanum := bound (t_thetanum v) in
      try rnum := bound (t_rnum v) in
      let index := ((k - 1) + (j - 1) * thetanum + (i - 1) * rnum * thetanum)%Z in
      try value := float_term terms 3 in
      try energies := setitem (t_energies v) index value in
      inr (mkVars (t_count v) (t_rmin v) (t_rmax v) (t_rnum v)
                  (t_thetamin v) (t_thetamax v) (t_thetanum v) energies)
  end.

(** One turn of the loop over the lines. *)
Definition read_line (line : text) (v : table_vars) : result table_vars :=
  let terms := split line in
  match strip line with
  | [] => inl IndexError
  | c :: _ =>
      if (Ascii.eqb c hash || Nat.eqb (length terms) 0)%bool then inr v
      else read_terms terms v
  end.

Fixpoint read_lines (lines : list text) (v : table_vars) : result table_vars :=
  match lines with
  | [] => inr v
  | line :: rest => try v' := read_line line v in read_lines rest v'
  end.

(** The arguments of the call of [set] that ends [load_table]. *)
Definition table_call (v : table_vars) (length_unit energy_unit : text)
    : result (flt * flt * Z * flt * flt * Z * list flt) :=
  try rmin := bound (t_rmin v) in
  try rmin := match set_in_units rmin length_unit with
              | Some x => inr x | None => inl UnitError end in
  try rmax := bound (t_rmax v) in
  try rmax := match set_in_units rmax length_unit with
              | Some x => inr x | None => inl UnitError end in
  try energies := match set_in_units_array (t_energies v) energy_unit with
                  | Some x => inr x | None => inl UnitError end in
  try rnum := bound (t_rnum v) in
  try thetamin := bound (t_thetamin v) in
  try thetamax := bound (t_thetamax v) in
  try thetanum := bound (t_thetanum v) in
  inr (rmin, rmax, rnum, thetamin, thetamax, thetanum, energies).

Context {N : Numerics}.

(** [BondAngleMap.load_table(filename, length_unit, energy_unit)] on the
    lines of the file.  The result is [None] where the model of [set] ends:
    for a range bound that is nan. *)
Definition load_table (lines : list text) (length_unit energy_unit : text)
    (self : BondAngleMap) : option (BondAngleMap * outcome) :=
  match read_lines lines table_start with
  | inl e => Some (self, Raised e)
  | inr v =>
      match table_call v length_unit energy_unit with
      | inl e => Some (self, Raised e)
      | inr (Num rmin, Num rmax, rnum, Num thetamin, Num thetamax, thetanum, energies) =>
          Some (BondAngleMap_set
                  (mkArgs (Some rmin) (Some rmax) (Some rnum)
                          (Some thetamin) (Some thetamax) (Some thetanum)
                          None None None (Some energies))
                  self)
      | inr _ => None
      end
  end.

End LoadTable.

(** A line that is no comment and not blank. *)
Definition is_data (line : text) : bool :=
  match strip line with
  | [] => false
  | c :: _ => negb (Ascii.eqb c hash)
  end.

(** ** Example table file *)

Definition digit (c : Ascii.ascii) : option Z :=
  let n := Ascii.nat_of_ascii c in
  if ((48 <=? n) && (n <=? 57))%nat then Some (Z.of_nat (n - 48)) else None.

Fixpoint digits (acc : Z) (s : text) : option Z :=
  match s with
  | [] => Some acc
  | c :: r => d ← digit c; digits (10 * acc + d) r
  end.

Definition whole (s : text) : option Z :=
  match s with [] => None | _ => digits 0 s end.

(** The texts of whole numbers without a sign, which is all that the
    example file holds; a fresh array of zeros; units that change
    nothing. *)
Definition whole_numbers : TableText :=
  {| py_float s := (fun z => Num (Qc_of_Z z)) <$> whole s;
     py_int := whole;
     np_empty n := replicate n (Num 0);
     np_empty_length n := length_replicate n (Num 0);
     set_in_units x _ := Some x;
     set_in_units_array l _ := Some l |}.

Definition table_lines : list text :=
  map String.list_ascii_of_string
      ["# r12 r13 theta"; "1 2 2"; "1 2 2"; "0 180 2";
       "1 1 1 5"; "1 1 2 6"; "1 2 1 7"; "1 2 2 8";
       "2 1 1 9"; "2 1 2 10"; "2 2 1 11"; "2 2 2 12"]%string.

(** The local variables after the three range lines of the example file. *)
Definition table_header_vars : table_vars :=
  mkVars 3 (Some (Num 1)) (Some (Num (qc 2 1))) (Some 2%Z)
         (Some (Num 0)) (Some (Num (qc 180 1))) (Some 2%Z) (replicate 8 (Num 0)).


(** ** The two transforms on binary64 numbers *)

(** numpy computes on IEEE 754 binary64 numbers ([float64]), where every
    operation rounds.  [scale] and [unscale] are written once more on the
    primitive binary64 numbers, for one 3-vector, to measure how far
    [unscale] of [scale] lands from its argument. *)
Module Binary64.
Import PrimFloat.
Local Open Scope float_scope.

Record vec3 := V3 { vx : float; vy : float; vz : float }.
Record mat3 := M3 { row0 : vec3; row1 : vec3; row2 : vec3 }.
Record Box := mkBox { vects : mat3; origin : vec3 }.

Definition vadd (u v : vec3) : vec3 := V3 (vx u + vx v) (vy u + vy v) (vz u + vz v).
Definition vsub (u v : vec3) : vec3 := V3 (vx u - vx v) (vy u - vy v) (vz u - vz v).

(** [v.dot(m)], the three products of an entry added from left to right. *)
Definition vdot (v : vec3) (m : mat3) : vec3 :=
  V3 (vx v * vx (row0 m) + vy v * vx (row1 m) + vz v * vx (row2 m))
     (vx v * vy (row0 m) + vy v * vy (row1 m) + vz v * vy (row2 m))
     (vx v * vz (row0 m) + vy v * vz (row1 m) + vz v * vz (row2 m)).

Definition det (m : mat3) : float :=
  let (a, b, c) := m in
    vx a * (vy b * vz c - vz b * vy c)
  - vy a * (vx b * vz c - vz b * vx c)
  + vz a * (vx b * vy c - vy b * vx c).

Definition adj (m : mat3) : mat3 :=
  let (a, b, c) := m in
  M3 (V3 (vy b * vz c - vz b * vy c) (vz a * vy c - vy a * vz c) (vy a * vz b - vz a * vy b))
     (V3 (vz b * vx c - vx b * vz c) (vx a * vz c - vz a * vx c) (vz a * vx b - vx a * vz b))
     (V3 (vx b * vy c - vy b * vx c) (vy a * vx c - vx a * vy c) (vx a * vy b - vy a * vx b)).

Definition mdiv (m : mat3) (k : float) : mat3 :=
  M3 (V3 (vx (row0 m) / k) (vy (row0 m) / k) (vz (row0 m) / k))
     (V3 (vx (row1 m) / k) (vy (row1 m) / k) (vz (row1 m) / k))
     (V3 (vx (row2 m) / k) (vy (row2 m) / k) (vz (row2 m) / k)).

(** [np.linalg.inv] by the formula used above.  On the identity matrix
    every step of it is exact, as is every step of the elimination that
    numpy runs. *)
Definition linalg_inv (m : mat3) : option mat3 :=
  if det m =? 0 then None else Some (mdiv (adj m) (det m)).

(** [System.scale(value)] *)
Definition scale (b : Box) (value : vec3) : option vec3 :=
  match linalg_inv (vects b) with
  | Some inverse => Some (vdot (vsub value (origin b)) inverse)
  | None => None
  end.

(** [System.unscale(value)] *)
Definition unscale (b : Box) (value : vec3) : vec3 :=
  vadd (vdot value (vects b)) (origin b).

(** The unit cube with its origin at (1e8, 1e8, 1e8). *)
Definition far_unit_cube : Box :=
  mkBox (M3 (V3 1 0 0) (V3 0 1 0) (V3 0 0 1)) (V3 100000000 100000000 100000000).

(** The binary64 numbers that Python writes 0.3, 1e-10 and 1e-12. *)
Definition three_tenths : float := 0x1.3333333333333p-2.
Definition tol_absolute : float := 0x1.b7cdfd9d7bdbbp-34.
Definition tol_relative : float := 0x1.19799812dea11p-40.

(** The cube of side 10 at the origin, and a coordinate far outside of it,
    8763774.618976614. *)
Definition cube10 : Box :=
  mkBox (M3 (V3 10 0 0) (V3 0 10 0) (V3 0 0 10)) (V3 0 0 0).
Definition far_away : float := 0x1.0b72fd3cea80bp+23.

(** The step of [wrap] on one scaled coordinate of a periodic axis,
    [spos - np.floor(spos)], with the floor given, and the coordinate
    -1e-17, whose floor is -1. *)
Definition wrap_coord (spos floor : float) : float := spos - floor.
Definition just_below_zero : float := -0x1.70ef54646d497p-57.

(** The largest distance between the entries of two vectors. *)
Definition distance (u v : vec3) : float :=
  let d (a b : float) := abs (a - b) in
  let m (a b : float) := if a <? b then b else a in
  m (m (d (vx u) (vx v)) (d (vy u) (vy v))) (d (vz u) (vz v)).

End Binary64.

(** * Properties *)

(** ** Linear algebra facts *)

Lemma vec3_eq (u v : vec3) : vx u = vx v -> vy u = vy v -> vz u = vz v -> u = v.
Proof. destruct u, v; simpl; congruence. Qed.

Lemma vdot_inv_r (m : mat3) (v : vec3) :
  det m <> 0 -> vdot (vdot v (mdiv (adj m) (det m))) m = v.
Proof.
  intros Hd. destruct m as [[a0 a1 a2] [b0 b1 b2] [c0 c1 c2]], v as [x y z].
  unfold det in *. simpl in *. apply vec3_eq; simpl; field; exact Hd.
Qed.

Lemma vdot_inv_l (m : mat3) (v : vec3) :
  det m <> 0 -> vdot (vdot v m) (mdiv (adj m) (det m)) = v.
Proof.
  intros Hd. destruct m as [[a0 a1 a2] [b0 b1 b2] [c0 c1 c2]], v as [x y z].
  unfold det in *. simpl in *. apply vec3_eq; simpl; field; exact Hd.
Qed.

Lemma vsub_vadd (u v : vec3) : vadd (vsub u v) v = u.
Proof. destruct u, v. apply vec3_eq; simpl; ring. Qed.

Lemma vadd_vsub (u v : vec3) : vsub (vadd u v) v = u.
Proof. destruct u, v. apply vec3_eq; simpl; ring. Qed.

Lemma linalg_inv_Some (m : mat3) :
  det m <> 0 -> linalg_inv m = Some (mdiv (adj m) (det m)).
Proof. intros Hd. unfold linalg_inv. destruct (decide (det m = 0)); [contradiction | reflexivity]. Qed.


Lemma linalg_inv_det (m n : mat3) : linalg_inv m = Some n -> det m <> 0.
Proof. unfold linalg_inv. destruct (decide (det m = 0)); [discriminate | auto]. Qed.

Lemma det_mmul (m n : mat3) : det (mmul m n) = det m * det n.
Proof.
  destruct m as [[a0 a1 a2] [b0 b1 b2] [c0 c1 c2]], n as [[d0 d1 d2] [e0 e1 e2] [f0 f1 f2]].
  unfold mmul, mbuild, vbuild, sum3, mget, vget, det. simpl. ring.
Qed.

Lemma det_identity3 : det identity3 = 1.
Proof. vm_compute. reflexivity. Qed.

Lemma is_inverse_det (m n : mat3) : is_inverse m n -> det m <> 0.
Proof.
  unfold is_inverse. intros H Hd.
  assert (Hp : det (mmul m n) = 1) by (rewrite H; apply det_identity3).
  rewrite det_mmul, Hd in Hp. ring_simplify in Hp. discriminate Hp.
Qed.

(** An invertible matrix has an inverse in the sense of [is_inverse]. *)
Lemma is_inverse_adj (m : mat3) : det m <> 0 -> is_inverse m (mdiv (adj m) (det m)).
Proof.
  intros Hd. destruct m as [[a0 a1 a2] [b0 b1 b2] [c0 c1 c2]].
  unfold is_inverse, mmul, identity3, mbuild, vbuild, sum3, mget, vget, det in *.
  simpl in *. f_equal; f_equal; field; exact Hd.
Qed.

Lemma Qcdiv_unique (x y d : Qc) : d <> 0 -> d * x = y -> x = y / d.
Proof. intros Hd <-. field. exact Hd. Qed.


Lemma mat3_entries (m n : mat3) :
  m = n ->
  (vx (row0 m) = vx (row0 n) /\ vy (row0 m) = vy (row0 n) /\ vz (row0 m) = vz (row0 n)) /\
  (vx (row1 m) = vx (row1 n) /\ vy (row1 m) = vy (row1 n) /\ vz (row1 m) = vz (row1 n)) /\
  (vx (row2 m) = vx (row2 n) /\ vy (row2 m) = vy (row2 n) /\ vz (row2 m) = vz (row2 n)).
Proof. intros ->. repeat split. Qed.

Lemma is_inverse_unique (m n : mat3) :
  is_inverse m n -> n = mdiv (adj m) (det m).
Proof.
  intros H. pose proof (is_inverse_det _ _ H) as Hd. unfold is_inverse in H.
  apply mat3_entries in H.
  destruct m as [[a0 a1 a2] [b0 b1 b2] [c0 c1 c2]], n as [[d0 d1 d2] [e0 e1 e2] [f0 f1 f2]].
  unfold mmul, identity3, mbuild, vbuild, sum3, mget, vget in H. simpl in H.
  destruct H as ((H00 & H01 & H02) & (H10 & H11 & H12) & (H20 & H21 & H22)).
  set (D := det (M3 (V3 a0 a1 a2) (V3 b0 b1 b2) (V3 c0 c1 c2))) in *.
  unfold mdiv, adj. simpl.
  f_equal; f_equal; apply Qcdiv_unique; try exact Hd; unfold D, det; simpl.
  - transitivity ((b1 * c2 - b2 * c1) * (a0 * d0 + a1 * e0 + a2 * f0)
                + (a2 * c1 - a1 * c2) * (b0 * d0 + b1 * e0 + b2 * f0)
                + (a1 * b2 - a2 * b1) * (c0 * d0 + c1 * e0 + c2 * f0)); [ring|].
    rewrite H00, H10, H20. ring.
  - transitivity ((b1 * c2 - b2 * c1) * (a0 * d1 + a1 * e1 + a2 * f1)
                + (a2 * c1 - a1 * c2) * (b0 * d1 + b1 * e1 + b2 * f1)
                + (a1 * b2 - a2 * b1) * (c0 * d1 + c1 * e1 + c2 * f1)); [ring|].
    rewrite H01, H11, H21. ring.
  - transitivity ((b1 * c2 - b2 * c1) * (a0 * d2 + a1 * e2 + a2 * f2)
                + (a2 * c1 - a1 * c2) * (b0 * d2 + b1 * e2 + b2 * f2)
                + (a1 * b2 - a2 * b1) * (c0 * d2 + c1 * e2 + c2 * f2)); [ring|].
    rewrite H02, H12, H22. ring.
  - transitivity ((b2 * c0 - b0 * c2) * (a0 * d0 + a1 * e0 + a2 * f0)
                + (a0 * c2 - a2 * c0) * (b0 * d0 + b1 * e0 + b2 * f0)
                + (a2 * b0 - a0 * b2) * (c0 * d0 + c1 * e0 + c2 * f0)); [ring|].
    rewrite H00, H10, H20. ring.
  - transitivity ((b2 * c0 - b0 * c2) * (a0 * d1 + a1 * e1 + a2 * f1)
                + (a0 * c2 - a2 * c0) * (b0 * d1 + b1 * e1 + b2 * f1)
                + (a2 * b0 - a0 * b2) * (c0 * d1 + c1 * e1 + c2 * f1)); [ring|].
    rewrite H01, H11, H21. ring.
  - transitivity ((b2 * c0 - b0 * c2) * (a0 * d2 + a1 * e2 + a2 * f2)
                + (a0 * c2 - a2 * c0) * (b0 * d2 + b1 * e2 + b2 * f2)
                + (a2 * b0 - a0 * b2) * (c0 * d2 + c1 * e2 + c2 * f2)); [ring|].
    rewrite H02, H12, H22. ring.
  - transitivity ((b0 * c1 - b1 * c0) * (a0 * d0 + a1 * e0 + a2 * f0)
                + (a1 * c0 - a0 * c1) * (b0 * d0 + b1 * e0 + b2 * f0)
                + (a0 * b1 - a1 * b0) * (c0 * d0 + c1 * e0 + c2 * f0)); [ring|].
    rewrite H00, H10, H20. ring.
  - transitivity ((b0 * c1 - b1 * c0) * (a0 * d1 + a1 * e1 + a2 * f1)
                + (a1 * c0 - a0 * c1) * (b0 * d1 + b1 * e1 + b2 * f1)
                + (a0 * b1 - a1 * b0) * (c0 * d1 + c1 * e1 + c2 * f1)); [ring|].
    rewrite H01, H11, H21. ring.
  - transitivity ((b0 * c1 - b1 * c0) * (a0 * d2 + a1 * e2 + a2 * f2)
                + (a1 * c0 - a0 * c1) * (b0 * d2 + b1 * e2 + b2 * f2)
                + (a0 * b1 - a1 * b0) * (c0 * d2 + c1 * e2 + c2 * f2)); [ring|].
    rewrite H02, H12, H22. ring.
Qed.

(** ** Coordinate transforms *)

Lemma scale_Some (s : System) (value : varray) :
  det (vects (box s)) <> 0 ->
  scale s value =
    Some (vmap (fun v => vdot (vsub v (origin (box s)))
                              (mdiv (adj (vects (box s))) (det (vects (box s))))) value).
Proof. intros Hd. unfold scale. rewrite (linalg_inv_Some _ Hd). reflexivity. Qed.


Lemma scale_is_Some (s : System) (value w : varray) :
  scale s value = Some w -> det (vects (box s)) <> 0.
Proof.
  unfold scale. destruct (linalg_inv (vects (box s))) eqn:Hi; [|discriminate].
  intros _. eapply linalg_inv_det, Hi.
Qed.

Lemma vmap_vmap (f g : vec3 -> vec3) (a : varray) :
  vmap f (vmap g a) = vmap (fun v => f (g v)) a.
Proof. destruct a; simpl; [reflexivity|]. f_equal. apply map_map. Qed.

Lemma vmap_id (f : vec3 -> vec3) (a : varray) :
  (forall v, f v = v) -> vmap f a = a.
Proof.
  intros Hf. destruct a as [v|vs]; simpl; f_equal; [apply Hf|].
  induction vs as [|v vs IH]; simpl; [reflexivity|]. rewrite Hf, IH. reflexivity.
Qed.

Lemma vmap_ext (f g : vec3 -> vec3) (a : varray) :
  (forall v, f v = g v) -> vmap f a = vmap g a.
Proof.
  intros Hf. destruct a as [v|vs]; simpl; f_equal; [apply Hf|].
  apply map_ext. intros v. apply Hf.
Qed.

(** C4: in exact arithmetic, on a System whose lattice matrix is
    invertible, [scale] returns a value for every 3-vector and every array
    of 3-vectors, and [unscale] maps it back to the argument, exactly.  On
    binary64 numbers the round trip only comes close to its argument, and
    not within a fixed tolerance; that is measured after the witness. *)
Theorem unscale_scale (s : System) (v : varray) :
  det (vects (box s)) <> 0 ->
  exists w, scale s v = Some w /\ unscale s w = v.
Proof.
  intros Hd. eexists. split; [apply scale_Some, Hd|].
  unfold unscale. rewrite vmap_vmap. apply vmap_id. intros u.
  rewrite vdot_inv_r by exact Hd. apply vsub_vadd.
Qed.

Lemma unscale_scale_witness :
  det (vects (box outside_x)) <> 0 /\
  exists w, scale outside_x (Many (pos (atoms outside_x))) = Some w /\
            unscale outside_x w = Many (pos (atoms outside_x)).
Proof.
  assert (Hd : det (vects (box outside_x)) <> 0)
    by (apply (bool_decide_unpack _); vm_compute; exact I).
  split; [exact Hd | exact (unscale_scale outside_x _ Hd)].
Defined.

(** On binary64 numbers the round trip misses its argument by more than
    the tolerances of the specification: in the unit cube with origin
    (1e8, 1e8, 1e8) the vector (0.3, 0.3, 0.3) comes back about 2.98e-9 off,
    which is more than 1e-10 and more than 1e-12 times 0.3. *)
Lemma unscale_scale_binary64_off :
  exists w,
    Binary64.scale Binary64.far_unit_cube
      (Binary64.V3 Binary64.three_tenths Binary64.three_tenths Binary64.three_tenths)
    = Some w /\
    PrimFloat.ltb Binary64.tol_absolute
      (Binary64.distance
         (Binary64.unscale Binary64.far_unit_cube w)
         (Binary64.V3 Binary64.three_tenths Binary64.three_tenths Binary64.three_tenths))
    = true /\
    PrimFloat.ltb (PrimFloat.mul Binary64.tol_relative Binary64.three_tenths)
      (Binary64.distance
         (Binary64.unscale Binary64.far_unit_cube w)
         (Binary64.V3 Binary64.three_tenths Binary64.three_tenths Binary64.three_tenths))
    = true.
Proof.
  eexists. split; [vm_compute; reflexivity|]. split; vm_compute; reflexivity.
Qed.

(** The same in the cube of side 10 at the origin, where the inverse has the
    entries 0.1: the coordinate 8763774.618976614 comes back about 1.86e-9
    off. *)
Lemma unscale_scale_binary64_cube :
  exists w,
    Binary64.scale Binary64.cube10
      (Binary64.V3 Binary64.far_away Binary64.far_away Binary64.far_away) = Some w /\
    PrimFloat.ltb Binary64.tol_absolute
      (Binary64.distance
         (Binary64.unscale Binary64.cube10 w)
         (Binary64.V3 Binary64.far_away Binary64.far_away Binary64.far_away))
    = true.
Proof.
  eexists. split; [vm_compute; reflexivity|]. vm_compute. reflexivity.
Qed.


Lemma scale_spec_vdot (b : Box) (n : mat3) (v : vec3) :
  scale_spec b n v = vdot (vsub v (origin b)) n.
Proof.
  destruct b as [m [o0 o1 o2]], n as [[d0 d1 d2] [e0 e1 e2] [f0 f1 f2]], v as [x y z].
  reflexivity.
Qed.

Lemma unscale_spec_vdot (b : Box) (v : vec3) :
  unscale_spec b v = vadd (vdot v (vects b)) (origin b).
Proof.
  destruct b as [[[a0 a1 a2] [b0 b1 b2] [c0 c1 c2]] [o0 o1 o2]], v as [x y z].
  reflexivity.
Qed.

(** C5: when [n] is the inverse of the lattice matrix, [scale v] is
    [(v - origin) . n] for each 3-vector of [v], whatever its size (nothing
    is clipped to the box), and [unscale v] is [v . lattice + origin]. *)
Theorem scale_unscale_formulas (s : System) (n : mat3) (v : varray) :
  is_inverse (vects (box s)) n ->
  scale s v = Some (vmap (scale_spec (box s) n) v) /\
  unscale s v = vmap (unscale_spec (box s)) v.
Proof.
  intros Hn. split.
  - rewrite (scale_Some _ _ (is_inverse_det _ _ Hn)).
    rewrite <- (is_inverse_unique _ _ Hn).
    rewrite (vmap_ext _ _ v (scale_spec_vdot (box s) n)). reflexivity.
  - rewrite (vmap_ext _ _ v (unscale_spec_vdot (box s))). reflexivity.
Qed.

Lemma scale_unscale_formulas_witness :
  is_inverse (vects (box outside_x)) cube10_inv /\
  scale outside_x (One (V3 (qc (-1) 2) (qc 5 1) (qc 25 1)))
    = Some (One (V3 (qc (-1) 20) (qc 1 2) (qc 5 2))) /\
  unscale outside_x (One (V3 (qc (-1) 20) (qc 1 2) (qc 5 2)))
    = One (V3 (qc (-1) 2) (qc 5 1) (qc 25 1)).
Proof.
  assert (Hi : is_inverse (vects (box outside_x)) cube10_inv) by (vm_compute; reflexivity).
  split; [exact Hi|].
  destruct (scale_unscale_formulas outside_x cube10_inv
              (One (V3 (qc (-1) 2) (qc 5 1) (qc 25 1))) Hi) as [H1 _].
  destruct (scale_unscale_formulas outside_x cube10_inv
              (One (V3 (qc (-1) 20) (qc 1 2) (qc 5 2))) Hi) as [_ H2].
  split; [rewrite H1 | rewrite H2]; vm_compute; reflexivity.
Defined.

(** ** Evaluating on concrete systems *)

(** Equality of computed values: rationals are compared as fractions. *)
Ltac canon_eq :=
  lazymatch goal with
  | |- @eq Qc _ _ => apply Qc_is_canon; vm_compute; reflexivity
  | |- _ => first [reflexivity | f_equal; canon_eq]
  end.
Ltac run_eq := vm_compute; canon_eq.

Ltac qc_neq :=
  let H := fresh in
  intros H; apply (f_equal this) in H; vm_compute in H; discriminate H.

(** ** [box_set] *)

Lemma valid_box_Some (b b' : Box) :
  valid_box b = Some b' -> b' = b /\ det (vects b) <> 0.
Proof.
  unfold valid_box. destruct (decide (det (vects b) = 0)); [discriminate|].
  intros [= <-]. split; [reflexivity | assumption].
Qed.

Lemma Box_set_valid (f : kwargs -> option Box) (kw : kwargs) (b : Box) :
  Box_set f kw = Some b -> det (vects b) <> 0.
Proof.
  unfold Box_set. intros H.
  repeat case_match; simplify_option_eq;
    try (match goal with
         | H : valid_box _ = Some _ |- _ => apply valid_box_Some in H; destruct H as [-> H]; exact H
         end).
  apply (bool_decide_unpack _). vm_compute. exact I.
Qed.

Lemma broadcast_rows_same (n : nat) (vs : list vec3) :
  length vs = n -> broadcast_rows n (Many vs) = Some vs.
Proof.
  intros <-. destruct vs as [|v [|u vs]]; simpl; [reflexivity | reflexivity |].
  destruct (decide _) as [_|Hn]; [reflexivity | contradiction].
Qed.

Lemma assign_pos_same (s : System) (vs : list vec3) :
  length vs = length (pos (atoms s)) ->
  assign_pos (Many vs) s = Some (tt, with_pos s vs).
Proof. intros H. unfold assign_pos. rewrite (broadcast_rows_same _ _ H). reflexivity. Qed.

Lemma assign_pos_frame (value : varray) (s s' : System) :
  assign_pos value s = Some (tt, s') ->
  box s' = box s /\ pbc s' = pbc s /\ prop s' = prop s.
Proof.
  unfold assign_pos. destruct (broadcast_rows _ value); [|discriminate].
  simpl. intros [= <-]. repeat split.
Qed.

Section BoxUpdates.
Context {E : Extern}.

Lemma py_truthy_scale_literal : py_truthy (PStr "scale") = true.
Proof. reflexivity. Qed.

(** What a call of [box_set] does, whatever the [scale] flag says. *)
Lemma box_set_run (kw : kwargs) (s s' : System) :
  box_set kw s = Some (tt, s') ->
  exists spos b,
    scale s (Many (pos (atoms s))) = Some (Many spos) /\
    Box_set Box_set_abc (delete "scale" kw) = Some b /\
    s' = with_pos (with_box s b) (map (fun v => vadd (vdot v (vects b)) (origin b)) spos).
Proof.
  unfold box_set. rewrite py_truthy_scale_literal. simpl.
  unfold bind, lift.
  destruct (scale s (Many (pos (atoms s)))) as [spos|] eqn:Hs; [|discriminate].
  destruct (Box_set Box_set_abc (delete "scale" kw)) as [b|] eqn:Hb; [|discriminate].
  unfold scale in Hs. destruct (linalg_inv (vects (box s))); [|discriminate].
  simpl in Hs. injection Hs as <-.
  unfold unscale. simpl vmap.
  rewrite assign_pos_same by (simpl; rewrite !length_map; reflexivity).
  intros [= <-].
  eexists _, b. split; [reflexivity|]. split; reflexivity.
Qed.

(** The flag is popped and never read: the call does the same with and
    without it. *)
Lemma box_set_scale_flag_unused (kw : kwargs) (flag : pyobj) (s : System) :
  box_set (<["scale" := flag]> kw) s = box_set (delete "scale" kw) s.
Proof.
  unfold box_set. rewrite py_truthy_scale_literal. simpl.
  rewrite delete_insert_eq, delete_delete_eq. reflexivity.
Qed.

(** With the flag or without, a successful [box_set] keeps the scaled
    positions and recomputes the absolute ones. *)
Lemma rescale_keeps_scaled (s : System) (b : Box) (spos : list vec3) :
  det (vects b) <> 0 ->
  scale (with_pos (with_box s b) (map (fun v => vadd (vdot v (vects b)) (origin b)) spos))
        (Many (map (fun v => vadd (vdot v (vects b)) (origin b)) spos))
  = Some (Many spos).
Proof.
  intros Hd. rewrite scale_Some by exact Hd. simpl. f_equal. f_equal.
  rewrite map_map. rewrite <- (map_id spos) at 2. apply map_ext. intros v.
  rewrite vadd_vsub. apply vdot_inv_l, Hd.
Qed.

Lemma box_set_keeps_scaled (kw : kwargs) (s s' : System) :
  box_set kw s = Some (tt, s') ->
  exists spos,
    scale s (Many (pos (atoms s))) = Some spos /\
    scale s' (Many (pos (atoms s'))) = Some spos /\
    unscale s' spos = Many (pos (atoms s')).
Proof.
  intros H. apply box_set_run in H as (spos & b & Hs & Hb & ->).
  exists (Many spos). split; [exact Hs|].
  split; [|reflexivity].
  apply rescale_keeps_scaled, (Box_set_valid _ _ _ Hb).
Qed.

(** C1: [box_set] called without [scale] (so with the default, False) on a
    System with one atom at (5,5,5) in the cube of side 10, asking for the
    cube of side 20: the atom ends at (10,10,10). *)
Theorem box_set_default_moves_atoms :
  cube20_kwargs !! "scale" = None /\
  exists s', box_set cube20_kwargs centred = Some (tt, s') /\
             pos (atoms s') = [V3 (qc 10 1) (qc 10 1) (qc 10 1)] /\
             pos (atoms centred) = [V3 (qc 5 1) (qc 5 1) (qc 5 1)].
Proof.
  split; [vm_compute; reflexivity|].
  eexists. split; [vm_compute; reflexivity|]. split; [run_eq | reflexivity].
Qed.

(** ** [wrap] *)

Lemma wrap_outside_x : wrap outside_x = Some (tt, wrapped_once).
Proof. run_eq. Qed.

Lemma wrap_wrapped_once : wrap wrapped_once = Some (tt, wrapped_twice).
Proof. run_eq. Qed.

(** C2: on the System with a non-periodic x axis, the box 0..10 and one
    atom at x = -0.5, a second [wrap] moves the lower bound of the box from
    -0.51 to -1.04601 and the atom from -1.0355 to -1.5983105. *)
Theorem wrap_twice_differs :
  exists s1 s2,
    wrap outside_x = Some (tt, s1) /\ wrap s1 = Some (tt, s2) /\
    xlo (box s1) = qc (-51) 100 /\ xlo (box s2) = qc (-104601) 100000 /\
    pos (atoms s1) = [V3 (qc (-10355) 10000) (qc 5 1) (qc 5 1)] /\
    pos (atoms s2) = [V3 (qc (-15983105) 10000000) (qc 5 1) (qc 5 1)] /\
    s2 <> s1.
Proof.
  exists wrapped_once, wrapped_twice.
  split; [exact wrap_outside_x|]. split; [exact wrap_wrapped_once|].
  split; [run_eq|]. split; [run_eq|]. split; [run_eq|]. split; [run_eq|].
  intros H. apply (f_equal (fun s => xlo (box s))) in H. revert H. qc_neq.
Qed.

(** With [box_set] as its docstring describes it, the same System is wrapped
    as the scenario says: xlo becomes -0.51, the atom stays at x = -0.5, and
    a second [wrap] changes nothing. *)
Lemma wrap_documented_outside_x :
  exists s',
    wrap_documented outside_x = Some (tt, s') /\
    xlo (box s') = qc (-51) 100 /\
    pos (atoms s') = pos (atoms outside_x) /\
    wrap_documented s' = Some (tt, s').
Proof.
  eexists. split; [vm_compute; reflexivity|].
  split; [run_eq|]. split; run_eq.
Qed.

Lemma box_set_documented_keeps_absolute :
  exists s', box_set_documented cube20_kwargs centred = Some (tt, s') /\
             pos (atoms s') = pos (atoms centred).
Proof. eexists. split; [vm_compute; reflexivity | run_eq]. Qed.

(** After the code's [wrap] the atom is still outside the box: its scaled
    x is -0.05 as before. *)
Lemma wrap_outside_x_still_outside :
  scale outside_x (Many (pos (atoms outside_x)))
    = Some (Many [V3 (qc (-1) 20) (qc 1 2) (qc 1 2)]) /\
  scale wrapped_once (Many (pos (atoms wrapped_once)))
    = Some (Many [V3 (qc (-1) 20) (qc 1 2) (qc 1 2)]).
Proof. split; run_eq. Qed.

(** C3: on that System [wrap] lowers xlo to -0.51, which is below -0.501,
    and moves the atom from x = -0.5 to x = -1.0355. *)
Theorem wrap_outside_x_moves_atom :
  exists s',
    wrap outside_x = Some (tt, s') /\
    xlo (box s') = qc (-51) 100 /\ xlo (box s') <= qc (-501) 1000 /\
    pos (atoms outside_x) = [V3 (qc (-5) 10) (qc 5 1) (qc 5 1)] /\
    pos (atoms s') = [V3 (qc (-10355) 10000) (qc 5 1) (qc 5 1)].
Proof.
  exists wrapped_once. split; [exact wrap_outside_x|].
  split; [run_eq|]. split; [apply (bool_decide_unpack _); vm_compute; exact I|].
  split; run_eq.
Qed.

(** ** [box_normalize] *)

(** C8: on a System whose lattice matrix is invertible and whose box
    [Box.normalize] reduces to [b'], [box_normalize] returns, the box is
    [b'], and the scaled positions computed afterwards are the ones computed
    before. *)
Theorem box_normalize_keeps_scaled (s : System) (b' : Box) :
  det (vects (box s)) <> 0 ->
  Box_normalize (box s) = Some b' ->
  exists s' spos,
    box_normalize s = Some (tt, s') /\ box s' = b' /\
    scale s (Many (pos (atoms s))) = Some spos /\
    scale s' (Many (pos (atoms s'))) = Some spos.
Proof.
  intros Hd Hb.
  assert (Hd' : det (vects b') <> 0).
  { unfold Box_normalize in Hb. destruct (normalize_reduce (box s)) as [b0|]; [|discriminate].
    simpl in Hb. apply valid_box_Some in Hb as [-> Hv]. exact Hv. }
  unfold box_normalize, bind, lift.
  rewrite (scale_Some _ _ Hd). simpl. rewrite Hb. simpl.
  unfold unscale. simpl vmap.
  rewrite assign_pos_same by (simpl; rewrite !length_map; reflexivity).
  eexists _, _. split; [reflexivity|]. split; [reflexivity|]. split; [reflexivity|].
  apply rescale_keeps_scaled, Hd'.
Qed.

End BoxUpdates.

Lemma box_normalize_keeps_scaled_witness :
  det (vects (box turned)) <> 0 /\
  @Box_normalize (example_extern LP64) (box turned)
    = Some (mkBox (M3 (V3 (qc 2 1) 0 0) (V3 0 (qc 3 1) 0) (V3 0 0 (qc 4 1))) zero3) /\
  exists s' spos,
    @box_normalize (example_extern LP64) turned = Some (tt, s') /\
    box s' = mkBox (M3 (V3 (qc 2 1) 0 0) (V3 0 (qc 3 1) 0) (V3 0 0 (qc 4 1))) zero3 /\
    scale turned (Many (pos (atoms turned))) = Some spos /\
    scale s' (Many (pos (atoms s'))) = Some spos.
Proof.
  assert (Hd : det (vects (box turned)) <> 0)
    by (apply (bool_decide_unpack _); vm_compute; exact I).
  assert (Hn : @Box_normalize (example_extern LP64) (box turned)
               = Some (mkBox (M3 (V3 (qc 2 1) 0 0) (V3 0 (qc 3 1) 0) (V3 0 0 (qc 4 1))) zero3))
    by run_eq.
  split; [exact Hd|]. split; [exact Hn|].
  exact (@box_normalize_keeps_scaled (example_extern LP64) turned _ Hd Hn).
Defined.

(** On that System the absolute position does change: (2,1,1) becomes
    (1,1,2). *)
Lemma box_normalize_turned_moves :
  exists s', @box_normalize (example_extern LP64) turned = Some (tt, s') /\
             pos (atoms s') = [V3 1 1 (qc 2 1)].
Proof. eexists. split; [vm_compute; reflexivity | run_eq]. Qed.

(** ** [nlist] *)

Section NeighborList.
Context {E : Extern}.

(** C6: after a call of [nlist] that returns, the value that
    [atomman.tools.nlist] computed for the System is bound to the key
    'nlist' of the property mapping, whatever was bound to it before, and a
    lookup of that key finds it. *)
Theorem nlist_stored (cutoff cmult ret : pyobj) (s s' : System) :
  nlist cutoff cmult s = Some (ret, s') ->
  exists r, tools_nlist s cutoff cmult = Some r /\
            prop s' = <["nlist" := r]> (prop s) /\
            prop s' !! "nlist" = Some r.
Proof.
  unfold nlist. destruct (tools_nlist s cutoff cmult) as [r|]; [|discriminate].
  simpl. intros [= <- <-]. exists r. split; [reflexivity|]. split; [reflexivity|].
  simpl. apply lookup_insert_eq.
Qed.

(** [nlist] returns whenever [atomman.tools.nlist] does. *)
Lemma nlist_returns (cutoff cmult r : pyobj) (s : System) :
  tools_nlist s cutoff cmult = Some r ->
  nlist cutoff cmult s = Some (PNone, with_prop s (<["nlist" := r]> (prop s))).
Proof. intros H. unfold nlist. rewrite H. reflexivity. Qed.

(** C10: a call of [nlist] that returns gives None back, leaves the atoms,
    the box and the pbc flags as they were, binds the key 'nlist' and
    changes no other key of the property mapping. *)
Theorem nlist_frame (cutoff cmult ret : pyobj) (s s' : System) :
  nlist cutoff cmult s = Some (ret, s') ->
  ret = PNone /\
  atoms s' = atoms s /\ box s' = box s /\ pbc s' = pbc s /\
  prop s' !! "nlist" = tools_nlist s cutoff cmult /\
  forall k : string, k <> "nlist"%string -> prop s' !! k = prop s !! k.
Proof.
  unfold nlist. destruct (tools_nlist s cutoff cmult) as [r|]; [|discriminate].
  simpl. intros [= <- <-]. repeat split; simpl.
  - apply lookup_insert_eq.
  - intros k Hk. apply lookup_insert_ne. congruence.
Qed.

End NeighborList.

Lemma nlist_three_atoms :
  @nlist (example_extern LP64) (PFloat 1) (PInt 1) three_atoms
  = Some (PNone, with_prop three_atoms (<["nlist" := three_atoms_nlist]> (prop three_atoms))).
Proof. vm_compute. reflexivity. Qed.

Lemma nlist_stored_witness :
  @nlist (example_extern LP64) (PFloat 1) (PInt 1) three_atoms
    = Some (PNone, with_prop three_atoms (<["nlist" := three_atoms_nlist]> (prop three_atoms))) /\
  exists r, nlist_all_pairs three_atoms (PFloat 1) (PInt 1) = Some r /\
            prop (with_prop three_atoms (<["nlist" := three_atoms_nlist]> (prop three_atoms)))
              = <["nlist" := r]> (prop three_atoms) /\
            prop (with_prop three_atoms (<["nlist" := three_atoms_nlist]> (prop three_atoms)))
              !! "nlist" = Some r.
Proof.
  assert (H : @nlist (example_extern LP64) (PFloat 1) (PInt 1) three_atoms
              = Some (PNone, with_prop three_atoms
                               (<["nlist" := three_atoms_nlist]> (prop three_atoms))))
    by (vm_compute; reflexivity).
  split; [exact H|].
  exact (@nlist_stored (example_extern LP64) _ _ _ _ _ H).
Defined.

(** The stale list is gone and the other property is still there. *)
Lemma nlist_three_atoms_lookup :
  exists s', @nlist (example_extern LP64) (PFloat 1) (PInt 1) three_atoms = Some (PNone, s') /\
             prop three_atoms !! "nlist" = Some (PStr "stale") /\
             prop s' !! "nlist" = Some three_atoms_nlist /\
             prop s' !! "note" = Some (PInt 7).
Proof. eexists. split; [exact nlist_three_atoms|]. repeat split; vm_compute; reflexivity. Qed.

Lemma nlist_frame_witness :
  @nlist (example_extern LP64) (PFloat 1) (PInt 1) three_atoms
    = Some (PNone, with_prop three_atoms (<["nlist" := three_atoms_nlist]> (prop three_atoms))) /\
  PNone = PNone /\
  atoms (with_prop three_atoms (<["nlist" := three_atoms_nlist]> (prop three_atoms)))
    = atoms three_atoms /\
  box (with_prop three_atoms (<["nlist" := three_atoms_nlist]> (prop three_atoms)))
    = box three_atoms /\
  pbc (with_prop three_atoms (<["nlist" := three_atoms_nlist]> (prop three_atoms)))
    = pbc three_atoms /\
  prop (with_prop three_atoms (<["nlist" := three_atoms_nlist]> (prop three_atoms))) !! "nlist"
    = nlist_all_pairs three_atoms (PFloat 1) (PInt 1) /\
  forall k : string, k <> "nlist"%string ->
    prop (with_prop three_atoms (<["nlist" := three_atoms_nlist]> (prop three_atoms))) !! k
    = prop three_atoms !! k.
Proof.
  assert (H : @nlist (example_extern LP64) (PFloat 1) (PInt 1) three_atoms
              = Some (PNone, with_prop three_atoms
                               (<["nlist" := three_atoms_nlist]> (prop three_atoms))))
    by (vm_compute; reflexivity).
  split; [exact H|].
  exact (@nlist_frame (example_extern LP64) _ _ _ _ _ H).
Defined.

(** ** The pbc flags *)

Lemma shape_nil (d : nd) : shape d = Some [] -> exists e, d = Item e.
Proof.
  destruct d as [e|l]; [eauto|]. simpl.
  destruct (map shape l) as [|[sh|] rest]; [discriminate | | discriminate].
  destruct (forallb _ rest); discriminate.
Qed.

Lemma shape_3 (d : nd) :
  shape d = Some [3%nat] -> exists a b c, d = Axis [Item a; Item b; Item c].
Proof.
  destruct d as [e|l]; [discriminate|]. simpl.
  destruct l as [|x [|y [|z [|t l]]]]; simpl; try discriminate;
    (destruct (shape x) as [sh|] eqn:Hx; [|discriminate]);
    try (intros H; repeat case_match; discriminate).
  destruct (bool_decide (shape y = Some sh)) eqn:Hy; [|discriminate].
  destruct (bool_decide (shape z = Some sh)) eqn:Hz; [|discriminate].
  simpl. intros [= ->].
  apply bool_decide_eq_true in Hy, Hz.
  apply shape_nil in Hx as [a ->], Hy as [b ->], Hz as [c ->]. eauto.
Qed.

Lemma shape_3_entries (v : pyobj) : shape (structure v) = Some [3%nat] -> entries v = 3%nat.
Proof. intros H. apply shape_3 in H as (a & b & c & H). unfold entries. rewrite H. reflexivity. Qed.

Section Flags.
Context {E : Extern}.

Lemma pbc_set_Some (value : pyobj) (s s' : System) :
  pbc_set value s = Some (tt, s') ->
  bool3 (pbc s') /\ atoms s' = atoms s /\ box s' = box s /\ prop s' = prop s /\
  shape (structure value) = Some [3%nat].
Proof.
  unfold pbc_set, bind, lift, np_asarray_bool, raise.
  destruct (shape (structure value)) as [sh|] eqn:Hsh; [|discriminate].
  simpl. destruct (decide _) as [H3|]; [|discriminate].
  intros [= <-]. simpl.
  assert (Hs : shape (structure value) = Some [3%nat]).
  { destruct (structure value) as [e|l] eqn:Hv; [discriminate|].
    apply shape_3 in H3 as (a & b & c & H3).
    simpl in H3. destruct l as [|x [|y [|z [|t l]]]]; try discriminate.
    destruct x, y, z; try discriminate. reflexivity. }
  split; [|repeat split; congruence].
  split; [reflexivity|]. simpl.
  apply shape_3 in Hs as (a & b & c & Hd). rewrite Hd. simpl. eauto.
Qed.

Lemma pbc_set_None (value : pyobj) (s : System) :
  entries value <> 3%nat -> pbc_set value s = None.
Proof.
  intros Hn. destruct (pbc_set value s) as [[[] s']|] eqn:H; [|reflexivity].
  apply pbc_set_Some in H as (_ & _ & _ & _ & H). apply shape_3_entries in H. contradiction.
Qed.

Lemma init_Some (a : Atoms) (b : Box) (p scale_kw : pyobj) (m : gmap string pyobj) (s : System) :
  __init__ a b p scale_kw m = Some s ->
  bool3 (pbc s) /\ box s = b /\ prop s = m /\ shape (structure p) = Some [3%nat].
Proof.
  unfold __init__, bind, ret.
  destruct (is_True scale_kw); simpl.
  - destruct (assign_pos _ _) as [[[] s0]|] eqn:Ha; [|discriminate].
    apply assign_pos_frame in Ha as (Hb0 & _ & _).
    destruct (pbc_set p s0) as [[[] s1]|] eqn:Hp; [|discriminate].
    simpl. intros [= <-]. apply pbc_set_Some in Hp as (H1 & _ & H2 & _ & H3).
    split; [exact H1|]. split; [simpl; rewrite H2, Hb0; reflexivity|].
    split; [reflexivity | exact H3].
  - destruct (pbc_set p _) as [[[] s1]|] eqn:Hp; [|discriminate].
    simpl. intros [= <-]. apply pbc_set_Some in Hp as (H1 & _ & H2 & _ & H3).
    split; [exact H1|]. split; [exact H2|]. split; [reflexivity | exact H3].
Qed.

Lemma init_None (a : Atoms) (b : Box) (p scale_kw : pyobj) (m : gmap string pyobj) :
  entries p <> 3%nat -> __init__ a b p scale_kw m = None.
Proof.
  intros Hn. destruct (__init__ a b p scale_kw m) as [s|] eqn:H; [|reflexivity].
  apply init_Some in H as (_ & _ & _ & H). apply shape_3_entries in H. contradiction.
Qed.

Lemma box_set_pbc (kw : kwargs) (s s' : System) :
  box_set kw s = Some (tt, s') -> pbc s' = pbc s.
Proof. intros H. apply box_set_run in H as (spos & b & _ & _ & ->). reflexivity. Qed.

Lemma box_normalize_pbc (s s' : System) :
  box_normalize s = Some (tt, s') -> pbc s' = pbc s.
Proof.
  unfold box_normalize, bind, lift.
  destruct (scale s _); [|discriminate]. destruct (Box_normalize (box s)); [|discriminate].
  simpl. intros H. apply assign_pos_frame in H as (_ & H & _). exact H.
Qed.

Lemma wrap_pbc (s s' : System) : wrap s = Some (tt, s') -> pbc s' = pbc s.
Proof.
  unfold wrap, wrap_with, bind, lift, get.
  destruct (scale s _); [|discriminate].
  destruct (foldl _ _ _); [|discriminate].
  destruct (assign_pos _ s) as [[[] s0]|] eqn:Ha; [|discriminate].
  apply assign_pos_frame in Ha as (_ & Hp & _).
  intros H. apply box_set_pbc in H. congruence.
Qed.

Lemma atoms_prop_pbc (a_id key value dtype scale_kw r : pyobj) (s s' : System) :
  atoms_prop a_id key value dtype scale_kw s = Some (r, s') -> pbc s' = pbc s.
Proof.
  unfold atoms_prop. intros H.
  repeat (simplify_option_eq;
          first [ case_match
                | match goal with p : (_ * _)%type |- _ => destruct p end ]);
    simplify_option_eq; reflexivity.
Qed.

Lemma nlist_pbc (cutoff cmult r : pyobj) (s s' : System) :
  nlist cutoff cmult s = Some (r, s') -> pbc s' = pbc s.
Proof.
  unfold nlist. destruct (tools_nlist s cutoff cmult); [|discriminate].
  simpl. intros [= _ <-]. reflexivity.
Qed.

Lemma run_call_bool3 (c : call) (s s' : System) :
  run_call c s = Some s' -> bool3 (pbc s) -> bool3 (pbc s').
Proof.
  intros H Hb. destruct c; simpl in H.
  - destruct (atoms_prop _ _ _ _ _ s) as [[r s1]|] eqn:Hc; [|discriminate].
    injection H as <-. rewrite (atoms_prop_pbc _ _ _ _ _ _ _ _ Hc). exact Hb.
  - destruct (box_set kw s) as [[[] s1]|] eqn:Hc; [|discriminate].
    injection H as <-. rewrite (box_set_pbc _ _ _ Hc). exact Hb.
  - destruct (box_normalize s) as [[[] s1]|] eqn:Hc; [|discriminate].
    injection H as <-. rewrite (box_normalize_pbc _ _ Hc). exact Hb.
  - destruct (pbc_set value s) as [[[] s1]|] eqn:Hc; [|discriminate].
    injection H as <-. apply pbc_set_Some in Hc. apply Hc.
  - destruct (scale s value); [|discriminate]. injection H as <-. exact Hb.
  - injection H as <-. exact Hb.
  - destruct (dvect s pos_0 pos_1); [|discriminate]. injection H as <-. exact Hb.
  - destruct (wrap s) as [[[] s1]|] eqn:Hc; [|discriminate].
    injection H as <-. rewrite (wrap_pbc _ _ Hc). exact Hb.
  - destruct (nlist cutoff cmult s) as [[r s1]|] eqn:Hc; [|discriminate].
    injection H as <-. rewrite (nlist_pbc _ _ _ _ _ Hc). exact Hb.
  - injection H as <-. exact Hb.
  - injection H as <-. exact Hb.
  - injection H as <-. exact Hb.
Qed.

(** C7: the constructor and the pbc setter raise on a value that does not
    have exactly 3 entries, and on every System that the constructor made
    and that any sequence of calls changed, [pbc] is a bool array of shape
    (3,). *)
Theorem pbc_always_bool3 :
  (forall a b p scale_kw m, entries p <> 3%nat -> __init__ a b p scale_kw m = None) /\
  (forall value s, entries value <> 3%nat -> pbc_set value s = None) /\
  (forall s, reachable s -> bool3 (pbc s)).
Proof.
  split; [exact init_None|]. split; [exact pbc_set_None|].
  intros s Hr. induction Hr as [a b p k m s Hi | c s s' _ IH Hc].
  - apply init_Some in Hi. apply Hi.
  - exact (run_call_bool3 c s s' Hc IH).
Qed.

End Flags.

(** The constructor converts the entries to bool, and the shape has to be
    (3,): three entries in a nested list are refused. *)
Lemma init_examples :
  (pbc <$> __init__ (atoms centred) cube10
             (PList [PBool true; PInt 0; PFloat 1]) (PBool false) ∅)
    = Some (pbc_of true false true) /\
  __init__ (atoms centred) cube10
        (PList [PBool true; PBool true]) (PBool false) ∅ = None /\
  __init__ (atoms centred) cube10
        (PList [PList [PBool true; PBool true; PBool true]]) (PBool false) ∅ = None.
Proof. repeat split; vm_compute; reflexivity. Qed.

(** ** [dvect] *)

Section Dvect.
Context {E : Extern}.

Lemma resolve_default_int (s : System) (a : ndarray) :
  dt a = default_int host ->
  resolve s a = NdArray float64 <$> take (pos (atoms s)) (data a).
Proof. intros H. unfold resolve. rewrite bool_decide_eq_true_2 by exact H. reflexivity. Qed.

Lemma resolve_other (s : System) (a : ndarray) :
  dt a <> default_int host -> resolve s a = Some a.
Proof. intros H. unfold resolve. rewrite bool_decide_eq_false_2 by exact H. reflexivity. Qed.

Lemma default_int_integer (p : platform) : is_integer_dtype (default_int p) = true.
Proof. destruct p; reflexivity. Qed.

Lemma other_int_integer (p : platform) : is_integer_dtype (other_int p) = true.
Proof. destruct p; reflexivity. Qed.

Lemma other_int_not_default (p : platform) : other_int p <> default_int p.
Proof. destruct p; discriminate. Qed.

(** An argument of a dtype that is not an integer type is handed on as it
    is. *)
Lemma resolve_not_integer (s : System) (a : ndarray) :
  is_integer_dtype (dt a) = false -> resolve s a = Some a.
Proof.
  intros H. apply resolve_other. intros Hd. rewrite Hd, default_int_integer in H. discriminate.
Qed.

(** The list [1, 2, 3] becomes an array of C longs, and its entries are
    looked up as atom indexes. *)
Lemma asarray_1_2_3 :
  np_asarray host (PList [PInt 1; PInt 2; PInt 3])
  = NdArray (default_int host) (Axis [Item (EI 1); Item (EI 2); Item (EI 3)]).
Proof. destruct host; reflexivity. Qed.

Lemma resolve_1_2_3 (s : System) (p0 p1 p2 p3 : vec3) (rest : list vec3) :
  pos (atoms s) = p0 :: p1 :: p2 :: p3 :: rest ->
  resolve s (np_asarray host (PList [PInt 1; PInt 2; PInt 3]))
  = Some (NdArray float64 (Axis [vec3_nd p1; vec3_nd p2; vec3_nd p3])).
Proof.
  intros Hp. rewrite asarray_1_2_3, resolve_default_int by reflexivity. simpl.
  rewrite Hp. unfold take_row.
  assert (Hn : (4 <= Z.of_nat (length (p0 :: p1 :: p2 :: p3 :: rest)))%Z)
    by (simpl length; lia).
  set (n := Z.of_nat (length (p0 :: p1 :: p2 :: p3 :: rest))) in *.
  rewrite !bool_decide_eq_true_2 by lia.
  rewrite !Z.mod_small by lia. reflexivity.
Qed.

(** C9: an array of the integer dtype that is not C long on the host
    (int32 where long has 64 bits, int64 where it has 32) is not looked up
    as atom indexes: [dvect] hands it to [atomman.tools.dvect] as it is, as
    coordinates. *)
Theorem dvect_other_int_as_coordinates (s : System) (d : nd) (pos_1 : pyobj) :
  is_integer_dtype (other_int host) = true /\
  dvect s (PArr (NdArray (other_int host) d)) pos_1
  = (p1 ← resolve s (np_asarray host pos_1);
     tools_dvect (NdArray (other_int host) d) p1 (box s) (pbc s)).
Proof.
  split; [apply other_int_integer|].
  unfold dvect.
  change (np_asarray host (PArr (NdArray (other_int host) d)))
    with (NdArray (other_int host) d).
  rewrite (resolve_other s (NdArray (other_int host) d))
    by (simpl; apply other_int_not_default).
  reflexivity.
Qed.

End Dvect.

(** Where C long has 64 bits, the int32 array [0, 0, 0] is taken for the
    point (0,0,0), and the same numbers as C longs for three atom indexes. *)
Lemma dvect_int32_example :
  @dvect (example_extern LP64) three_atoms
         (PArr (NdArray int32 (Axis [Item (EI 0); Item (EI 0); Item (EI 0)])))
         (PList [PFloat 1; PFloat (qc 2 1); PFloat (qc 3 1)])
    = Some (NdArray float64 (vec3_nd (V3 1 (qc 2 1) (qc 3 1)))) /\
  @resolve (example_extern LP64) three_atoms
           (NdArray int64 (Axis [Item (EI 0); Item (EI 0); Item (EI 0)]))
    = Some (NdArray float64 (Axis [vec3_nd (V3 1 (qc 5 1) (qc 5 1));
                                   vec3_nd (V3 1 (qc 5 1) (qc 5 1));
                                   vec3_nd (V3 1 (qc 5 1) (qc 5 1))])).
Proof. split; run_eq. Qed.

(** * More of [System] *)

(** ** Order and floor on canonical rationals *)

Lemma this_plus (x y : Qc) : (this (x + y) == this x + this y)%Q.
Proof. unfold Qcplus. apply Qred_correct. Qed.

Lemma this_opp (x : Qc) : (this (- x) == - this x)%Q.
Proof. unfold Qcopp. apply Qred_correct. Qed.

Lemma this_minus (x y : Qc) : (this (x - y) == this x - this y)%Q.
Proof. unfold Qcminus. rewrite this_plus, this_opp. reflexivity. Qed.

Lemma this_mult (x y : Qc) : (this (x * y) == this x * this y)%Q.
Proof. unfold Qcmult. apply Qred_correct. Qed.

Lemma this_of_Z (z : Z) : (this (Qc_of_Z z) == inject_Z z)%Q.
Proof. unfold Qc_of_Z. apply Qred_correct. Qed.

Lemma this_qc (n : Z) (d : positive) : (this (qc n d) == n # d)%Q.
Proof. unfold qc. apply Qred_correct. Qed.

(** Order facts on [Qc] are moved to [Q], where [lra] decides them. *)
Ltac qc_order :=
  unfold Qcle, Qclt in *;
  repeat first [ rewrite this_minus in * | rewrite this_plus in * | rewrite this_opp in *
               | rewrite this_mult in * | rewrite this_of_Z in * | rewrite this_qc in * ];
  change (this 0) with 0%Q in *; change (this 1) with 1%Q in *.

Lemma frac_bounds (x : Qc) : 0 <= frac x /\ frac x < 1.
Proof.
  unfold frac, Qcfloor.
  pose proof (Qfloor_le (this x)) as H1. pose proof (Qlt_floor (this x)) as H2.
  rewrite inject_Z_plus in H2. change (inject_Z 1) with 1%Q in H2.
  split; qc_order; lra.
Qed.

Lemma Qcfloor_unit (x : Qc) : 0 <= x -> x < 1 -> Qcfloor x = 0.
Proof.
  intros H0 H1. unfold Qcfloor. apply Qc_is_canon. rewrite this_of_Z.
  pose proof (Qfloor_le (this x)) as Hl. pose proof (Qlt_floor (this x)) as Hu.
  qc_order.
  assert (Hz : Qfloor (this x) = 0%Z).
  { assert (inject_Z (Qfloor (this x)) < inject_Z 1)%Q as A
      by (change (inject_Z 1) with 1%Q; lra).
    assert (inject_Z (-1) < inject_Z (Qfloor (this x)))%Q as B.
    { rewrite inject_Z_plus in Hu. change (inject_Z 1) with 1%Q in Hu.
      change (inject_Z (-1)) with (-1)%Q. lra. }
    rewrite <- Zlt_Qlt in A, B. lia. }
  rewrite Hz. reflexivity.
Qed.

Lemma growth_ge_1 (l h : Qc) : l <= 0 -> 1 <= h -> 1 <= h - l.
Proof. intros Hl Hh. qc_order. lra. Qed.

Lemma ge_1_nonzero (k : Qc) : 1 <= k -> k <> 0.
Proof. intros Hk ->. qc_order. lra. Qed.

(** ** Scaling one vector *)

Lemma scaled_unscaled (b : Box) (v : vec3) : det (vects b) <> 0 -> scaled b (unscaled b v) = v.
Proof. intros Hd. unfold scaled, unscaled. rewrite vadd_vsub. apply vdot_inv_l, Hd. Qed.

Lemma unscaled_scaled (b : Box) (v : vec3) : det (vects b) <> 0 -> unscaled b (scaled b v) = v.
Proof. intros Hd. unfold scaled, unscaled. rewrite vdot_inv_r by exact Hd. apply vsub_vadd. Qed.

Lemma scale_rows (s : System) (l : list vec3) :
  det (vects (box s)) <> 0 -> scale s (Many l) = Some (Many (map (scaled (box s)) l)).
Proof. intros Hd. rewrite scale_Some by exact Hd. reflexivity. Qed.

Lemma map_scaled_unscaled (b : Box) (l : list vec3) :
  det (vects b) <> 0 -> map (scaled b) (map (unscaled b) l) = l.
Proof.
  intros Hd. rewrite map_map. rewrite <- (map_id l) at 2. apply map_ext.
  intros v. apply scaled_unscaled, Hd.
Qed.

Lemma scale_after_unscale (s : System) (v : varray) :
  det (vects (box s)) <> 0 -> scale s (unscale s v) = Some v.
Proof.
  intros Hd. rewrite scale_Some by exact Hd. unfold unscale. rewrite vmap_vmap. f_equal.
  apply vmap_id. intros u. rewrite vadd_vsub. apply vdot_inv_l, Hd.
Qed.

Lemma vdot_vadd (u w : vec3) (m : mat3) : vdot (vadd u w) m = vadd (vdot u m) (vdot w m).
Proof. destruct u, w, m as [[] [] []]. apply vec3_eq; simpl; ring. Qed.

Lemma vsub_vadd_swap (v w o : vec3) : vsub (vadd v w) o = vadd (vsub v o) w.
Proof. destruct v, w, o. apply vec3_eq; simpl; ring. Qed.

(** X1: on a System whose lattice matrix is invertible, [scale] undoes
    [unscale]: scaling the absolute positions made from fractional ones
    gives the fractional ones back. *)
Theorem scale_unscale (s : System) (v : varray) :
  det (vects (box s)) <> 0 -> scale s (unscale s v) = Some v.
Proof.
  intros Hd. rewrite scale_Some by exact Hd. unfold unscale. rewrite vmap_vmap. f_equal.
  apply vmap_id. intros u. rewrite vadd_vsub. apply vdot_inv_l, Hd.
Qed.

Lemma scale_unscale_witness :
  scale outside_x (unscale outside_x (Many [V3 (qc (-1) 20) (qc 1 2) (qc 5 2)]))
  = Some (Many [V3 (qc (-1) 20) (qc 1 2) (qc 5 2)]).
Proof.
  apply (scale_unscale outside_x).
  apply (bool_decide_unpack _). vm_compute. exact I.
Defined.

(** X2: moving a point by [n0] times the first lattice vector plus [n1]
    times the second plus [n2] times the third adds exactly (n0, n1, n2) to
    its scaled coordinates. *)
Theorem scale_lattice_shift (s : System) (v w n : vec3) :
  scale s (One v) = Some (One w) ->
  scale s (One (vadd v (vdot n (vects (box s))))) = Some (One (vadd w n)).
Proof.
  intros H. pose proof (scale_is_Some _ _ _ H) as Hd.
  rewrite scale_Some in * by exact Hd. simpl in *. injection H as <-.
  f_equal. f_equal. rewrite vsub_vadd_swap, vdot_vadd. f_equal. apply vdot_inv_l, Hd.
Qed.

Lemma scale_lattice_shift_witness :
  scale turned (One (V3 (qc 2 1) 1 1)) = Some (One (V3 (qc 1 2) (qc 1 3) (qc 1 2))) /\
  scale turned (One (vadd (V3 (qc 2 1) 1 1) (vdot (V3 1 (qc (-2) 1) 0) (vects (box turned)))))
  = Some (One (vadd (V3 (qc 1 2) (qc 1 3) (qc 1 2)) (V3 1 (qc (-2) 1) 0))).
Proof.
  assert (H : scale turned (One (V3 (qc 2 1) 1 1))
              = Some (One (V3 (qc 1 2) (qc 1 3) (qc 1 2)))) by run_eq.
  split; [exact H | exact (scale_lattice_shift turned _ _ _ H)].
Defined.

(** ** What a call of [wrap] computes *)

Lemma Box_set_vectors (f : kwargs -> option Box) (a b c o : vec3) :
  Box_set f (<["avect" := of_vec3 a]> (<["bvect" := of_vec3 b]>
            (<["cvect" := of_vec3 c]> (<["origin" := of_vec3 o]> ∅))))
  = valid_box (mkBox (M3 a b c) o).
Proof. destruct a, b, c, o. reflexivity. Qed.

Lemma vset_vget (v : vec3) (i : nat) : vset v i (vget v i) = v.
Proof. destruct v, i as [|[|i]]; reflexivity. Qed.

Lemma wrap_axis_run (p : ndarray) (i : nat) (w w' : wrap_state) :
  wrap_axis p i w = Some w' ->
  exists b lo hi,
    pbc_at p i = Some b /\
    step_lo b (vget (ws_mins w) i) (map (fun v => vget v i) (ws_spos w)) = Some lo /\
    step_hi b (vget (ws_maxs w) i) (map (fun v => vget v i) (ws_spos w)) = Some hi /\
    w' = WS (map (fun v => vset v i (wrap_coord b (vget v i))) (ws_spos w))
            (vset (ws_mins w) i lo) (vset (ws_maxs w) i hi).
Proof.
  unfold wrap_axis. destruct (pbc_at p i) as [[|]|]; simpl; [| |discriminate].
  - intros [= <-]. exists true, (vget (ws_mins w) i), (vget (ws_maxs w) i).
    rewrite !vset_vget. repeat split.
  - destruct (col_min _) as [mn|] eqn:Hmin; [|discriminate].
    destruct (col_max _) as [mx|] eqn:Hmax; [|discriminate].
    simpl. intros [= <-].
    exists false, (if Qcltb mn 0 then mn - qc 1 1000 else vget (ws_mins w) i),
           (if Qcltb 1 mx then mx + qc 1 1000 else vget (ws_maxs w) i).
    unfold step_lo, step_hi. rewrite Hmin, Hmax. simpl.
    split; [reflexivity|]. split; [reflexivity|]. split; [reflexivity|].
    f_equal.
    + rewrite <- (map_id (ws_spos w)) at 1. apply map_ext. intros v.
      unfold wrap_coord. symmetry. apply vset_vget.
    + destruct (Qcltb mn 0); [reflexivity | symmetry; apply vset_vget].
    + destruct (Qcltb 1 mx); [reflexivity | symmetry; apply vset_vget].
Qed.

Lemma wrap_loop_run (p : ndarray) (S : list vec3) (w : wrap_state) :
  foldl (fun acc i => acc ≫= wrap_axis p i) (Some (WS S (V3 0 0 0) (V3 1 1 1))) (seq 0 3)
    = Some w ->
  exists b0 b1 b2 l0 l1 l2 h0 h1 h2,
    pbc_at p 0 = Some b0 /\ pbc_at p 1 = Some b1 /\ pbc_at p 2 = Some b2 /\
    wrap_lo b0 (map vx S) = Some l0 /\ wrap_lo b1 (map vy S) = Some l1 /\
    wrap_lo b2 (map vz S) = Some l2 /\
    wrap_hi b0 (map vx S) = Some h0 /\ wrap_hi b1 (map vy S) = Some h1 /\
    wrap_hi b2 (map vz S) = Some h2 /\
    w = WS (map (wrapv b0 b1 b2) S) (V3 l0 l1 l2) (V3 h0 h1 h2).
Proof.
  simpl. intros H.
  destruct (wrap_axis p 0 _) as [w0|] eqn:H0; [|discriminate]. simpl in H.
  destruct (wrap_axis p 1 w0) as [w1|] eqn:H1; [|discriminate]. simpl in H.
  apply wrap_axis_run in H0 as (b0 & l0 & h0 & P0 & L0 & U0 & ->).
  apply wrap_axis_run in H1 as (b1 & l1 & h1 & P1 & L1 & U1 & ->).
  apply wrap_axis_run in H as (b2 & l2 & h2 & P2 & L2 & U2 & ->).
  simpl in *. rewrite !map_map in *. simpl in *.
  exists b0, b1, b2, l0, l1, l2, h0, h1, h2.
  repeat (split; [assumption|]).
  reflexivity.
Qed.

Lemma wrap_lo_nonpos (b : bool) (col : list Qc) (l : Qc) :
  wrap_lo b col = Some l -> l <= 0.
Proof.
  unfold wrap_lo, step_lo. destruct b; [intros [= <-]; apply Qcle_refl|].
  destruct (col_min col) as [mn|]; [|discriminate]. simpl.
  unfold Qcltb. intros [= <-]. case_bool_decide as Hm; [|apply Qcle_refl].
  qc_order. lra.
Qed.

Lemma wrap_hi_ge_1 (b : bool) (col : list Qc) (h : Qc) :
  wrap_hi b col = Some h -> 1 <= h.
Proof.
  unfold wrap_hi, step_hi. destruct b; [intros [= <-]; apply Qcle_refl|].
  destruct (col_max col) as [mx|]; [|discriminate]. simpl.
  unfold Qcltb. intros [= <-]. case_bool_decide as Hm; [|apply Qcle_refl].
  qc_order. lra.
Qed.

Lemma wrap_lo_empty (b : bool) (l : Qc) : wrap_lo b [] = Some l -> b = true.
Proof. destruct b; [reflexivity | discriminate]. Qed.

Lemma det_grown (b : Box) (lo hi : vec3) :
  det (vects (grown b lo hi))
  = det (vects b) * ((vx hi - vx lo) * (vy hi - vy lo) * (vz hi - vz lo)).
Proof.
  destruct b as [[[a0 a1 a2] [b0 b1 b2] [c0 c1 c2]] o], lo, hi.
  unfold grown, det, vmul, avect, bvect, cvect. simpl. ring.
Qed.

Lemma det_grown_nonzero (b : Box) (lo hi : vec3) :
  det (vects b) <> 0 ->
  1 <= vx hi - vx lo -> 1 <= vy hi - vy lo -> 1 <= vz hi - vz lo ->
  det (vects (grown b lo hi)) <> 0.
Proof.
  intros Hd H0 H1 H2. rewrite det_grown. intros H.
  apply Qcmult_integral in H as [H|H]; [contradiction|].
  apply Qcmult_integral in H as [H|H]; [|exact (ge_1_nonzero _ H2 H)].
  apply Qcmult_integral in H as [H|H]; [exact (ge_1_nonzero _ H0 H) | exact (ge_1_nonzero _ H1 H)].
Qed.

Lemma grown_unit (b : Box) : grown b (V3 0 0 0) (V3 1 1 1) = b.
Proof.
  destruct b as [[[a0 a1 a2] [b0 b1 b2] [c0 c1 c2]] [o0 o1 o2]].
  unfold grown, vmul, vadd, vdot, avect, bvect, cvect. simpl.
  f_equal; [f_equal|]; apply vec3_eq; simpl; ring.
Qed.

Lemma vget_wrapv (b0 b1 b2 : bool) (v : vec3) (i : nat) (b : bool) :
  [b0; b1; b2] !! i = Some b ->
  vget (wrapv b0 b1 b2 v) i = wrap_coord b (vget v i).
Proof. destruct i as [|[|[|i]]]; simpl; intros [= ->]; reflexivity. Qed.

Lemma unscaled_wrapv_periodic (b : Box) (u : vec3) :
  vadd (unscaled b (wrapv true true true u)) (vdot (vfloor u) (vects b)) = unscaled b u.
Proof.
  destruct b as [[[a0 a1 a2] [b0 b1 b2] [c0 c1 c2]] [o0 o1 o2]], u as [x y z].
  unfold unscaled, wrapv, wrap_coord, frac, vfloor, vadd, vdot. simpl.
  apply vec3_eq; simpl; ring.
Qed.

Lemma pbc_at_all_true (p : ndarray) (i : nat) (b : bool) :
  p = pbc_of true true true -> pbc_at p i = Some b -> b = true.
Proof. intros ->. destruct i as [|[|[|i]]]; cbv; congruence. Qed.

Lemma wrap_axis_returns (p : ndarray) (i : nat) (w : wrap_state) (b : bool) :
  pbc_at p i = Some b -> (b = true \/ ws_spos w <> []) ->
  exists w', wrap_axis p i w = Some w' /\ (ws_spos w <> [] -> ws_spos w' <> []).
Proof.
  intros Hp Hb. unfold wrap_axis. rewrite Hp. simpl. destruct b.
  - eexists. split; [reflexivity|]. simpl. destruct (ws_spos w); [contradiction | discriminate].
  - destruct Hb as [Hb|Hb]; [discriminate|].
    destruct (ws_spos w) as [|v l] eqn:Hw; [contradiction|]. simpl.
    eexists. split; [reflexivity|]. simpl. intros _. discriminate.
Qed.

Lemma bool3_pbc_at (p : ndarray) :
  bool3 p -> exists b0 b1 b2, p = pbc_of b0 b1 b2 /\
    pbc_at p 0 = Some b0 /\ pbc_at p 1 = Some b1 /\ pbc_at p 2 = Some b2.
Proof.
  intros [Hd (x & y & z & Hp)]. exists x, y, z. destruct p as [d dat]. simpl in *. subst.
  repeat split.
Qed.

Section WrapRun.
Context {E : Extern}.

Lemma box_set_returns (kw : kwargs) (s : System) (b : Box) :
  det (vects (box s)) <> 0 ->
  Box_set Box_set_abc (delete "scale" kw) = Some b ->
  box_set kw s
  = Some (tt, with_pos (with_box s b)
                (map (unscaled b) (map (scaled (box s)) (pos (atoms s))))).
Proof.
  intros Hd Hb. unfold box_set. rewrite py_truthy_scale_literal. simpl.
  unfold bind, lift. rewrite (scale_rows _ _ Hd), Hb.
  unfold unscale. simpl vmap.
  rewrite assign_pos_same by (simpl; rewrite !length_map; reflexivity).
  reflexivity.
Qed.

Lemma wrap_run (s s' : System) :
  wrap s = Some (tt, s') ->
  exists b0 b1 b2 lo hi,
    pbc_at (pbc s) 0 = Some b0 /\ pbc_at (pbc s) 1 = Some b1 /\ pbc_at (pbc s) 2 = Some b2 /\
    det (vects (box s)) <> 0 /\
    let S := map (scaled (box s)) (pos (atoms s)) in
    wrap_lo b0 (map vx S) = Some (vx lo) /\ wrap_lo b1 (map vy S) = Some (vy lo) /\
    wrap_lo b2 (map vz S) = Some (vz lo) /\
    wrap_hi b0 (map vx S) = Some (vx hi) /\ wrap_hi b1 (map vy S) = Some (vy hi) /\
    wrap_hi b2 (map vz S) = Some (vz hi) /\
    det (vects (grown (box s) lo hi)) <> 0 /\
    s' = mkSystem (mkAtoms (atype (atoms s))
                           (map (unscaled (grown (box s) lo hi)) (map (wrapv b0 b1 b2) S)))
                  (grown (box s) lo hi) (pbc s) (prop s).
Proof.
  unfold wrap, wrap_with, bind, lift, get.
  destruct (scale s (Many (pos (atoms s)))) as [spos|] eqn:Hs; [|discriminate].
  pose proof (scale_is_Some _ _ _ Hs) as Hd.
  rewrite (scale_rows _ _ Hd) in Hs. injection Hs as <-. simpl rows.
  destruct (foldl _ _ _) as [w|] eqn:Hw; [|discriminate].
  apply wrap_loop_run in Hw
    as (b0 & b1 & b2 & l0 & l1 & l2 & h0 & h1 & h2
        & P0 & P1 & P2 & L0 & L1 & L2 & U0 & U1 & U2 & ->).
  simpl ws_spos. simpl ws_mins. simpl ws_maxs.
  unfold unscale at 1. simpl vmap.
  rewrite assign_pos_same by (rewrite !length_map; reflexivity).
  intros H. apply box_set_run in H as (spos & b & Hsc & Hb & ->).
  change (box (with_pos s _)) with (box s) in *.
  simpl in Hb.
  rewrite delete_id in Hb by (rewrite !lookup_insert_ne by discriminate; apply lookup_empty).
  rewrite Box_set_vectors in Hb.
  apply valid_box_Some in Hb as [-> Hv].
  rewrite scale_rows in Hsc by exact Hd. simpl in Hsc.
  injection Hsc as <-.
  exists b0, b1, b2, (V3 l0 l1 l2), (V3 h0 h1 h2).
  do 10 (split; [assumption|]). split; [exact Hv|].
  change (map (fun v : vec3 => vadd (vdot v (vects (box s))) (origin (box s))))
    with (map (unscaled (box s))).
  rewrite map_scaled_unscaled by exact Hd. reflexivity.
Qed.

Lemma wrap_returns (s : System) :
  det (vects (box s)) <> 0 -> bool3 (pbc s) ->
  (pos (atoms s) <> [] \/ pbc s = pbc_of true true true) ->
  exists s', wrap s = Some (tt, s').
Proof.
  intros Hd Hb Hne.
  destruct (bool3_pbc_at _ Hb) as (b0 & b1 & b2 & Hp & P0 & P1 & P2).
  set (S := map (scaled (box s)) (pos (atoms s))).
  assert (Hax : forall i b (w : wrap_state), pbc_at (pbc s) i = Some b ->
            (pos (atoms s) <> [] -> ws_spos w <> []) ->
            exists w', wrap_axis (pbc s) i w = Some w' /\
                       (pos (atoms s) <> [] -> ws_spos w' <> [])).
  { intros i b w Hi Hw. destruct Hne as [Hn|Hn].
    - destruct (wrap_axis_returns _ i w b Hi (or_intror (Hw Hn))) as (w' & H1 & H2).
      exists w'. split; [exact H1|]. intros _. apply H2, Hw, Hn.
    - pose proof (pbc_at_all_true _ _ _ Hn Hi) as ->.
      destruct (wrap_axis_returns _ i w true Hi (or_introl eq_refl)) as (w' & H1 & H2).
      exists w'. split; [exact H1|]. intros Hq. apply H2, Hw, Hq. }
  destruct (Hax 0%nat b0 (WS S (V3 0 0 0) (V3 1 1 1)) P0) as (w0 & E0 & N0).
  { simpl. unfold S. intros Hq Hm. apply Hq.
    destruct (pos (atoms s)); [reflexivity | discriminate]. }
  destruct (Hax 1%nat b1 w0 P1 N0) as (w1 & E1 & N1).
  destruct (Hax 2%nat b2 w1 P2 N1) as (w2 & E2 & N2).
  assert (Hloop : foldl (fun acc i => acc ≫= wrap_axis (pbc s) i)
                        (Some (WS S (V3 0 0 0) (V3 1 1 1))) (seq 0 3) = Some w2).
  { simpl. rewrite E0. simpl. rewrite E1. simpl. exact E2. }
  pose proof (wrap_loop_run _ _ _ Hloop)
    as (c0 & c1 & c2 & l0 & l1 & l2 & h0 & h1 & h2
        & _ & _ & _ & L0 & L1 & L2 & U0 & U1 & U2 & Hw).
  unfold wrap, wrap_with, bind, lift, get.
  rewrite (scale_rows _ _ Hd). simpl rows. fold S. rewrite Hloop.
  rewrite Hw. simpl ws_spos. simpl ws_mins. simpl ws_maxs.
  unfold unscale at 1. simpl vmap.
  rewrite assign_pos_same by (unfold S; rewrite !length_map; reflexivity).
  change (box (with_pos s _)) with (box s).
  assert (Hg : det (vects (grown (box s) (V3 l0 l1 l2) (V3 h0 h1 h2))) <> 0).
  { apply det_grown_nonzero; [exact Hd | | |]; simpl; apply growth_ge_1;
      eauto using wrap_lo_nonpos, wrap_hi_ge_1. }
  eexists. apply box_set_returns; [exact Hd|].
  rewrite delete_id by (rewrite !lookup_insert_ne by discriminate; apply lookup_empty).
  rewrite Box_set_vectors. unfold valid_box.
  fold (grown (box s) (V3 l0 l1 l2) (V3 h0 h1 h2)).
  destruct (decide _) as [Hz|_]; [contradiction | reflexivity].
Qed.

Lemma wrap_scaled (s s' : System) :
  wrap s = Some (tt, s') ->
  exists b0 b1 b2 S,
    pbc_at (pbc s) 0 = Some b0 /\ pbc_at (pbc s) 1 = Some b1 /\ pbc_at (pbc s) 2 = Some b2 /\
    scale s (Many (pos (atoms s))) = Some (Many S) /\
    scale s' (Many (pos (atoms s'))) = Some (Many (map (wrapv b0 b1 b2) S)).
Proof.
  intros H. apply wrap_run in H
    as (b0 & b1 & b2 & lo & hi & P0 & P1 & P2 & Hd & _ & _ & _ & _ & _ & _ & Hg & ->).
  exists b0, b1, b2, (map (scaled (box s)) (pos (atoms s))).
  do 3 (split; [assumption|]). split; [apply scale_rows, Hd|].
  rewrite scale_rows by exact Hg. simpl.
  rewrite map_scaled_unscaled by exact Hg. reflexivity.
Qed.

Lemma wrap_frame (s s' : System) :
  wrap s = Some (tt, s') ->
  pbc s' = pbc s /\ prop s' = prop s /\
  atype (atoms s') = atype (atoms s) /\
  length (pos (atoms s')) = length (pos (atoms s)).
Proof.
  intros H. apply wrap_run in H
    as (b0 & b1 & b2 & lo & hi & _ & _ & _ & _ & _ & _ & _ & _ & _ & _ & _ & ->).
  simpl. rewrite !length_map. repeat split.
Qed.

Lemma wrap_run_periodic (s s' : System) :
  pbc s = pbc_of true true true -> wrap s = Some (tt, s') ->
  det (vects (box s)) <> 0 /\
  s' = mkSystem (mkAtoms (atype (atoms s))
                         (map (unscaled (box s))
                              (map (wrapv true true true)
                                   (map (scaled (box s)) (pos (atoms s))))))
                (box s) (pbc s) (prop s).
Proof.
  intros Hp H. apply wrap_run in H
    as (b0 & b1 & b2 & lo & hi & P0 & P1 & P2 & Hd & L0 & L1 & L2 & U0 & U1 & U2 & Hg & ->).
  apply (pbc_at_all_true _ _ _ Hp) in P0, P1, P2. subst b0 b1 b2.
  simpl in *. destruct lo as [l0 l1 l2], hi as [h0 h1 h2]. simpl in *.
  injection L0 as <-. injection L1 as <-. injection L2 as <-.
  injection U0 as <-. injection U1 as <-. injection U2 as <-.
  rewrite grown_unit. split; [exact Hd | reflexivity].
Qed.

(** On binary64 numbers the wrapped coordinate can be 1.0: -1e-17 minus
    its floor -1 rounds to exactly 1, and 1 minus its floor is 0. *)
Lemma wrap_coord_binary64_one :
  PrimFloat.eqb (Binary64.wrap_coord Binary64.just_below_zero (PrimFloat.opp PrimFloat.one))
                PrimFloat.one = true /\
  PrimFloat.eqb (Binary64.wrap_coord PrimFloat.one PrimFloat.one) PrimFloat.zero = true.
Proof. split; vm_compute; reflexivity. Qed.

(** X3: after [wrap], the scaled coordinate of every atom, taken in the new
    box, is on a periodic axis the old one minus its floor, which lies
    between 0 and 1, and on a non-periodic axis the old one unchanged, also
    for an atom that was outside the box.  The bound 1 is included: in
    exact arithmetic the difference stays below 1, but the binary64
    subtraction can round it to 1.0, as for the coordinate -1e-17. *)
Theorem wrap_scaled_coordinates (s s' : System) (i : nat) (b : bool) :
  wrap s = Some (tt, s') -> (i < 3)%nat -> pbc_at (pbc s) i = Some b ->
  exists S S',
    scale s (Many (pos (atoms s))) = Some (Many S) /\
    scale s' (Many (pos (atoms s'))) = Some (Many S') /\
    length S' = length S /\
    forall n v v', S !! n = Some v -> S' !! n = Some v' ->
      if b then vget v' i = frac (vget v i) /\ 0 <= vget v' i /\ vget v' i <= 1
      else vget v' i = vget v i.
Proof.
  intros H Hi Hp. apply wrap_scaled in H as (b0 & b1 & b2 & S & P0 & P1 & P2 & Hs & Hs').
  exists S, (map (wrapv b0 b1 b2) S). split; [exact Hs|]. split; [exact Hs'|].
  split; [apply length_map|].
  intros n v v' Hv Hv'. rewrite list_lookup_fmap, Hv in Hv'. injection Hv' as <-.
  assert (Hb : [b0; b1; b2] !! i = Some b).
  { destruct i as [|[|[|i]]]; simpl; [congruence | congruence | congruence | lia]. }
  rewrite (vget_wrapv _ _ _ _ _ _ Hb). destruct b; simpl; [|reflexivity].
  destruct (frac_bounds (vget v i)) as [H0 H1].
  split; [reflexivity|]. split; [exact H0 | apply Qclt_le_weak, H1].
Qed.

(** X4: [wrap] multiplies each lattice vector by a factor of at least 1,
    which is 1 on a periodic axis, moves the origin by a combination of the
    lattice vectors with coefficients that are at most 0, and 0 on a
    periodic axis, and leaves a box whose matrix is invertible. *)
Theorem wrap_box_grows (s s' : System) :
  wrap s = Some (tt, s') ->
  exists k lo : vec3,
    avect (box s') = vmul (avect (box s)) (vx k) /\
    bvect (box s') = vmul (bvect (box s)) (vy k) /\
    cvect (box s') = vmul (cvect (box s)) (vz k) /\
    origin (box s') = vadd (origin (box s)) (vdot lo (vects (box s))) /\
    det (vects (box s')) <> 0 /\
    forall i, (i < 3)%nat ->
      1 <= vget k i /\ vget lo i <= 0 /\
      (pbc_at (pbc s) i = Some true -> vget k i = 1 /\ vget lo i = 0).
Proof.
  intros H. apply wrap_run in H
    as (b0 & b1 & b2 & lo & hi & P0 & P1 & P2 & Hd & L0 & L1 & L2 & U0 & U1 & U2 & Hg & ->).
  exists (V3 (vx hi - vx lo) (vy hi - vy lo) (vz hi - vz lo)), lo.
  do 4 (split; [reflexivity|]). split; [exact Hg|].
  intros i Hi.
  assert (A : forall b col l h, wrap_lo b col = Some l -> wrap_hi b col = Some h ->
            1 <= h - l /\ l <= 0 /\ (b = true -> h - l = 1 /\ l = 0)).
  { intros b col l h Hl Hh. split; [|split].
    - apply growth_ge_1; eauto using wrap_lo_nonpos, wrap_hi_ge_1.
    - eauto using wrap_lo_nonpos.
    - intros ->. simpl in Hl, Hh. injection Hl as <-. injection Hh as <-.
      split; [ring | reflexivity]. }
  destruct i as [|[|[|i]]]; [| | |lia]; simpl.
  - destruct (A _ _ _ _ L0 U0) as (A1 & A2 & A3). repeat split; try assumption;
      apply A3; congruence.
  - destruct (A _ _ _ _ L1 U1) as (A1 & A2 & A3). repeat split; try assumption;
      apply A3; congruence.
  - destruct (A _ _ _ _ L2 U2) as (A1 & A2 & A3). repeat split; try assumption;
      apply A3; congruence.
Qed.

(** X5: on a System whose pbc is a bool array of shape (3,), [wrap] returns
    exactly when the lattice matrix is invertible and there is an atom or
    every axis is periodic; without atoms a non-periodic axis makes it raise
    (the minimum of an empty column). *)
Theorem wrap_returns_iff (s : System) :
  bool3 (pbc s) ->
  (exists s', wrap s = Some (tt, s')) <->
  det (vects (box s)) <> 0 /\ (pos (atoms s) <> [] \/ pbc s = pbc_of true true true).
Proof.
  intros Hb. split.
  - intros [s' H]. apply wrap_run in H
      as (b0 & b1 & b2 & lo & hi & P0 & P1 & P2 & Hd & L0 & L1 & L2 & _).
    split; [exact Hd|].
    destruct (pos (atoms s)) as [|v l] eqn:Hp; [right | left; discriminate].
    simpl in L0, L1, L2.
    apply wrap_lo_empty in L0, L1, L2. subst.
    destruct (bool3_pbc_at _ Hb) as (c0 & c1 & c2 & Hc & Q0 & Q1 & Q2).
    rewrite Hc. f_equal; congruence.
  - intros [Hd Hne]. apply wrap_returns; assumption.
Qed.

(** X6: when every axis is periodic, [wrap] leaves the box as it is, and it
    leaves the whole System as it is when every scaled coordinate of every
    atom is at least 0 and below 1: atoms inside the box are not moved. *)
Theorem wrap_periodic_inside (s s' : System) :
  pbc s = pbc_of true true true -> wrap s = Some (tt, s') ->
  box s' = box s /\
  forall S, scale s (Many (pos (atoms s))) = Some (Many S) ->
    (forall n v i, S !! n = Some v -> (i < 3)%nat -> 0 <= vget v i /\ vget v i < 1) ->
    s' = s.
Proof.
  intros Hp H. destruct (wrap_run_periodic _ _ Hp H) as [Hd Hs'].
  split; [rewrite Hs'; reflexivity|].
  intros S HS Hin. rewrite scale_rows in HS by exact Hd. injection HS as <-.
  assert (Hfix : map (wrapv true true true) (map (scaled (box s)) (pos (atoms s)))
                 = map (scaled (box s)) (pos (atoms s))).
  { apply list_eq. intros n. rewrite list_lookup_fmap.
    destruct (map (scaled (box s)) (pos (atoms s)) !! n) as [v|] eqn:Hv; [|reflexivity].
    cbn [fmap option_fmap option_map]. f_equal.
    assert (Hc : forall i, (i < 3)%nat -> frac (vget v i) = vget v i).
    { intros i Hi. destruct (Hin n v i Hv Hi) as [H0 H1].
      unfold frac. rewrite (Qcfloor_unit _ H0 H1). ring. }
    unfold wrapv, wrap_coord. destruct v as [x y z].
    pose proof (Hc 0%nat ltac:(lia)) as C0. pose proof (Hc 1%nat ltac:(lia)) as C1.
    pose proof (Hc 2%nat ltac:(lia)) as C2. cbn [vget vx vy vz] in *.
    rewrite C0, C1, C2. reflexivity. }
  rewrite Hfix in Hs'.
  assert (Hback : map (unscaled (box s)) (map (scaled (box s)) (pos (atoms s)))
                  = pos (atoms s)).
  { rewrite map_map. rewrite <- (map_id (pos (atoms s))) at 2. apply map_ext.
    intros v. apply unscaled_scaled, Hd. }
  rewrite Hback in Hs'. rewrite Hs'. destruct s as [[ty ps] b p m]. reflexivity.
Qed.

(** X7: when every axis is periodic, [wrap] moves each atom by whole lattice
    vectors only: the old position is the new one plus integer multiples of
    the three lattice vectors. *)
Theorem wrap_periodic_translations (s s' : System) (n : nat) (p p' : vec3) :
  pbc s = pbc_of true true true -> wrap s = Some (tt, s') ->
  pos (atoms s) !! n = Some p -> pos (atoms s') !! n = Some p' ->
  exists n0 n1 n2 : Z,
    p = vadd p' (vdot (V3 (Qc_of_Z n0) (Qc_of_Z n1) (Qc_of_Z n2)) (vects (box s))).
Proof.
  intros Hp H Hn Hn'. destruct (wrap_run_periodic _ _ Hp H) as [Hd ->].
  simpl in Hn'. rewrite !list_lookup_fmap, Hn in Hn'. simpl in Hn'. injection Hn' as <-.
  set (u := scaled (box s) p).
  exists (Qfloor (this (vx u))), (Qfloor (this (vy u))), (Qfloor (this (vz u))).
  change (V3 _ _ _) with (vfloor u).
  rewrite unscaled_wrapv_periodic. unfold u. symmetry. apply unscaled_scaled, Hd.
Qed.


(** X9: [box_set], [box_normalize] and [wrap] change the box and the
    positions only: the pbc flags, the property mapping, the atom types and
    the number of atoms are as before. *)
Theorem box_methods_frame (s s' : System) (kw : kwargs) :
  box_set kw s = Some (tt, s') \/ box_normalize s = Some (tt, s') \/ wrap s = Some (tt, s') ->
  pbc s' = pbc s /\ prop s' = prop s /\
  atype (atoms s') = atype (atoms s) /\
  length (pos (atoms s')) = length (pos (atoms s)).
Proof.
  intros [H|[H|H]].
  - apply box_set_run in H as (spos & b & Hs & _ & ->).
    pose proof (scale_is_Some _ _ _ Hs) as Hd. rewrite scale_rows in Hs by exact Hd.
    injection Hs as <-. simpl. rewrite !length_map. repeat split.
  - unfold box_normalize, bind, lift in H.
    destruct (scale s _) as [spos|] eqn:Hs; [|discriminate].
    pose proof (scale_is_Some _ _ _ Hs) as Hd. rewrite scale_rows in Hs by exact Hd.
    injection Hs as <-.
    destruct (Box_normalize (box s)) as [b|]; [|discriminate]. simpl in H.
    unfold unscale in H. simpl vmap in H.
    rewrite assign_pos_same in H by (simpl; rewrite !length_map; reflexivity).
    injection H as <-. simpl. rewrite !length_map. repeat split.
  - apply wrap_frame, H.
Qed.

(** X10: a call of [box_set] that returns keeps the scaled positions,
    whatever value is passed for [scale]: scaling the new positions in the
    new box gives what scaling the old positions in the old box gave. *)
Theorem box_set_any_flag_keeps_scaled (kw : kwargs) (flag : pyobj) (s s' : System) :
  box_set (<["scale" := flag]> kw) s = Some (tt, s') ->
  exists spos,
    scale s (Many (pos (atoms s))) = Some spos /\
    scale s' (Many (pos (atoms s'))) = Some spos.
Proof.
  intros H. apply box_set_keeps_scaled in H as (spos & H1 & H2 & _).
  exists spos. split; assumption.
Qed.

End WrapRun.

Lemma wrap_scaled_coordinates_witness :
  exists S S',
    scale outside_x (Many (pos (atoms outside_x))) = Some (Many S) /\
    scale wrapped_once (Many (pos (atoms wrapped_once))) = Some (Many S') /\
    length S' = length S /\
    forall n v v', S !! n = Some v -> S' !! n = Some v' ->
      vget v' 1 = frac (vget v 1) /\ 0 <= vget v' 1 /\ vget v' 1 <= 1.
Proof.
  assert (H : @wrap (example_extern LP64) outside_x = Some (tt, wrapped_once)) by run_eq.
  assert (Hi : (1 < 3)%nat) by lia.
  assert (Hp : pbc_at (pbc outside_x) 1 = Some true) by reflexivity.
  exact (@wrap_scaled_coordinates (example_extern LP64) outside_x wrapped_once 1 true H Hi Hp).
Defined.

Lemma wrap_box_grows_witness :
  exists k lo : vec3,
    avect (box wrapped_once) = vmul (avect (box outside_x)) (vx k) /\
    bvect (box wrapped_once) = vmul (bvect (box outside_x)) (vy k) /\
    cvect (box wrapped_once) = vmul (cvect (box outside_x)) (vz k) /\
    origin (box wrapped_once)
      = vadd (origin (box outside_x)) (vdot lo (vects (box outside_x))) /\
    det (vects (box wrapped_once)) <> 0 /\
    forall i, (i < 3)%nat ->
      1 <= vget k i /\ vget lo i <= 0 /\
      (pbc_at (pbc outside_x) i = Some true -> vget k i = 1 /\ vget lo i = 0).
Proof.
  assert (H : @wrap (example_extern LP64) outside_x = Some (tt, wrapped_once)) by run_eq.
  exact (@wrap_box_grows (example_extern LP64) outside_x wrapped_once H).
Defined.

Lemma wrap_returns_iff_witness :
  (exists s', @wrap (example_extern LP64) outside_x = Some (tt, s')) <->
  det (vects (box outside_x)) <> 0 /\
  (pos (atoms outside_x) <> [] \/ pbc outside_x = pbc_of true true true).
Proof.
  assert (Hb : bool3 (pbc outside_x))
    by (split; [reflexivity | exists false, true, true; reflexivity]).
  exact (@wrap_returns_iff (example_extern LP64) outside_x Hb).
Defined.

Lemma wrap_periodic_inside_witness :
  exists s', @wrap (example_extern LP64) stray_wrapped = Some (tt, s') /\
             box s' = box stray_wrapped /\ s' = stray_wrapped.
Proof.
  assert (Hp : pbc stray_wrapped = pbc_of true true true) by reflexivity.
  assert (Hd : det (vects (box stray_wrapped)) <> 0)
    by (apply (bool_decide_unpack _); vm_compute; exact I).
  destruct (@wrap_returns (example_extern LP64) stray_wrapped Hd) as [s' H].
  { split; [reflexivity|]. exists true, true, true. reflexivity. }
  { right. exact Hp. }
  exists s'. split; [exact H|].
  destruct (@wrap_periodic_inside (example_extern LP64) stray_wrapped s' Hp H) as [Hb Hs].
  split; [exact Hb|].
  apply (Hs [V3 (qc 1 5) (qc 7 10) (qc 1 2); V3 (qc 1 2) (qc 1 2) (qc 1 2)]).
  - run_eq.
  - intros n v i Hv Hi.
    destruct n as [|[|n]]; [| |discriminate Hv]; injection Hv as <-;
      (destruct i as [|[|[|i]]]; [| | |lia]);
      (split; [intros Hc; vm_compute in Hc; discriminate Hc | reflexivity]).
Defined.

Lemma wrap_periodic_translations_witness :
  exists n0 n1 n2 : Z,
    V3 (qc 12 1) (qc (-3) 1) (qc 5 1)
    = vadd (V3 (qc 2 1) (qc 7 1) (qc 5 1))
           (vdot (V3 (Qc_of_Z n0) (Qc_of_Z n1) (Qc_of_Z n2)) (vects (box stray))).
Proof.
  assert (Hp : pbc stray = pbc_of true true true) by reflexivity.
  assert (H : @wrap (example_extern LP64) stray = Some (tt, stray_wrapped)) by run_eq.
  exact (@wrap_periodic_translations (example_extern LP64) stray stray_wrapped 0
           _ _ Hp H eq_refl eq_refl).
Defined.


Lemma box_methods_frame_witness :
  pbc wrapped_once = pbc outside_x /\ prop wrapped_once = prop outside_x /\
  atype (atoms wrapped_once) = atype (atoms outside_x) /\
  length (pos (atoms wrapped_once)) = length (pos (atoms outside_x)).
Proof.
  assert (H : @wrap (example_extern LP64) outside_x = Some (tt, wrapped_once)) by run_eq.
  exact (@box_methods_frame (example_extern LP64) outside_x wrapped_once ∅
           (or_intror (or_intror H))).
Defined.

Lemma box_set_any_flag_keeps_scaled_witness :
  exists spos,
    scale centred (Many (pos (atoms centred))) = Some spos /\
    scale centred_rescaled (Many (pos (atoms centred_rescaled))) = Some spos.
Proof.
  assert (H : @box_set (example_extern LP64) (<["scale" := PBool false]> cube20_kwargs) centred
              = Some (tt, centred_rescaled)) by run_eq.
  exact (@box_set_any_flag_keeps_scaled (example_extern LP64) _ _ _ _ H).
Defined.

(** ** The constructor and the pbc setter *)

(** X11: the constructor called with [scale=True] on a box whose matrix is
    invertible and a pbc value of shape (3,) returns a System whose scaled
    positions are the positions that were passed in. *)
Theorem init_scaled_round_trip (a : Atoms) (b : Box) (p : pyobj) (m : gmap string pyobj) :
  det (vects b) <> 0 -> shape (structure p) = Some [3%nat] ->
  exists s, __init__ a b p (PBool true) m = Some s /\
            box s = b /\ prop s = m /\ atype (atoms s) = atype a /\
            scale s (Many (pos (atoms s))) = Some (Many (pos a)).
Proof.
  intros Hd Hp. unfold __init__, bind, ret. simpl.
  unfold unscale. simpl vmap.
  rewrite assign_pos_same by (simpl; rewrite length_map; reflexivity).
  unfold pbc_set, bind, lift, np_asarray_bool. rewrite Hp.
  apply shape_3 in Hp as (x & y & z & Hx). rewrite Hx. simpl.
  eexists. split; [reflexivity|]. simpl. repeat split.
  rewrite scale_rows by exact Hd. simpl. f_equal. f_equal.
  apply (map_scaled_unscaled b), Hd.
Qed.

Lemma init_scaled_round_trip_witness :
  exists s, __init__ (mkAtoms [1%Z] [V3 (qc 1 4) (qc 1 2) (qc 3 4)]) cube10
                     (PList [PBool true; PInt 0; PBool true]) (PBool true) ∅ = Some s /\
            box s = cube10 /\ prop s = ∅ /\ atype (atoms s) = [1%Z] /\
            scale s (Many (pos (atoms s))) = Some (Many [V3 (qc 1 4) (qc 1 2) (qc 3 4)]).
Proof.
  apply (init_scaled_round_trip (mkAtoms [1%Z] [V3 (qc 1 4) (qc 1 2) (qc 3 4)]) cube10).
  - apply (bool_decide_unpack _). vm_compute. exact I.
  - reflexivity.
Defined.

(** X12: the pbc setter returns exactly for the values of shape (3,), a
    nested list holding three entries is refused, and what it stores is the
    truth value of each entry, so that numbers are accepted as flags. *)
Theorem pbc_set_accepts (value : pyobj) (s s' : System) :
  pbc_set value s = Some (tt, s') <->
  shape (structure value) = Some [3%nat] /\
  s' = with_pbc s (NdArray bool_ (nd_map (fun e => EB (elem_truthy e)) (structure value))).
Proof.
  split.
  - intros H. pose proof (pbc_set_Some _ _ _ H) as (_ & _ & _ & _ & Hs).
    split; [exact Hs|].
    unfold pbc_set, bind, lift, np_asarray_bool, raise in H. rewrite Hs in H. simpl in H.
    destruct (decide _); [|discriminate]. congruence.
  - intros [Hs ->]. unfold pbc_set, bind, lift, np_asarray_bool. rewrite Hs.
    apply shape_3 in Hs as (x & y & z & ->). reflexivity.
Qed.

Lemma pbc_set_numbers (s : System) :
  pbc_set (PList [PInt 1; PInt 0; PFloat (qc 5 2)]) s
  = Some (tt, with_pbc s (pbc_of true false true)).
Proof. reflexivity. Qed.

(** ** [nlist], twice *)

Section NlistTwice.
Context {E : Extern}.

(** X13: after two calls of [nlist] the property mapping is the one before
    the first call with 'nlist' bound to the second list; nothing of the
    first list is left, and atoms, box and pbc are as before. *)
Theorem nlist_twice (c1 m1 c2 m2 r1 r2 : pyobj) (s s1 s2 : System) :
  nlist c1 m1 s = Some (r1, s1) -> nlist c2 m2 s1 = Some (r2, s2) ->
  exists v2, tools_nlist s1 c2 m2 = Some v2 /\
             prop s2 = <["nlist" := v2]> (prop s) /\
             atoms s2 = atoms s /\ box s2 = box s /\ pbc s2 = pbc s.
Proof.
  unfold nlist. destruct (tools_nlist s c1 m1) as [v1|]; [|discriminate].
  simpl. intros [= _ <-].
  destruct (tools_nlist _ c2 m2) as [v2|]; [|discriminate].
  simpl. intros [= _ <-]. exists v2. split; [reflexivity|]. simpl.
  split; [apply insert_insert_eq|]. repeat split.
Qed.

End NlistTwice.

Lemma nlist_twice_witness :
  exists v2, nlist_all_pairs three_atoms_listed (PFloat (qc 10 1)) (PInt 1) = Some v2 /\
             prop (with_prop three_atoms_listed
                     (<["nlist" := three_atoms_nlist_10]> (prop three_atoms_listed)))
               = <["nlist" := v2]> (prop three_atoms) /\
             atoms (with_prop three_atoms_listed
                     (<["nlist" := three_atoms_nlist_10]> (prop three_atoms_listed)))
               = atoms three_atoms /\
             box (with_prop three_atoms_listed
                     (<["nlist" := three_atoms_nlist_10]> (prop three_atoms_listed)))
               = box three_atoms /\
             pbc (with_prop three_atoms_listed
                     (<["nlist" := three_atoms_nlist_10]> (prop three_atoms_listed)))
               = pbc three_atoms.
Proof.
  assert (H1 : @nlist (example_extern LP64) (PFloat 1) (PInt 1) three_atoms
               = Some (PNone, three_atoms_listed)) by (vm_compute; reflexivity).
  assert (H2 : @nlist (example_extern LP64) (PFloat (qc 10 1)) (PInt 1) three_atoms_listed
               = Some (PNone, with_prop three_atoms_listed
                                (<["nlist" := three_atoms_nlist_10]> (prop three_atoms_listed))))
    by (vm_compute; reflexivity).
  exact (@nlist_twice (example_extern LP64) _ _ _ _ _ _ _ _ _ H1 H2).
Defined.

(** ** [atoms_prop] *)

Lemma is_None_of_varray (a : varray) : is_None (of_varray a) = false.
Proof. destruct a; reflexivity. Qed.

Lemma nd_vec3_vec3_nd (v : vec3) : nd_vec3 (vec3_nd v) = Some v.
Proof. destruct v. reflexivity. Qed.

Lemma shape_rows (v : vec3) (vs : list vec3) :
  shape (Axis (map vec3_nd (v :: vs))) = Some [S (length vs); 3%nat].
Proof.
  assert (Ha : forall l : list vec3,
             forallb (fun o : option (list nat) => bool_decide (o = Some [3%nat]))
                     (map (fun _ : vec3 => Some [3%nat]) l) = true).
  { induction l as [|u l IH]; [reflexivity|]. cbn [map forallb].
    rewrite bool_decide_eq_true_2 by reflexivity. exact IH. }
  assert (H : map (fun u => shape (vec3_nd u)) (v :: vs)
              = Some [3%nat] :: map (fun _ => Some [3%nat]) vs)
    by (cbn [map]; f_equal; apply map_ext; intros u; reflexivity).
  cbn [shape]. rewrite map_map, H, Ha. cbn [length map]. rewrite !length_map.
  reflexivity.
Qed.

Lemma on_last_axis_row (f : nd -> option nd) (v : vec3) :
  on_last_axis f (vec3_nd v) = f (vec3_nd v).
Proof. reflexivity. Qed.

Lemma on_last_axis_Axis (f : nd -> option nd) (l : list nd) :
  on_last_axis f (Axis l)
  = if forallb is_item l then f (Axis l) else Axis <$> mapM (on_last_axis f) l.
Proof.
  cbn [on_last_axis]. destruct (forallb is_item l); reflexivity.
Qed.

Lemma on_last_axis_rows (f : nd -> option nd) (g : vec3 -> vec3) (v : vec3)
    (vs : list vec3) :
  (forall u, f (vec3_nd u) = Some (vec3_nd (g u))) ->
  on_last_axis f (Axis (map vec3_nd (v :: vs)))
  = Some (Axis (map vec3_nd (map g (v :: vs)))).
Proof.
  intros Hf. rewrite on_last_axis_Axis.
  assert (Hi : forallb is_item (map vec3_nd (v :: vs)) = false) by reflexivity.
  rewrite Hi.
  assert (Hm : forall l, mapM (on_last_axis f) (map vec3_nd l)
                         = Some (map vec3_nd (map g l))).
  { induction l as [|u l IH]; [reflexivity|].
    cbn [map mapM]. rewrite on_last_axis_row, Hf. cbn [mbind option_bind].
    rewrite IH. reflexivity. }
  rewrite Hm. reflexivity.
Qed.

Section AtomsProp.
Context {E : Extern}.

Lemma unscale_value_of_varray (s : System) (v : varray) :
  unscale_value s (of_varray v) = Some (of_varray (unscale s v)).
Proof.
  assert (Hrow : forall u, unscale_row (box s) (vec3_nd u)
                           = Some (vec3_nd (vadd (vdot u (vects (box s))) (origin (box s))))).
  { intros u. unfold unscale_row. rewrite nd_vec3_vec3_nd. reflexivity. }
  destruct v as [u|[|u vs]].
  - unfold unscale_value, of_varray, of_vec3. cbn [structure data].
    change (shape (vec3_nd u)) with (Some [3%nat]). cbn [vec3_nd].
    change (Axis [Item (EF (vx u)); Item (EF (vy u)); Item (EF (vz u))]) with (vec3_nd u).
    rewrite on_last_axis_row, Hrow. reflexivity.
  - reflexivity.
  - unfold unscale_value, of_varray. cbn [structure data].
    rewrite shape_rows. cbn [map].
    change (vec3_nd u :: map vec3_nd vs) with (map vec3_nd (u :: vs)).
    rewrite (on_last_axis_rows _ _ u vs Hrow). reflexivity.
Qed.

Lemma scale_value_of_varray (s : System) (v : varray) :
  scale_value s (of_varray v) = of_varray <$> scale s v.
Proof.
  unfold scale_value, scale. destruct (linalg_inv (vects (box s))) as [inverse|];
    [|reflexivity].
  cbn [mbind option_bind fmap option_fmap option_map].
  assert (Hrow : forall u, scale_row (box s) inverse (vec3_nd u)
                           = Some (vec3_nd (vdot (vsub u (origin (box s))) inverse))).
  { intros u. unfold scale_row. cbn [vec3_nd]. 
    change (Axis [Item (EF (vx u)); Item (EF (vy u)); Item (EF (vz u))]) with (vec3_nd u).
    rewrite nd_vec3_vec3_nd. reflexivity. }
  destruct v as [u|[|u vs]].
  - unfold of_varray, of_vec3. cbn [structure data].
    change (shape (vec3_nd u)) with (Some [3%nat]). cbn [vec3_nd].
    change (Axis [Item (EF (vx u)); Item (EF (vy u)); Item (EF (vz u))]) with (vec3_nd u).
    rewrite on_last_axis_row, Hrow. reflexivity.
  - reflexivity.
  - unfold of_varray. cbn [structure data].
    rewrite shape_rows. cbn [map].
    change (vec3_nd u :: map vec3_nd vs) with (map vec3_nd (u :: vs)).
    rewrite (on_last_axis_rows _ _ u vs Hrow). reflexivity.
Qed.

(** X14: with a [scale] argument that is not the literal False and an
    invertible lattice matrix, a value of scaled 3-vectors that is assigned
    through [atoms_prop] is read back unchanged through [atoms_prop],
    provided [Atoms.prop] keeps the array it is given and hands it out
    again; the assigning call returns None. *)
Theorem atoms_prop_scaled_round_trip
    (s : System) (a_id key dtype k r : pyobj) (v : varray) (a1 : Atoms) :
  is_False k = false ->
  det (vects (box s)) <> 0 ->
  Atoms_prop (atoms s) a_id key (of_varray (unscale s v)) dtype = Some (r, a1) ->
  Atoms_prop a1 a_id key PNone dtype = Some (of_varray (unscale s v), a1) ->
  atoms_prop a_id key (of_varray v) dtype k s = Some (PNone, with_atoms s a1) /\
  atoms_prop a_id key PNone dtype k (with_atoms s a1) = Some (of_varray v, with_atoms s a1).
Proof.
  intros Hk Hd Hset Hget. unfold atoms_prop. rewrite Hk. split.
  - rewrite is_None_of_varray. cbn [negb]. rewrite unscale_value_of_varray.
    cbn [mbind option_bind]. rewrite Hset. reflexivity.
  - cbn [negb is_None]. change (unscale s v) with (unscale (with_atoms s a1) v) in Hget.
    cbn [atoms with_atoms]. rewrite Hget. cbn [mbind option_bind].
    rewrite is_None_of_varray, scale_value_of_varray.
    change (scale (with_atoms (with_atoms s a1) a1)) with (scale s).
    change (unscale (with_atoms s a1) v) with (unscale s v).
    rewrite scale_after_unscale by exact Hd. destruct a1. reflexivity.
Qed.

(** X15: whenever [atoms_prop] returns, it has changed neither the box, nor
    the pbc flags, nor the property mapping, and a call that assigns a value
    with a [scale] argument other than the literal False returns None.  The
    value may be anything that [unscale] accepts: a 3-vector, an array of
    them with any number of axes, or a single number. *)
Theorem atoms_prop_frame (a_id key value dtype k r : pyobj) (s s' : System) :
  atoms_prop a_id key value dtype k s = Some (r, s') ->
  box s' = box s /\ pbc s' = pbc s /\ prop s' = prop s /\
  (is_False k = false -> is_None value = false -> r = PNone).
Proof.
  unfold atoms_prop. destruct (is_False k) eqn:Hk.
  - destruct (Atoms_prop _ _ _ _ _) as [[r0 a]|]; [|discriminate]. simpl.
    intros [= <- <-]. repeat split. discriminate.
  - destruct (is_None value) eqn:Hv; simpl.
    + destruct (Atoms_prop _ _ _ _ _) as [[r0 a]|]; [|discriminate]. simpl.
      destruct (is_None r0).
      * intros [= <- <-]. repeat split.
      * destruct (scale_value _ r0) as [w|]; [|discriminate]. simpl.
        intros [= <- <-]. repeat split. discriminate.
    + destruct (unscale_value s value) as [v|]; [|discriminate]. simpl.
      destruct (Atoms_prop _ _ _ _ _) as [[r0 a]|]; [|discriminate]. simpl.
      intros [= <- <-]. repeat split.
Qed.

(** The list [[]] has shape (0,): [unscale] raises on it, inside
    [atoms_prop] as well. *)
Lemma atoms_prop_empty_list (a_id key dtype k : pyobj) (s : System) :
  is_False k = false -> atoms_prop a_id key (PList []) dtype k s = None.
Proof. intros Hk. unfold atoms_prop. rewrite Hk. reflexivity. Qed.

(** A number is broadcast: it multiplies the lattice matrix, and [Atoms.prop]
    is handed the three rows, each moved by the origin. *)
Lemma unscale_value_number (s : System) (c : Qc) :
  unscale_value s (PFloat c)
  = Some (of_varray (Many [vadd (vmul (avect (box s)) c) (origin (box s));
                           vadd (vmul (bvect (box s)) c) (origin (box s));
                           vadd (vmul (cvect (box s)) c) (origin (box s))])).
Proof. reflexivity. Qed.

(** A number and a last axis of one number are broadcast by the subtraction
    of the origin in [scale]. *)
Lemma scale_value_number (s : System) (c : Qc) (inverse : mat3) :
  linalg_inv (vects (box s)) = Some inverse ->
  scale_value s (PFloat c) = Some (of_vec3 (vdot (vsub (V3 c c c) (origin (box s))) inverse)) /\
  scale_value s (PList [PFloat c])
  = Some (of_vec3 (vdot (vsub (V3 c c c) (origin (box s))) inverse)).
Proof. intros H. unfold scale_value. rewrite H. split; reflexivity. Qed.

End AtomsProp.

(** An array of shape (1,2,3) keeps its shape in [unscale]. *)
Lemma unscale_value_three_axes :
  unscale_value centred
    (PList [PList [PList [PInt 0; PFloat (qc 1 2); PInt 1];
                   PList [PFloat (qc 1 4); PInt 0; PInt 0]]])
  = Some (PArr (NdArray float64
                  (Axis [Axis [vec3_nd (V3 0 (qc 5 1) (qc 10 1));
                               vec3_nd (V3 (qc 5 2) 0 0)]]))).
Proof. run_eq. Qed.

Lemma atoms_prop_scaled_round_trip_witness :
  @atoms_prop store_extern PNone (PStr "pos")
     (of_varray (Many [V3 (qc 1 4) (qc 1 2) (qc 3 4)])) PNone (PInt 0) centred
    = Some (PNone, with_atoms centred (mkAtoms [1%Z] [V3 (qc 5 2) (qc 5 1) (qc 15 2)])) /\
  @atoms_prop store_extern PNone (PStr "pos") PNone PNone (PInt 0)
     (with_atoms centred (mkAtoms [1%Z] [V3 (qc 5 2) (qc 5 1) (qc 15 2)]))
    = Some (of_varray (Many [V3 (qc 1 4) (qc 1 2) (qc 3 4)]),
            with_atoms centred (mkAtoms [1%Z] [V3 (qc 5 2) (qc 5 1) (qc 15 2)])).
Proof.
  assert (Hk : is_False (PInt 0) = false) by reflexivity.
  assert (Hd : det (vects (box centred)) <> 0)
    by (apply (bool_decide_unpack _); vm_compute; exact I).
  assert (Hset : @Atoms_prop store_extern (atoms centred) PNone (PStr "pos")
                   (of_varray (unscale centred (Many [V3 (qc 1 4) (qc 1 2) (qc 3 4)]))) PNone
                 = Some (PNone, mkAtoms [1%Z] [V3 (qc 5 2) (qc 5 1) (qc 15 2)])) by run_eq.
  assert (Hget : @Atoms_prop store_extern (mkAtoms [1%Z] [V3 (qc 5 2) (qc 5 1) (qc 15 2)])
                   PNone (PStr "pos") PNone PNone
                 = Some (of_varray (unscale centred (Many [V3 (qc 1 4) (qc 1 2) (qc 3 4)])),
                         mkAtoms [1%Z] [V3 (qc 5 2) (qc 5 1) (qc 15 2)])) by run_eq.
  exact (@atoms_prop_scaled_round_trip store_extern centred PNone (PStr "pos") PNone
           (PInt 0) PNone _ _ Hk Hd Hset Hget).
Defined.

Lemma atoms_prop_frame_witness :
  box (with_atoms centred (mkAtoms [1%Z] [V3 (qc 5 2) (qc 5 1) (qc 15 2)])) = box centred /\
  pbc (with_atoms centred (mkAtoms [1%Z] [V3 (qc 5 2) (qc 5 1) (qc 15 2)])) = pbc centred /\
  prop (with_atoms centred (mkAtoms [1%Z] [V3 (qc 5 2) (qc 5 1) (qc 15 2)])) = prop centred /\
  (is_False (PBool true) = false ->
   is_None (of_varray (Many [V3 (qc 1 4) (qc 1 2) (qc 3 4)])) = false -> PNone = PNone).
Proof.
  assert (H : @atoms_prop store_extern PNone (PStr "pos")
                (of_varray (Many [V3 (qc 1 4) (qc 1 2) (qc 3 4)])) PNone (PBool true) centred
              = Some (PNone, with_atoms centred
                               (mkAtoms [1%Z] [V3 (qc 5 2) (qc 5 1) (qc 15 2)]))) by run_eq.
  exact (@atoms_prop_frame store_extern _ _ _ _ _ _ _ _ H).
Defined.

(** ** [dvect]: indexes and positions *)

Lemma asarray_int (p : platform) (k : Z) :
  in_range (-2147483648) 2147483647 k = true ->
  np_asarray p (PInt k) = NdArray (default_int p) (Item (EI k)).
Proof.
  intros Hk. unfold np_asarray. simpl. unfold int_dtype. rewrite Hk.
  assert (in_range (-9223372036854775808) 9223372036854775807 k = true) as ->.
  { unfold in_range in *. apply andb_true_iff in Hk as [H1 H2].
    apply Z.leb_le in H1, H2. apply andb_true_iff. split; apply Z.leb_le; lia. }
  destruct p; reflexivity.
Qed.

Section DvectIndex.
Context {E : Extern}.

Lemma resolve_index_in (s : System) (k : Z) :
  in_range (-2147483648) 2147483647 k = true ->
  (- Z.of_nat (length (pos (atoms s))) <= k < Z.of_nat (length (pos (atoms s))))%Z ->
  exists v, pos (atoms s) !! Z.to_nat (k `mod` Z.of_nat (length (pos (atoms s)))) = Some v /\
            resolve s (np_asarray host (PInt k)) = Some (NdArray float64 (vec3_nd v)).
Proof.
  intros Hk Hr. rewrite (asarray_int _ _ Hk), resolve_default_int by reflexivity.
  simpl. unfold take_row. rewrite bool_decide_eq_true_2 by exact Hr.
  set (N := Z.of_nat (length (pos (atoms s)))) in *.
  assert (Hl : (Z.to_nat (k `mod` N) < length (pos (atoms s)))%nat).
  { assert (0 < N)%Z by lia. pose proof (Z.mod_pos_bound k N H). unfold N in *. lia. }
  destruct (lookup_lt_is_Some_2 _ _ Hl) as [v Hv]. exists v. rewrite Hv. split; reflexivity.
Qed.

Lemma resolve_index_out (s : System) (k : Z) :
  in_range (-2147483648) 2147483647 k = true ->
  ~ (- Z.of_nat (length (pos (atoms s))) <= k < Z.of_nat (length (pos (atoms s))))%Z ->
  resolve s (np_asarray host (PInt k)) = None.
Proof.
  intros Hk Hr. rewrite (asarray_int _ _ Hk), resolve_default_int by reflexivity.
  simpl. unfold take_row. rewrite bool_decide_eq_false_2 by exact Hr. reflexivity.
Qed.

(** X16: an integer [k] given to [dvect] (one that fits 32 bits) selects an
    atom of the System: with N atoms and -N <= k < N it stands for the
    position of atom [k mod N], so that negative numbers count from the
    end; outside of that range [dvect] raises, in either argument and
    whatever the other argument is. *)
Theorem dvect_index (s : System) (k : Z) (other : pyobj) :
  in_range (-2147483648) 2147483647 k = true ->
  let N := Z.of_nat (length (pos (atoms s))) in
  ((- N <= k < N)%Z ->
     exists v, pos (atoms s) !! Z.to_nat (k `mod` N) = Some v /\
       dvect s (PInt k) other
       = (p1 ← resolve s (np_asarray host other);
          tools_dvect (NdArray float64 (vec3_nd v)) p1 (box s) (pbc s))) /\
  (~ (- N <= k < N)%Z ->
     dvect s (PInt k) other = None /\ dvect s other (PInt k) = None).
Proof.
  intros Hk N. split.
  - intros Hr. destruct (resolve_index_in s k Hk Hr) as (v & Hv & Hres).
    exists v. split; [exact Hv|]. unfold dvect. rewrite Hres. reflexivity.
  - intros Hr. pose proof (resolve_index_out s k Hk Hr) as Hres.
    unfold dvect. split; [rewrite Hres; reflexivity|].
    destruct (resolve s (np_asarray host other)) as [p0|]; [|reflexivity].
    change (resolve s (np_asarray host (PInt k))
              ≫= (fun p1 => tools_dvect p0 p1 (box s) (pbc s)) = None).
    rewrite Hres. reflexivity.
Qed.

(** X17: when neither argument of [dvect] becomes an array of an integer
    dtype (floats, also with whole values such as [1.0, 2.0, 3.0], a list
    that mixes integers and floats, bools), the result is that of
    [atomman.tools.dvect] on the two arrays with the box and the pbc flags
    of the System; no atom is looked up. *)
Theorem dvect_positions (s : System) (pos_0 pos_1 : pyobj) :
  is_integer_dtype (dt (np_asarray host pos_0)) = false ->
  is_integer_dtype (dt (np_asarray host pos_1)) = false ->
  dvect s pos_0 pos_1
  = tools_dvect (np_asarray host pos_0) (np_asarray host pos_1) (box s) (pbc s).
Proof.
  intros H0 H1. unfold dvect.
  rewrite (resolve_not_integer s _ H0), (resolve_not_integer s _ H1). reflexivity.
Qed.

End DvectIndex.

Lemma dvect_index_witness :
  (exists v, pos (atoms three_atoms) !! 2%nat = Some v /\
     @dvect (example_extern LP64) three_atoms (PInt (-1)) (PInt 0)
     = (p1 ← @resolve (example_extern LP64) three_atoms (np_asarray LP64 (PInt 0));
        dvect_direct (NdArray float64 (vec3_nd v)) p1 (box three_atoms) (pbc three_atoms))) /\
  @dvect (example_extern LP64) three_atoms (PInt 3) (PInt 0) = None.
Proof.
  assert (Hk : in_range (-2147483648) 2147483647 (-1) = true) by reflexivity.
  assert (Hk3 : in_range (-2147483648) 2147483647 3 = true) by reflexivity.
  split.
  - apply (proj1 (@dvect_index (example_extern LP64) three_atoms (-1) (PInt 0) Hk)).
    simpl. lia.
  - apply (proj2 (@dvect_index (example_extern LP64) three_atoms 3 (PInt 0) Hk3)).
    simpl. lia.
Defined.

Lemma dvect_positions_witness :
  @dvect (example_extern LP64) three_atoms
     (PList [PFloat 1; PFloat (qc 2 1); PFloat (qc 3 1)])
     (PList [PInt 1; PFloat (qc 5 2); PInt 3])
  = dvect_direct (np_asarray LP64 (PList [PFloat 1; PFloat (qc 2 1); PFloat (qc 3 1)]))
                 (np_asarray LP64 (PList [PInt 1; PFloat (qc 5 2); PInt 3]))
                 (box three_atoms) (pbc three_atoms).
Proof.
  apply (@dvect_positions (example_extern LP64) three_atoms); reflexivity.
Defined.

(** * BondAngleMap *)

(** ** Blocks of one length *)

Lemma flat_map_const_length {A B : Type} (f : A -> list B) (l : list A) (n : nat) :
  (forall a, length (f a) = n) -> length (flat_map f l) = (length l * n)%nat.
Proof.
  intros Hf. induction l as [|a l IH]; [reflexivity|].
  simpl. rewrite length_app, Hf, IH. reflexivity.
Qed.

Lemma flat_map_const_lookup {A B : Type} (f : A -> list B) (l : list A) (n i k : nat) (x : A) :
  (forall a, length (f a) = n) -> l !! i = Some x -> (k < n)%nat ->
  flat_map f l !! (i * n + k)%nat = f x !! k.
Proof.
  intros Hf. revert i. induction l as [|a l IH]; intros i Hi Hk; [discriminate|].
  destruct i as [|i]; simpl in *.
  - injection Hi as ->. apply lookup_app_l. rewrite Hf. exact Hk.
  - rewrite lookup_app_r by (rewrite Hf; lia).
    rewrite Hf. replace (n + i * n + k - n)%nat with (i * n + k)%nat by lia.
    apply IH; assumption.
Qed.

Lemma meshgrid_ij_length (x y z : list Qc) :
  let '(a, b, c) := meshgrid_ij x y z in
  length a = (length x * length y * length z)%nat /\
  length b = (length x * length y * length z)%nat /\
  length c = (length x * length y * length z)%nat.
Proof.
  unfold meshgrid_ij.
  assert (H1 : forall (g : Qc -> list Qc), (forall b, length (g b) = length z) ->
               length (flat_map g y) = (length y * length z)%nat)
    by (intros g Hg; apply flat_map_const_length, Hg).
  repeat split.
  - rewrite (flat_map_const_length _ _ (length y * length z)); [lia|].
    intros a. apply H1. intros b. apply length_map.
  - rewrite (flat_map_const_length _ _ (length y * length z)); [lia|].
    intros a. apply H1. intros b. apply length_map.
  - rewrite (flat_map_const_length _ _ (length y * length z)); [lia|].
    intros a. apply H1. intros b. reflexivity.
Qed.

Lemma meshgrid_ij_lookup (x y z : list Qc) (i j k : nat) (a b t : Qc) :
  x !! i = Some a -> y !! j = Some b -> z !! k = Some t ->
  let l := ((i * length y + j) * length z + k)%nat in
  let '(u, v, w) := meshgrid_ij x y z in
  u !! l = Some a /\ v !! l = Some b /\ w !! l = Some t.
Proof.
  intros Hi Hj Hk. unfold meshgrid_ij.
  pose proof (lookup_lt_Some _ _ _ Hj) as Lj. pose proof (lookup_lt_Some _ _ _ Hk) as Lk.
  assert (Hin : (j * length z + k < length y * length z)%nat) by nia.
  replace ((i * length y + j) * length z + k)%nat
    with (i * (length y * length z) + (j * length z + k))%nat by lia.
  repeat split.
  - rewrite (flat_map_const_lookup _ x (length y * length z) i _ a); try assumption.
    + rewrite (flat_map_const_lookup _ y (length z) j _ b); try assumption.
      * rewrite list_lookup_fmap, Hk. reflexivity.
      * intros c. apply length_map.
    + intros c. apply flat_map_const_length. intros d. apply length_map.
  - rewrite (flat_map_const_lookup _ x (length y * length z) i _ a); try assumption.
    + rewrite (flat_map_const_lookup _ y (length z) j _ b); try assumption.
      * rewrite list_lookup_fmap, Hk. reflexivity.
      * intros c. apply length_map.
    + intros c. apply flat_map_const_length. intros d. apply length_map.
  - rewrite (flat_map_const_lookup _ x (length y * length z) i _ a); try assumption.
    + rewrite (flat_map_const_lookup _ y (length z) j _ b); try assumption.
      intros c. reflexivity.
    + intros c. apply flat_map_const_length. intros d. reflexivity.
Qed.

Lemma np_linspace_length (a b : option Qc) (n : option Z) (l : list Qc) :
  np_linspace a b n = Some l ->
  exists m, n = Some m /\ (0 <= m)%Z /\ length l = Z.to_nat m.
Proof.
  unfold np_linspace. destruct a as [a|], b as [b|], n as [m|]; try discriminate.
  destruct (m <? 0)%Z eqn:Hneg; [discriminate|]. apply Z.ltb_ge in Hneg.
  exists m. split; [reflexivity|]. split; [exact Hneg|].
  destruct (m =? 1)%Z eqn:H1.
  - apply Z.eqb_eq in H1. injection H as <-. subst. reflexivity.
  - injection H as <-. rewrite length_map, length_seq. reflexivity.
Qed.

Section BondAngleMapFacts.
Context {N : Numerics}.

Lemma set_table_returns (self : BondAngleMap) (a b t : list Qc) (e : option (list flt)) :
  length b = length a -> length t = length a ->
  match e with None => True | Some e => length e = length a end ->
  set_table self a b t e
  = (with_df self (mkDF a b (map (fun '(x, y, z) => law_of_cosines x y z) (zip (zip a b) t)) t
                        (default (replicate (length a) NaN) e)),
     Returned).
Proof.
  intros Hb Ht He. unfold set_table.
  assert (Hc : (match e with
                | None => Some (replicate (length a) NaN)
                | Some e0 => if negb (Nat.eqb (length e0) (length a)) then None else Some e0
                end) = Some (default (replicate (length a) NaN) e)).
  { destruct e as [e|]; [|reflexivity]. rewrite He, Nat.eqb_refl. reflexivity. }
  rewrite Hc. unfold pd_DataFrame.
  assert (Hl : length (default (replicate (length a) NaN) e) = length a).
  { destruct e as [e|]; simpl; [exact He | apply length_replicate]. }
  rewrite length_map, !length_zip, Hb, Ht, Hl, !Nat.min_id, !Nat.eqb_refl. reflexivity.
Qed.

(** X18: [set] called with the six range parameters (and no explicit
    coordinates) stores them, builds rnum * rnum * thetanum rows, and
    [itercoords] yields them in the order of three nested loops, r_ij
    outermost and theta innermost: tuple number (i * rnum + j) * thetanum +
    k is (rvals[i], rvals[j], r_jk, tvals[k]) for the [np.linspace] values.
    The energies are the ones given, or all nan. *)
Theorem set_ranges_itercoords (a : set_args) (self : BondAngleMap)
    (r0 : Qc) (rvals tvals : list Qc) :
  a_rmin a = Some r0 -> a_r_ij a = None -> a_r_ik a = None -> a_theta a = None ->
  np_linspace (Some r0) (a_rmax a) (a_rnum a) = Some rvals ->
  np_linspace (a_thetamin a) (a_thetamax a) (a_thetanum a) = Some tvals ->
  match a_energy a with
  | None => True
  | Some e => length e = (length rvals * length rvals * length tvals)%nat
  end ->
  exists self' d coords,
    BondAngleMap_set a self = (self', Returned) /\
    rmin self' = Some r0 /\ rmax self' = a_rmax a /\ rnum self' = a_rnum a /\
    thetamin self' = a_thetamin a /\ thetamax self' = a_thetamax a /\
    thetanum self' = a_thetanum a /\
    a_rnum a = Some (Z.of_nat (length rvals)) /\
    a_thetanum a = Some (Z.of_nat (length tvals)) /\
    df self' = Some d /\
    energy d = default (replicate (length rvals * length rvals * length tvals) NaN)
                       (a_energy a) /\
    itercoords self' = Some coords /\
    length coords = (length rvals * length rvals * length tvals)%nat /\
    forall i j k x y t,
      rvals !! i = Some x -> rvals !! j = Some y -> tvals !! k = Some t ->
      coords !! ((i * length rvals + j) * length tvals + k)%nat
      = Some (x, y, law_of_cosines x y t, t).
Proof.
  intros Hmin Hij Hik Hth Hr Ht He.
  pose proof (meshgrid_ij_length rvals rvals tvals) as Hlen.
  pose proof (fun i j k x y t => meshgrid_ij_lookup rvals rvals tvals i j k x y t) as Hlook.
  destruct (meshgrid_ij rvals rvals tvals) as [[u v] w] eqn:Hm.
  destruct Hlen as (Lu & Lv & Lw).
  assert (Hset : BondAngleMap_set a self
                 = set_table (with_ranges self (Some r0) (a_rmax a) (a_rnum a)
                                (a_thetamin a) (a_thetamax a) (a_thetanum a))
                             u v w (a_energy a)).
  { unfold BondAngleMap_set. rewrite Hmin, Hij, Hik, Hth, Hr, Ht, Hm. reflexivity. }
  rewrite set_table_returns in Hset;
    [| congruence | congruence | destruct (a_energy a); [congruence | exact I]].
  destruct (np_linspace_length _ _ _ _ Hr) as (rn & Hrn & Hrn0 & Lr).
  destruct (np_linspace_length _ _ _ _ Ht) as (tn & Htn & Htn0 & Lt).
  eexists _, _, _. split; [exact Hset|].
  do 6 (split; [reflexivity|]).
  split; [rewrite Hrn, Lr, Z2Nat.id by exact Hrn0; reflexivity|].
  split; [rewrite Htn, Lt, Z2Nat.id by exact Htn0; reflexivity|].
  split; [reflexivity|]. split; [simpl; rewrite Lu; reflexivity|].
  unfold itercoords. simpl. split; [reflexivity|].
  split.
  - rewrite length_map, !length_zip, length_map, !length_zip, Lu, Lv, Lw, !Nat.min_id.
    reflexivity.
  - intros i j k x y t Hi Hj Hk.
    destruct (Hlook i j k x y t Hi Hj Hk) as (Hu & Hv & Hw).
    set (l := ((i * length rvals + j) * length tvals + k)%nat) in *.
    assert (H1 : zip u v !! l = Some (x, y)) by (apply lookup_zip_Some; split; assumption).
    assert (H2 : zip (zip u v) w !! l = Some (x, y, t))
      by (apply lookup_zip_Some; split; assumption).
    assert (H3 : map (fun '(x0, y1, z) => law_of_cosines x0 y1 z) (zip (zip u v) w) !! l
                 = Some (law_of_cosines x y t))
      by (rewrite list_lookup_fmap, H2; reflexivity).
    assert (H4 : zip (zip u v)
                     (map (fun '(x0, y1, z) => law_of_cosines x0 y1 z) (zip (zip u v) w)) !! l
                 = Some (x, y, law_of_cosines x y t))
      by (apply lookup_zip_Some; split; assumption).
    rewrite list_lookup_fmap.
    rewrite (proj2 (lookup_zip_Some _ _ l _ _) (conj H4 Hw)). reflexivity.
Qed.

End BondAngleMapFacts.

Lemma set_ranges_itercoords_witness :
  exists self' coords,
    @BondAngleMap_set straight_angles (grid_args None) unset_map = (self', Returned) /\
    rnum self' = Some 2%Z /\
    itercoords self' = Some coords /\
    length coords = 8%nat /\
    coords !! 5%nat = Some (qc 2 1, 1, qc 3 1, qc 180 1).
Proof.
  assert (Hr : np_linspace (Some 1) (a_rmax (grid_args None)) (a_rnum (grid_args None))
               = Some [1; qc 2 1]) by run_eq.
  assert (Ht : np_linspace (a_thetamin (grid_args None)) (a_thetamax (grid_args None))
                           (a_thetanum (grid_args None))
               = Some [0; qc 180 1]) by run_eq.
  destruct (@set_ranges_itercoords straight_angles (grid_args None) unset_map 1
              [1; qc 2 1] [0; qc 180 1] eq_refl eq_refl eq_refl eq_refl Hr Ht I)
    as (self' & d & coords & Hset & _ & _ & Hn & _ & _ & _ & _ & _ & _ & _ & Hc & Hl & Hk).
  exists self', coords. split; [exact Hset|]. split; [exact Hn|].
  split; [exact Hc|]. split; [exact Hl|].
  refine (eq_trans (Hk 1%nat 0%nat 1%nat (qc 2 1) 1 (qc 180 1) eq_refl eq_refl eq_refl) _).
  run_eq.
Defined.


Section BondAngleMapErrors.
Context {N : Numerics}.


(** X19: [set] called with valid range parameters and a number of energies
    that is not rnum * rnum * thetanum raises ValueError after the six
    range attributes were replaced and before the table is: the object is
    left with the new ranges and the old table. *)
Theorem set_energy_mismatch (a : set_args) (self : BondAngleMap)
    (r0 : Qc) (rvals tvals : list Qc) (e : list flt) :
  a_rmin a = Some r0 -> a_r_ij a = None -> a_r_ik a = None -> a_theta a = None ->
  np_linspace (Some r0) (a_rmax a) (a_rnum a) = Some rvals ->
  np_linspace (a_thetamin a) (a_thetamax a) (a_thetanum a) = Some tvals ->
  a_energy a = Some e ->
  length e <> (length rvals * length rvals * length tvals)%nat ->
  BondAngleMap_set a self
  = (mkBAM (Some r0) (a_rmax a) (a_rnum a) (a_thetamin a) (a_thetamax a) (a_thetanum a)
           (df self) (symbols self),
     Raised (ValueError "Mismatch between number of energies given and expected")).
Proof.
  intros Hmin Hij Hik Hth Hr Ht He Hn.
  pose proof (meshgrid_ij_length rvals rvals tvals) as Hlen.
  destruct (meshgrid_ij rvals rvals tvals) as [[u v] w] eqn:Hm.
  destruct Hlen as (Lu & Lv & Lw).
  unfold BondAngleMap_set. rewrite Hmin, Hij, Hik, Hth, Hr, Ht, Hm, He.
  apply Nat.eqb_neq in Hn. rewrite <- Lu in Hn.
  cbn [bool_decide orb]. unfold set_table. rewrite Hn. reflexivity.
Qed.


End BondAngleMapErrors.

Lemma set_energy_mismatch_witness :
  @BondAngleMap_set straight_angles (grid_args (Some [Num 0])) unset_map
  = (mkBAM (Some 1) (Some (qc 2 1)) (Some 2%Z) (Some 0) (Some (qc 180 1)) (Some 2%Z)
           None None,
     Raised (ValueError "Mismatch between number of energies given and expected")).
Proof.
  assert (Hr : np_linspace (Some 1) (a_rmax (grid_args (Some [Num 0])))
                           (a_rnum (grid_args (Some [Num 0])))
               = Some [1; qc 2 1]) by run_eq.
  assert (Ht : np_linspace (a_thetamin (grid_args (Some [Num 0])))
                           (a_thetamax (grid_args (Some [Num 0])))
                           (a_thetanum (grid_args (Some [Num 0])))
               = Some [0; qc 180 1]) by run_eq.
  apply (@set_energy_mismatch straight_angles (grid_args (Some [Num 0])) unset_map 1
           [1; qc 2 1] [0; qc 180 1] [Num 0] eq_refl eq_refl eq_refl eq_refl Hr Ht eq_refl).
  simpl. lia.
Defined.



(** ** The distribution of the energies *)

Lemma Qc_of_Z_plus (a b : Z) : Qc_of_Z (a + b) = Qc_of_Z a + Qc_of_Z b.
Proof.
  apply Qc_is_canon. rewrite this_plus, !this_of_Z, inject_Z_plus. reflexivity.
Qed.

Lemma Qc_of_Z_pos (z : Z) : (0 < z)%Z -> 0 < Qc_of_Z z.
Proof.
  intros Hz. unfold Qclt. rewrite this_of_Z. change (this 0) with 0%Q.
  unfold Qlt. simpl. lia.
Qed.

Lemma Qc_of_Z_nonzero (z : Z) : (0 < z)%Z -> Qc_of_Z z <> 0.
Proof.
  intros Hz Hq. pose proof (Qc_of_Z_pos z Hz) as Hp. rewrite Hq in Hp.
  exact (Qclt_not_eq _ _ Hp eq_refl).
Qed.

Lemma count_where_union (p q r : Qc -> bool) (l : list Qc) :
  (forall x, r x = (p x || q x)%bool) -> (forall x, (p x && q x)%bool = false) ->
  count_where r l = (count_where p l + count_where q l)%Z.
Proof.
  intros Hr Hd. induction l as [|x l IH]; [reflexivity|]. simpl. rewrite IH, Hr.
  specialize (Hd x). destruct (p x), (q x); simpl in *; try discriminate; lia.
Qed.

Lemma count_where_ext (p q : Qc -> bool) (l : list Qc) :
  (forall x, p x = q x) -> count_where p l = count_where q l.
Proof.
  intros H. induction l as [|x l IH]; [reflexivity|]. simpl. rewrite IH, H. reflexivity.
Qed.

Lemma count_where_never (p : Qc -> bool) (l : list Qc) :
  (forall x, p x = false) -> count_where p l = 0%Z.
Proof.
  intros H. induction l as [|x l IH]; [reflexivity|]. simpl. rewrite IH, H. reflexivity.
Qed.

Lemma Qcltb_true (x y : Qc) : Qcltb x y = true <-> x < y.
Proof. unfold Qcltb. apply bool_decide_eq_true. Qed.

Lemma Qcltb_false (x y : Qc) : Qcltb x y = false <-> y <= x.
Proof.
  unfold Qcltb. rewrite bool_decide_eq_false. split.
  - apply Qcnot_lt_le.
  - apply Qcle_not_lt.
Qed.

(** Bins between the values of a non-decreasing [edge]. *)
Section Bins.
Variable n : nat.
Variable edge : nat -> Qc.
Hypothesis edge_mono : forall k, edge k <= edge (S k).
Hypothesis some_bin : (0 < n)%nat.


Lemma edge_from_0 (k : nat) : edge 0 <= edge k.
Proof.
  induction k as [|k IH]; [apply Qcle_refl|].
  exact (Qcle_trans _ _ _ IH (edge_mono k)).
Qed.

Lemma edges_lookup (k : nat) : (k <= n)%nat -> edges_of n edge !! k = Some (edge k).
Proof.
  intros Hk. unfold edges_of. rewrite list_lookup_fmap, lookup_seq_lt by lia. reflexivity.
Qed.

Lemma in_bin_edges (i : nat) (x : Qc) :
  (i < n)%nat ->
  in_bin (edges_of n edge) i x
  = (Qcleb (edge i) x
     && (if Nat.eqb (S i) n then Qcleb x (edge (S i)) else Qcltb x (edge (S i))))%bool.
Proof.
  intros Hi. unfold in_bin. rewrite !edges_lookup by lia.
  unfold edges_of. rewrite length_map, length_seq. reflexivity.
Qed.

Lemma within_0 (x : Qc) : within n edge 0 x = false.
Proof.
  unfold within, upto. destruct (Nat.eqb_spec 0 n) as [E|_]; [lia|].
  unfold Qcleb. destruct (Qcltb x (edge 0)); reflexivity.
Qed.

Lemma within_S (i : nat) (x : Qc) :
  (i < n)%nat ->
  within n edge (S i) x = (within n edge i x || in_bin (edges_of n edge) i x)%bool /\
  (within n edge i x && in_bin (edges_of n edge) i x)%bool = false.
Proof.
  intros Hi. rewrite in_bin_edges by exact Hi. unfold within, upto.
  destruct (Nat.eqb_spec i n) as [E|_]; [lia|].
  pose proof (edge_from_0 i) as H0. pose proof (edge_mono i) as H1.
  unfold Qcleb.
  destruct (Qcltb x (edge 0)) eqn:A; [apply Qcltb_true in A | apply Qcltb_false in A];
  destruct (Qcltb x (edge i)) eqn:B; [apply Qcltb_true in B | apply Qcltb_false in B
                                     | apply Qcltb_true in B | apply Qcltb_false in B];
  try (exfalso; qc_order; lra);
  destruct (Nat.eqb (S i) n); simpl;
  try (split; reflexivity);
  try (destruct (Qcltb (edge (S i)) x) eqn:C;
        [apply Qcltb_true in C | apply Qcltb_false in C];
        try (split; reflexivity); exfalso; qc_order; lra);
  try (destruct (Qcltb x (edge (S i))) eqn:C;
        [apply Qcltb_true in C | apply Qcltb_false in C];
        try (split; reflexivity); exfalso; qc_order; lra).
Qed.

Lemma upto_within (k : nat) (x : Qc) :
  upto n edge k x = (Qcltb x (edge 0) || within n edge k x)%bool /\
  (Qcltb x (edge 0) && within n edge k x)%bool = false.
Proof.
  unfold within, upto, Qcleb. pose proof (edge_from_0 k) as H0.
  destruct (Qcltb x (edge 0)) eqn:A; [apply Qcltb_true in A | apply Qcltb_false in A];
    simpl.
  - split; [|reflexivity].
    destruct (Nat.eqb k n).
    + destruct (Qcltb (edge k) x) eqn:C; [|reflexivity].
      apply Qcltb_true in C. exfalso; qc_order; lra.
    + apply Qcltb_true. qc_order; lra.
  - split; reflexivity.
Qed.

Variable rows : nat.
Hypothesis some_row : (0 < rows)%nat.
Variable nums : list Qc.

Lemma true_divide_rows (h : Z) :
  true_divide h rows = Num (Qc_of_Z h / Qc_of_Z (Z.of_nat rows)).
Proof.
  unfold true_divide. destruct (Nat.eqb_spec rows 0) as [E|_]; [lia | reflexivity].
Qed.

Lemma divide_add (a b : Z) :
  flt_add (Num (Qc_of_Z a / Qc_of_Z (Z.of_nat rows))) (true_divide b rows)
  = Num (Qc_of_Z (a + b) / Qc_of_Z (Z.of_nat rows)).
Proof.
  rewrite true_divide_rows. simpl. f_equal. rewrite Qc_of_Z_plus. field.
  apply Qc_of_Z_nonzero. lia.
Qed.

Lemma within_step (k : nat) :
  (k < n)%nat ->
  (count_where (within n edge k) nums + count_where (in_bin (edges_of n edge) k) nums)%Z
  = count_where (within n edge (S k)) nums.
Proof.
  intros Hk. symmetry. apply count_where_union; intros x; apply within_S; exact Hk.
Qed.

Lemma cumsum_bins (m k : nat) :
  (k + m <= n)%nat ->
  cumsum_from (Num (Qc_of_Z (count_where (within n edge k) nums) / Qc_of_Z (Z.of_nat rows)))
    (map (fun h => true_divide h rows)
         (map (fun i => count_where (in_bin (edges_of n edge) i) nums) (seq k m)))
  = map (fun i => Num (Qc_of_Z (count_where (within n edge (S i)) nums)
                       / Qc_of_Z (Z.of_nat rows)))
        (seq k m).
Proof.
  revert k. induction m as [|m IH]; intros k Hk; [reflexivity|].
  cbn [seq map cumsum_from]. rewrite divide_add, within_step by lia. f_equal. apply IH. lia.
Qed.

Lemma sum_bins (m k : nat) :
  (k + m <= n)%nat ->
  foldl flt_add (Num (Qc_of_Z (count_where (within n edge k) nums) / Qc_of_Z (Z.of_nat rows)))
    (map (fun h => true_divide h rows)
         (map (fun i => count_where (in_bin (edges_of n edge) i) nums) (seq k m)))
  = Num (Qc_of_Z (count_where (within n edge (k + m)) nums) / Qc_of_Z (Z.of_nat rows)).
Proof.
  revert k. induction m as [|m IH]; intros k Hk.
  - simpl. rewrite Nat.add_0_r. reflexivity.
  - cbn [seq map foldl]. rewrite divide_add, within_step by lia. rewrite IH by lia.
    replace (S k + m)%nat with (k + S m)%nat by lia. reflexivity.
Qed.

Lemma zero_within :
  Num 0 = Num (Qc_of_Z (count_where (within n edge 0) nums) / Qc_of_Z (Z.of_nat rows)).
Proof.
  rewrite (count_where_never (within n edge 0)) by apply within_0.
  f_equal. apply Qc_is_canon. reflexivity.
Qed.

Lemma np_cumsum_from_0 (x : Qc) (l : list flt) :
  np_cumsum (Num x :: l) = cumsum_from (Num 0) (Num x :: l).
Proof.
  simpl. replace (0 + x) with x by ring. reflexivity.
Qed.

Lemma np_cumsum_divide (hs : list Z) :
  np_cumsum (map (fun h => true_divide h rows) hs)
  = cumsum_from (Num 0) (map (fun h => true_divide h rows) hs).
Proof.
  destruct hs as [|h hs]; [reflexivity|].
  cbn [map]. rewrite true_divide_rows. apply np_cumsum_from_0.
Qed.

Lemma np_cumsum_bins :
  np_cumsum (map (fun h => true_divide h rows)
                 (map (fun i => count_where (in_bin (edges_of n edge) i) nums) (seq 0 n)))
  = map (fun i => Num (Qc_of_Z (count_where (within n edge (S i)) nums)
                       / Qc_of_Z (Z.of_nat rows)))
        (seq 0 n).
Proof.
  rewrite np_cumsum_divide, zero_within. apply cumsum_bins. lia.
Qed.

Lemma shift_upto (k : nat) :
  flt_add (Num (Qc_of_Z (count_where (within n edge k) nums) / Qc_of_Z (Z.of_nat rows)))
          (true_divide (count_where (fun x => Qcltb x (edge 0%nat)) nums) rows)
  = Num (Qc_of_Z (count_where (upto n edge k) nums) / Qc_of_Z (Z.of_nat rows)).
Proof.
  rewrite divide_add, Z.add_comm.
  rewrite <- (count_where_union (fun x => Qcltb x (edge 0%nat)) (within n edge k)
                (upto n edge k)) by (intros x; apply upto_within).
  reflexivity.
Qed.

End Bins.

Lemma bin_width_pos (nbins : Z) (lo hi : Qc) :
  (1 <= nbins)%Z -> lo < hi -> 0 < bin_width nbins lo hi.
Proof.
  intros Hn Hlt. pose proof (Qc_of_Z_pos nbins ltac:(lia)) as Hp.
  assert (Hw : bin_width nbins lo hi * Qc_of_Z nbins = hi - lo).
  { unfold bin_width. field. apply Qc_of_Z_nonzero. lia. }
  destruct (Qclt_le_dec 0 (bin_width nbins lo hi)) as [H|H]; [exact H|].
  exfalso. apply (f_equal this) in Hw.
  assert (Hq : (this (bin_width nbins lo hi) * this (Qc_of_Z nbins)
                == this hi - this lo)%Q).
  { rewrite <- this_mult, <- this_minus, Hw. reflexivity. }
  clear Hw. unfold Qcle, Qclt in *. change (this 0) with 0%Q in *. nra.
Qed.

Lemma bin_edge_step (nbins : Z) (lo hi : Qc) (k : nat) :
  bin_edge nbins lo hi (S k) = bin_edge nbins lo hi k + bin_width nbins lo hi.
Proof.
  unfold bin_edge. rewrite Nat2Z.inj_succ. unfold Z.succ. rewrite Qc_of_Z_plus.
  change (Qc_of_Z 1) with 1. ring.
Qed.

Lemma bin_edge_mono (nbins : Z) (lo hi : Qc) (k : nat) :
  (1 <= nbins)%Z -> lo < hi -> bin_edge nbins lo hi k <= bin_edge nbins lo hi (S k).
Proof.
  intros Hn Hlt. pose proof (bin_width_pos nbins lo hi Hn Hlt) as Hw.
  rewrite bin_edge_step. qc_order. lra.
Qed.

Lemma bin_edge_0 (nbins : Z) (lo hi : Qc) : bin_edge nbins lo hi 0 = lo.
Proof.
  unfold bin_edge. change (Qc_of_Z (Z.of_nat 0)) with 0. ring.
Qed.

Lemma bin_edge_last (nbins : Z) (lo hi : Qc) :
  (1 <= nbins)%Z -> bin_edge nbins lo hi (Z.to_nat nbins) = hi.
Proof.
  intros Hn. unfold bin_edge, bin_width. rewrite Z2Nat.id by lia.
  field. apply Qc_of_Z_nonzero. lia.
Qed.

Lemma linspace_edges (nbins : Z) (lo hi : Qc) :
  (1 <= nbins)%Z ->
  np_linspace (Some lo) (Some hi) (Some (nbins + 1)%Z)
  = Some (edges_of (Z.to_nat nbins) (bin_edge nbins lo hi)).
Proof.
  intros Hn. unfold np_linspace.
  destruct (Z.ltb_spec (nbins + 1) 0) as [E|_]; [lia|].
  destruct (Z.eqb_spec (nbins + 1) 1) as [E|_]; [lia|].
  replace (nbins + 1 - 1)%Z with nbins by lia.
  replace (Z.to_nat (nbins + 1)) with (S (Z.to_nat nbins)) by lia.
  reflexivity.
Qed.

Lemma np_histogram_bins (a : list flt) (nbins : Z) (lo hi : Qc) :
  (1 <= nbins)%Z -> lo < hi ->
  np_histogram a nbins lo hi
  = Some (map (fun i => count_where
                          (in_bin (edges_of (Z.to_nat nbins) (bin_edge nbins lo hi)) i)
                          (numbers a))
              (seq 0 (Z.to_nat nbins)),
          edges_of (Z.to_nat nbins) (bin_edge nbins lo hi)).
Proof.
  intros Hn Hlt. unfold np_histogram.
  destruct (Z.ltb_spec nbins 1) as [E|_]; [lia|].
  assert (H1 : Qcltb hi lo = false) by (apply Qcltb_false, Qclt_le_weak, Hlt).
  rewrite H1.
  rewrite bool_decide_eq_false_2 by (apply Qclt_not_eq, Hlt).
  rewrite linspace_edges by exact Hn. reflexivity.
Qed.

Lemma zip_with_edges (e : nat -> Qc) (f : Qc -> Qc -> Qc) (n : nat) :
  zip_with f (removelast (edges_of n e)) (tail (edges_of n e))
  = map (fun i => f (e i) (e (S i))) (seq 0 n).
Proof.
  unfold edges_of.
  assert (H1 : removelast (map e (seq 0 (S n))) = map e (seq 0 n)).
  { rewrite seq_S, map_app. apply removelast_last. }
  assert (H2 : tail (map e (seq 0 (S n))) = map (fun i => e (S i)) (seq 0 n)).
  { cbn [seq map tail]. rewrite <- seq_shift, map_map. reflexivity. }
  rewrite H1, H2. clear H1 H2. induction (seq 0 n) as [|i l IH]; [reflexivity|].
  cbn [map zip_with]. rewrite IH. reflexivity.
Qed.

Lemma bin_centers (nbins : Z) (lo hi : Qc) :
  zip_with (fun a b => (a + b) / qc 2 1)
           (removelast (edges_of (Z.to_nat nbins) (bin_edge nbins lo hi)))
           (tail (edges_of (Z.to_nat nbins) (bin_edge nbins lo hi)))
  = map (bin_center nbins lo hi) (seq 0 (Z.to_nat nbins)).
Proof.
  rewrite zip_with_edges. apply map_ext. intros i.
  rewrite bin_edge_step. unfold bin_center, bin_edge.
  assert (H2 : qc 2 1 = 1 + 1) by (apply Qc_is_canon; reflexivity).
  assert (Hh : qc 1 2 = 1 / (1 + 1)) by (apply Qc_is_canon; reflexivity).
  rewrite H2, Hh. field. intros H. apply (f_equal this) in H. discriminate H.
Qed.

Lemma pdf_run (self : BondAngleMap) (d : DataFrame) (nbins : Z) (lo hi : Qc) :
  df self = Some d -> (1 <= nbins)%Z -> lo < hi ->
  pdf self nbins lo hi
  = Some (map (fun h => true_divide h (df_len d))
              (map (fun i => count_where
                               (in_bin (edges_of (Z.to_nat nbins) (bin_edge nbins lo hi)) i)
                               (numbers (energy d)))
                   (seq 0 (Z.to_nat nbins))),
          map (bin_center nbins lo hi) (seq 0 (Z.to_nat nbins))).
Proof.
  intros Hd Hn Hlt. unfold pdf. rewrite Hd. cbn [mbind option_bind].
  rewrite np_histogram_bins by assumption. cbn [mbind option_bind].
  rewrite bin_centers. reflexivity.
Qed.

Lemma upto_below (nbins : Z) (lo hi : Qc) (i : nat) (x : Qc) :
  (1 <= nbins)%Z ->
  upto (Z.to_nat nbins) (bin_edge nbins lo hi) (S i) x = below_bin nbins lo hi i x.
Proof.
  intros Hn. unfold upto, below_bin.
  destruct (Nat.eqb_spec (S i) (Z.to_nat nbins)) as [E|_]; [|reflexivity].
  rewrite E, bin_edge_last by exact Hn. reflexivity.
Qed.

(** X21: [cumulative_pdf] on a table with rows, at least one bin and
    energymin < energymax returns nbins values and nbins centers.  Value i
    is the fraction of the rows whose energy is a number below the upper
    edge energymin + (i + 1) * (energymax - energymin) / nbins of bin i, or
    up to energymax for the last bin; a row whose energy is nan counts as a
    row and is below no edge.  Center i is
    energymin + (i + 1/2) * (energymax - energymin) / nbins. *)
Theorem cumulative_pdf_fractions (self : BondAngleMap) (d : DataFrame)
    (nbins : Z) (energymin energymax : Qc) :
  df self = Some d -> (0 < df_len d)%nat -> (1 <= nbins)%Z -> energymin < energymax ->
  exists cum centers,
    cumulative_pdf self nbins energymin energymax = Some (cum, centers) /\
    length cum = Z.to_nat nbins /\ length centers = Z.to_nat nbins /\
    forall i, (i < Z.to_nat nbins)%nat ->
      cum !! i
      = Some (Num (Qc_of_Z (count_where (below_bin nbins energymin energymax i)
                                        (numbers (energy d)))
                   / Qc_of_Z (Z.of_nat (df_len d)))) /\
      centers !! i = Some (bin_center nbins energymin energymax i).
Proof.
  intros Hd Hrows Hn Hlt.
  set (n := Z.to_nat nbins). set (edge := bin_edge nbins energymin energymax).
  assert (Hmono : forall k, edge k <= edge (S k))
    by (intros k; apply bin_edge_mono; assumption).
  assert (Hbin : (0 < n)%nat) by (unfold n; lia).
  unfold cumulative_pdf. rewrite (pdf_run self d) by assumption.
  cbn [mbind option_bind]. rewrite Hd. cbn [mbind option_bind].
  fold n edge.
  rewrite (np_cumsum_bins n edge Hmono Hbin (df_len d) Hrows), map_map.
  eexists _, _. split; [reflexivity|].
  split; [rewrite length_map, length_seq; reflexivity|].
  split; [rewrite length_map, length_seq; reflexivity|].
  intros i Hi. rewrite !list_lookup_fmap, lookup_seq_lt by exact Hi.
  cbn [fmap option_fmap option_map]. split; [|reflexivity].
  f_equal.
  rewrite (count_where_ext (fun x => Qcltb x energymin) (fun x => Qcltb x (edge 0%nat)))
    by (intros x; unfold edge; rewrite bin_edge_0; reflexivity).
  rewrite (shift_upto n edge Hmono Hbin (df_len d) Hrows).
  rewrite (count_where_ext (upto n edge (S (0 + i)))
             (below_bin nbins energymin energymax i))
    by (intros x; apply upto_below; exact Hn).
  reflexivity.
Qed.

Lemma cumulative_pdf_fractions_witness :
  exists cum centers,
    cumulative_pdf four_rows 2 (qc (-1) 1) (qc 3 1) = Some (cum, centers) /\
    cum !! 0%nat = Some (Num (qc 2 4)) /\ cum !! 1%nat = Some (Num (qc 3 4)) /\
    centers = [0; qc 2 1].
Proof.
  assert (Hrows : (0 < df_len four_rows_df)%nat) by (vm_compute; lia).
  assert (Hn : (1 <= 2)%Z) by lia.
  assert (Hlt : qc (-1) 1 < qc 3 1) by reflexivity.
  destruct (cumulative_pdf_fractions four_rows four_rows_df 2 (qc (-1) 1) (qc 3 1) eq_refl
              Hrows Hn Hlt)
    as (cum & centers & Hrun & Hc & Hl & Hi).
  exists cum, centers. split; [exact Hrun|].
  destruct (Hi 0%nat ltac:(vm_compute; lia)) as [H0 C0].
  destruct (Hi 1%nat ltac:(vm_compute; lia)) as [H1 C1].
  split; [rewrite H0; run_eq|]. split; [rewrite H1; run_eq|].
  destruct centers as [|c0 [|c1 [|c2 centers]]]; try discriminate Hl.
  injection C0 as ->. injection C1 as ->. run_eq.
Defined.

(** X22: [pdf] on a table with rows, at least one bin and
    energymin < energymax returns nbins values whose sum is the fraction of
    the rows whose energy is a number within [energymin, energymax]: the
    values sum to 1 only if no energy is nan or out of the range. *)
Theorem pdf_total (self : BondAngleMap) (d : DataFrame)
    (nbins : Z) (energymin energymax : Qc) :
  df self = Some d -> (0 < df_len d)%nat -> (1 <= nbins)%Z -> energymin < energymax ->
  exists p centers,
    pdf self nbins energymin energymax = Some (p, centers) /\
    length p = Z.to_nat nbins /\
    np_sum p
    = Num (Qc_of_Z (count_where (fun x => (Qcleb energymin x && Qcleb x energymax)%bool)
                                (numbers (energy d)))
           / Qc_of_Z (Z.of_nat (df_len d))).
Proof.
  intros Hd Hrows Hn Hlt.
  set (n := Z.to_nat nbins). set (edge := bin_edge nbins energymin energymax).
  assert (Hmono : forall k, edge k <= edge (S k))
    by (intros k; apply bin_edge_mono; assumption).
  assert (Hbin : (0 < n)%nat) by (unfold n; lia).
  rewrite (pdf_run self d) by assumption. fold n edge.
  eexists _, _. split; [reflexivity|].
  split; [rewrite !length_map, length_seq; reflexivity|].
  unfold np_sum.
  rewrite (zero_within n edge Hbin (df_len d) (numbers (energy d))).
  rewrite (sum_bins n edge Hmono Hbin (df_len d) Hrows (numbers (energy d)) n 0)
    by lia.
  rewrite (count_where_ext (within n edge (0 + n))
             (fun x => (Qcleb energymin x && Qcleb x energymax)%bool)); [reflexivity|].
  intros x. unfold within, upto. cbn [Nat.add]. rewrite Nat.eqb_refl.
  unfold edge, n. rewrite bin_edge_0, bin_edge_last by exact Hn. reflexivity.
Qed.

Lemma pdf_total_witness :
  exists p centers,
    pdf four_rows 2 (qc (-1) 1) (qc 3 1) = Some (p, centers) /\
    length p = 2%nat /\ np_sum p = Num (qc 2 4).
Proof.
  assert (Hrows : (0 < df_len four_rows_df)%nat) by (vm_compute; lia).
  assert (Hn : (1 <= 2)%Z) by lia.
  assert (Hlt : qc (-1) 1 < qc 3 1) by reflexivity.
  destruct (pdf_total four_rows four_rows_df 2 (qc (-1) 1) (qc 3 1) eq_refl Hrows Hn Hlt)
    as (p & centers & Hrun & Hl & Hs).
  exists p, centers. split; [exact Hrun|]. split; [exact Hl|].
  rewrite Hs. run_eq.
Defined.

Lemma np_histogram_None (a : list flt) (nbins : Z) (lo hi : Qc) :
  np_histogram a nbins lo hi = None <-> (nbins < 1)%Z \/ hi < lo.
Proof.
  unfold np_histogram.
  destruct (Z.ltb_spec nbins 1) as [E|E]; [split; [left; exact E | reflexivity]|].
  destruct (Qcltb hi lo) eqn:Hb.
  - apply Qcltb_true in Hb. split; [right; exact Hb | reflexivity].
  - apply Qcltb_false in Hb.
    assert (Hl : forall x y, np_linspace (Some x) (Some y) (Some (nbins + 1)%Z) <> None).
    { intros x y. unfold np_linspace.
      destruct (Z.ltb_spec (nbins + 1) 0) as [E'|_]; [lia|].
      destruct (Z.eqb_spec (nbins + 1) 1) as [E'|_]; [lia | discriminate]. }
    split.
    + intros H. exfalso.
      destruct (bool_decide (lo = hi));
        match type of H with
        | context [np_linspace (Some ?x) (Some ?y) _] =>
            specialize (Hl x y); destruct (np_linspace (Some x) (Some y) _);
            [discriminate H | apply Hl; reflexivity]
        end.
    + intros [H|H]; [lia|]. exfalso. exact (Qcle_not_lt _ _ Hb H).
Qed.

(** X23: [pdf] and [cumulative_pdf] raise in the same three cases only: no
    table has been set, nbins is below 1, or energymax is below energymin.
    An empty range energymin = energymax and a table without rows are
    accepted. *)
Theorem pdf_raises_iff (self : BondAngleMap) (nbins : Z) (energymin energymax : Qc) :
  (pdf self nbins energymin energymax = None
   <-> df self = None \/ (nbins < 1)%Z \/ energymax < energymin) /\
  (cumulative_pdf self nbins energymin energymax = None
   <-> pdf self nbins energymin energymax = None).
Proof.
  pose proof (np_histogram_None) as Hh.
  unfold cumulative_pdf, pdf. destruct (df self) as [d|]; cbn [mbind option_bind].
  - specialize (Hh (energy d) nbins energymin energymax).
    destruct (np_histogram (energy d) nbins energymin energymax) as [[hist edges]|];
      cbn [mbind option_bind].
    + split; split; try discriminate.
      intros [H|H]; [discriminate H|]. apply Hh in H. discriminate H.
    + split; split; try reflexivity.
      intros _. right. apply Hh. reflexivity.
  - split; split; try reflexivity. intros _. left. reflexivity.
Qed.

(** ** Coordinates that are a regular grid *)

Lemma Qcmin_cases (x y : Qc) : (Qcmin x y = x /\ x <= y) \/ (Qcmin x y = y /\ y <= x).
Proof.
  unfold Qcmin. destruct (Qcltb y x) eqn:H.
  - apply Qcltb_true in H. right. split; [reflexivity | apply Qclt_le_weak, H].
  - apply Qcltb_false in H. left. split; [reflexivity | exact H].
Qed.

Lemma Qcmax_cases (x y : Qc) : (Qcmax x y = x /\ y <= x) \/ (Qcmax x y = y /\ x <= y).
Proof.
  unfold Qcmax. destruct (Qcltb x y) eqn:H.
  - apply Qcltb_true in H. right. split; [reflexivity | apply Qclt_le_weak, H].
  - apply Qcltb_false in H. left. split; [reflexivity | exact H].
Qed.

Lemma foldl_Qcmin (l : list Qc) (x : Qc) :
  In (foldl Qcmin x l) (x :: l) /\ forall y, In y (x :: l) -> foldl Qcmin x l <= y.
Proof.
  revert x. induction l as [|a l IH]; intros x.
  - simpl. split; [left; reflexivity|]. intros y [<-|[]]. apply Qcle_refl.
  - cbn [foldl]. destruct (IH (Qcmin x a)) as [Hin Hle].
    destruct (Qcmin_cases x a) as [[E Hxa]|[E Hax]]; rewrite E in *.
    + split.
      * destruct Hin as [H|H]; [left; exact H | right; right; exact H].
      * intros y [<-|[<-|Hy]].
        -- apply Hle. left. reflexivity.
        -- apply Qcle_trans with x; [apply Hle; left; reflexivity | exact Hxa].
        -- apply Hle. right. exact Hy.
    + split.
      * right. exact Hin.
      * intros y [<-|[<-|Hy]].
        -- apply Qcle_trans with a; [apply Hle; left; reflexivity | exact Hax].
        -- apply Hle. left. reflexivity.
        -- apply Hle. right. exact Hy.
Qed.

Lemma foldl_Qcmax (l : list Qc) (x : Qc) :
  In (foldl Qcmax x l) (x :: l) /\ forall y, In y (x :: l) -> y <= foldl Qcmax x l.
Proof.
  revert x. induction l as [|a l IH]; intros x.
  - simpl. split; [left; reflexivity|]. intros y [<-|[]]. apply Qcle_refl.
  - cbn [foldl]. destruct (IH (Qcmax x a)) as [Hin Hle].
    destruct (Qcmax_cases x a) as [[E Hax]|[E Hxa]]; rewrite E in *.
    + split.
      * destruct Hin as [H|H]; [left; exact H | right; right; exact H].
      * intros y [<-|[<-|Hy]].
        -- apply Hle. left. reflexivity.
        -- apply Qcle_trans with x; [exact Hax | apply Hle; left; reflexivity].
        -- apply Hle. right. exact Hy.
    + split.
      * right. exact Hin.
      * intros y [<-|[<-|Hy]].
        -- apply Qcle_trans with a; [exact Hxa | apply Hle; left; reflexivity].
        -- apply Hle. left. reflexivity.
        -- apply Hle. right. exact Hy.
Qed.

Lemma col_min_least (l : list Qc) (m : Qc) :
  In m l -> (forall y, In y l -> m <= y) -> col_min l = Some m.
Proof.
  intros Hm Hle. destruct l as [|x l]; [destruct Hm|].
  unfold col_min. f_equal. destruct (foldl_Qcmin l x) as [Hin Hmin].
  apply Qcle_antisym; [apply Hmin, Hm | apply Hle, Hin].
Qed.

Lemma col_max_greatest (l : list Qc) (m : Qc) :
  In m l -> (forall y, In y l -> y <= m) -> col_max l = Some m.
Proof.
  intros Hm Hle. destruct l as [|x l]; [destruct Hm|].
  unfold col_max. f_equal. destruct (foldl_Qcmax l x) as [Hin Hmax].
  apply Qcle_antisym; [apply Hle, Hin | apply Hmax, Hm].
Qed.

Lemma unique_count_same (l k : list Qc) :
  NoDup k -> (forall x, In x l <-> In x k) -> unique_count l = Z.of_nat (length k).
Proof.
  intros Hk Hin. unfold unique_count. f_equal. apply Permutation_length.
  apply NoDup_Permutation; [apply NoDup_remove_dups | exact Hk |].
  intros x. rewrite elem_of_remove_dups, !list_elem_of_In. apply Hin.
Qed.

Lemma meshgrid_ij_In (x y z : list Qc) :
  y <> [] -> z <> [] -> x <> [] ->
  let '(u, v, w) := meshgrid_ij x y z in
  (forall a, In a u <-> In a x) /\ (forall c, In c w <-> In c z).
Proof.
  intros Hy Hz Hx. unfold meshgrid_ij. split.
  - intros a. rewrite in_flat_map. split.
    + intros (a' & Ha' & H). apply in_flat_map in H. destruct H as (b & _ & H).
      apply in_map_iff in H. destruct H as (c & <- & _). exact Ha'.
    + intros Ha. exists a. split; [exact Ha|]. apply in_flat_map.
      destruct y as [|b y]; [contradiction|]. exists b. split; [left; reflexivity|].
      destruct z as [|c z]; [contradiction|]. left. reflexivity.
  - intros c. rewrite in_flat_map. split.
    + intros (a & _ & H). apply in_flat_map in H. destruct H as (b & _ & H). exact H.
    + intros Hc. destruct x as [|a x]; [contradiction|]. exists a.
      split; [left; reflexivity|]. apply in_flat_map.
      destruct y as [|b y]; [contradiction|]. exists b. split; [left; reflexivity|].
      exact Hc.
Qed.

Lemma isclose_refl (x : Qc) : isclose x x = true.
Proof.
  unfold isclose. apply negb_true_iff, Qcltb_false.
  replace (x - x) with 0 by ring.
  assert (Ha : 0 <= Qcabs x).
  { unfold Qcabs. destruct (Qcmax_cases x (- x)) as [[E H]|[E H]]; rewrite E;
      qc_order; lra. }
  assert (H0 : Qcabs 0 = 0) by (apply Qc_is_canon; reflexivity).
  rewrite H0. qc_order. lra.
Qed.

Lemma allclose_refl (l : list Qc) : allclose l l = true.
Proof.
  unfold allclose. rewrite Nat.eqb_refl. cbn [andb].
  induction l as [|x l IH]; [reflexivity|].
  cbn [zip zip_with forallb]. rewrite isclose_refl. exact IH.
Qed.

(** The values of [np.linspace] between two different bounds. *)
Section Linspace.
Variables (lo hi : Qc) (num : Z).
Hypothesis ascending : lo < hi.
Hypothesis two : (2 <= num)%Z.

Lemma linspace_bin_edges :
  np_linspace (Some lo) (Some hi) (Some num)
  = Some (edges_of (Z.to_nat (num - 1)) (bin_edge (num - 1) lo hi)).
Proof.
  rewrite <- (linspace_edges (num - 1) lo hi) by lia.
  replace (num - 1 + 1)%Z with num by lia. reflexivity.
Qed.

Lemma bin_edge_lt (i j : nat) :
  (i < j)%nat -> bin_edge (num - 1) lo hi i < bin_edge (num - 1) lo hi j.
Proof.
  pose proof (bin_width_pos (num - 1) lo hi ltac:(lia) ascending) as Hw.
  induction 1 as [|j Hj IH]; rewrite bin_edge_step.
  - qc_order. lra.
  - revert IH. qc_order. lra.
Qed.

Lemma bin_edge_le (i j : nat) :
  (i <= j)%nat -> bin_edge (num - 1) lo hi i <= bin_edge (num - 1) lo hi j.
Proof.
  intros H. destruct (Nat.eq_dec i j) as [->|Hne]; [apply Qcle_refl|].
  apply Qclt_le_weak, bin_edge_lt. lia.
Qed.

Lemma linspace_In (x : Qc) :
  In x (edges_of (Z.to_nat (num - 1)) (bin_edge (num - 1) lo hi)) ->
  lo <= x /\ x <= hi.
Proof.
  unfold edges_of. intros H. apply in_map_iff in H. destruct H as (i & <- & Hi).
  apply in_seq in Hi.
  pose proof (bin_edge_le 0 i ltac:(lia)) as H0.
  pose proof (bin_edge_le i (Z.to_nat (num - 1)) ltac:(lia)) as H1.
  rewrite bin_edge_0 in H0. rewrite bin_edge_last in H1 by lia.
  split; assumption.
Qed.

Lemma linspace_bounds_In :
  In lo (edges_of (Z.to_nat (num - 1)) (bin_edge (num - 1) lo hi)) /\
  In hi (edges_of (Z.to_nat (num - 1)) (bin_edge (num - 1) lo hi)).
Proof.
  unfold edges_of. split; apply in_map_iff.
  - exists 0%nat. split; [apply bin_edge_0 | apply in_seq; lia].
  - exists (Z.to_nat (num - 1)). split; [apply bin_edge_last; lia | apply in_seq; lia].
Qed.

Lemma linspace_NoDup : NoDup (edges_of (Z.to_nat (num - 1)) (bin_edge (num - 1) lo hi)).
Proof.
  unfold edges_of. apply NoDup_fmap_2_strong; [|apply NoDup_seq].
  intros i j _ _ H.
  destruct (Nat.lt_trichotomy i j) as [Hlt|[Heq|Hgt]]; [|exact Heq|].
  - apply bin_edge_lt in Hlt. rewrite H in Hlt. destruct (Qclt_not_eq _ _ Hlt eq_refl).
  - apply bin_edge_lt in Hgt. rewrite H in Hgt. destruct (Qclt_not_eq _ _ Hgt eq_refl).
Qed.

Lemma linspace_length :
  Z.of_nat (length (edges_of (Z.to_nat (num - 1)) (bin_edge (num - 1) lo hi))) = num.
Proof.
  unfold edges_of. rewrite length_map, length_seq. lia.
Qed.

End Linspace.

Lemma edges_of_nonempty (n : nat) (e : nat -> Qc) : edges_of n e <> [].
Proof. unfold edges_of. cbn [seq map]. discriminate. Qed.

Section BondAngleMapGrid.
Context {N : Numerics}.

(** X24: coordinates that were generated from range parameters with
    rmin < rmax, thetamin < thetamax and at least two values each are
    recognised when they are given to [set] explicitly: the call recovers
    the six range parameters from the three columns and has the result of
    the call with the range parameters, whatever the energies are. *)
Theorem set_explicit_recovers_ranges (self : BondAngleMap)
    (r0 r1 t0 t1 : Qc) (rn tn : Z) (e : option (list flt))
    (rvals tvals u v w : list Qc) :
  r0 < r1 -> (2 <= rn)%Z -> t0 < t1 -> (2 <= tn)%Z ->
  np_linspace (Some r0) (Some r1) (Some rn) = Some rvals ->
  np_linspace (Some t0) (Some t1) (Some tn) = Some tvals ->
  meshgrid_ij rvals rvals tvals = (u, v, w) ->
  BondAngleMap_set (mkArgs None None None None None None (Some u) (Some v) (Some w) e) self
  = BondAngleMap_set (mkArgs (Some r0) (Some r1) (Some rn) (Some t0) (Some t1) (Some tn)
                             None None None e) self.
Proof.
  intros Hr01 Hrn Ht01 Htn Hr Ht Hm.
  assert (Er : rvals = edges_of (Z.to_nat (rn - 1)) (bin_edge (rn - 1) r0 r1))
    by (rewrite linspace_bin_edges in Hr by assumption; congruence).
  assert (Et : tvals = edges_of (Z.to_nat (tn - 1)) (bin_edge (tn - 1) t0 t1))
    by (rewrite linspace_bin_edges in Ht by assumption; congruence).
  assert (Nr : rvals <> []) by (rewrite Er; apply edges_of_nonempty).
  assert (Nt : tvals <> []) by (rewrite Et; apply edges_of_nonempty).
  assert (Lr : Z.of_nat (length rvals) = rn)
    by (rewrite Er; apply linspace_length; assumption).
  assert (Lt : Z.of_nat (length tvals) = tn)
    by (rewrite Et; apply linspace_length; assumption).
  pose proof (meshgrid_ij_length rvals rvals tvals) as Hlen.
  pose proof (meshgrid_ij_In rvals rvals tvals Nr Nt Nr) as Hin.
  rewrite Hm in Hlen, Hin. destruct Hlen as (Lu & Lv & Lw). destruct Hin as [Iu Iw].
  assert (Mu : col_min u = Some r0 /\ col_max u = Some r1).
  { split; [apply col_min_least | apply col_max_greatest].
    - apply Iu. rewrite Er. apply linspace_bounds_In; lia.
    - intros y Hy. apply Iu in Hy. rewrite Er in Hy.
      apply (linspace_In r0 r1 rn Hr01 Hrn y Hy).
    - apply Iu. rewrite Er. apply linspace_bounds_In; lia.
    - intros y Hy. apply Iu in Hy. rewrite Er in Hy.
      apply (linspace_In r0 r1 rn Hr01 Hrn y Hy). }
  assert (Mw : col_min w = Some t0 /\ col_max w = Some t1).
  { split; [apply col_min_least | apply col_max_greatest].
    - apply Iw. rewrite Et. apply linspace_bounds_In; lia.
    - intros y Hy. apply Iw in Hy. rewrite Et in Hy.
      apply (linspace_In t0 t1 tn Ht01 Htn y Hy).
    - apply Iw. rewrite Et. apply linspace_bounds_In; lia.
    - intros y Hy. apply Iw in Hy. rewrite Et in Hy.
      apply (linspace_In t0 t1 tn Ht01 Htn y Hy). }
  assert (Uu : unique_count u = rn).
  { rewrite (unique_count_same u rvals); [exact Lr | | exact Iu].
    rewrite Er. apply linspace_NoDup; assumption. }
  assert (Uw : unique_count w = tn).
  { rewrite (unique_count_same w tvals); [exact Lt | | exact Iw].
    rewrite Et. apply linspace_NoDup; assumption. }
  assert (Hsize : (Z.of_nat (length u) =? tn * rn * rn)%Z = true).
  { apply Z.eqb_eq. rewrite Lu, <- Lr, <- Lt. lia. }
  unfold BondAngleMap_set. cbn [a_rmin a_rmax a_rnum a_thetamin a_thetamax a_thetanum
                                 a_r_ij a_r_ik a_theta a_energy].
  rewrite !bool_decide_eq_true_2 by reflexivity.
  rewrite !bool_decide_eq_false_2 by (intros [x Hx]; discriminate Hx).
  cbn [andb orb negb].
  rewrite Lu, Lv, Lw, Nat.eqb_refl. cbn [negb orb].
  destruct Mu as [-> ->]. destruct Mw as [-> ->].
  rewrite Uu, Uw, <- Lu, Hsize, Hr, Ht, Hm, !allclose_refl. reflexivity.
Qed.

End BondAngleMapGrid.

Lemma set_explicit_recovers_ranges_witness :
  @BondAngleMap_set straight_angles
     (mkArgs None None None None None None
             (Some [1; 1; 1; 1; qc 2 1; qc 2 1; qc 2 1; qc 2 1])
             (Some [1; 1; qc 2 1; qc 2 1; 1; 1; qc 2 1; qc 2 1])
             (Some [0; qc 180 1; 0; qc 180 1; 0; qc 180 1; 0; qc 180 1])
             None)
     unset_map
  = @BondAngleMap_set straight_angles (grid_args None) unset_map.
Proof.
  assert (Hr01 : 1 < qc 2 1) by reflexivity.
  assert (Ht01 : 0 < qc 180 1) by reflexivity.
  assert (Hr : np_linspace (Some 1) (Some (qc 2 1)) (Some 2%Z) = Some [1; qc 2 1])
    by run_eq.
  assert (Ht : np_linspace (Some 0) (Some (qc 180 1)) (Some 2%Z) = Some [0; qc 180 1])
    by run_eq.
  exact (@set_explicit_recovers_ranges straight_angles unset_map 1 (qc 2 1) 0 (qc 180 1)
           2 2 None [1; qc 2 1] [0; qc 180 1] _ _ _ Hr01 ltac:(lia) Ht01 ltac:(lia)
           Hr Ht eq_refl).
Defined.

(** ** Table files *)

Lemma lstrip_spaces (s : text) : forallb isspace (lstrip s) = forallb isspace s.
Proof.
  induction s as [|c s IH]; [reflexivity|].
  cbn [lstrip]. destruct (isspace c) eqn:Hc; [|reflexivity].
  cbn [forallb]. rewrite Hc. exact IH.
Qed.

Lemma lstrip_nil (s : text) : lstrip s = [] <-> forallb isspace s = true.
Proof.
  induction s as [|c s IH]; [split; reflexivity|].
  cbn [lstrip forallb]. destruct (isspace c); [exact IH|].
  split; discriminate.
Qed.

Lemma forallb_rev (f : Ascii.ascii -> bool) (s : text) : forallb f (rev s) = forallb f s.
Proof.
  induction s as [|c s IH]; [reflexivity|].
  cbn [rev]. rewrite forallb_app, IH. cbn [forallb].
  destruct (f c), (forallb f s); reflexivity.
Qed.

Lemma strip_nil (s : text) : strip s = [] <-> forallb isspace s = true.
Proof.
  unfold strip. rewrite <- (lstrip_spaces s), <- (forallb_rev isspace (lstrip s)).
  rewrite <- lstrip_nil. split.
  - intros H. apply (f_equal (@rev Ascii.ascii)) in H. rewrite rev_involutive in H. exact H.
  - intros ->. reflexivity.
Qed.

Lemma split_from_nil (cur s : text) :
  split_from cur s = [] <-> cur = [] /\ forallb isspace s = true.
Proof.
  revert cur. induction s as [|c s IH]; intros cur.
  - cbn [split_from forallb]. destruct cur; split; try discriminate; auto.
    intros [H _]. discriminate H.
  - cbn [split_from forallb]. destruct (isspace c).
    + destruct cur as [|d cur].
      * rewrite IH. reflexivity.
      * split; [discriminate|]. intros [H _]. discriminate H.
    + rewrite IH. split; [intros [H _]; discriminate H | intros [_ H]; discriminate H].
Qed.

Lemma split_nil (s : text) : split s = [] <-> strip s = [].
Proof.
  unfold split. rewrite split_from_nil, strip_nil. split; [intros [_ H]; exact H | auto].
Qed.

Section LoadTableFacts.
Context {T : TableText} {N : Numerics}.

Lemma read_lines_app (a b : list text) (v : table_vars) :
  read_lines (a ++ b) v = result_bind (read_lines a v) (read_lines b).
Proof.
  revert v. induction a as [|line a IH]; intros v; [reflexivity|].
  cbn [app read_lines]. destruct (read_line line v) as [e|v']; [reflexivity|].
  cbn [result_bind]. apply IH.
Qed.

(** X25: a line without terms (an empty line, or spaces only) in a table
    file makes [load_table] raise IndexError when the loop comes to it, and
    the object stays as it was: the test [len(terms) == 0], which would skip
    the line, comes after [line.strip()[0]]. *)
Theorem load_table_blank_line (pre post : list text) (line : text) (v : table_vars)
    (length_unit energy_unit : text) (self : BondAngleMap) :
  read_lines pre table_start = inr v -> split line = [] ->
  load_table (pre ++ line :: post) length_unit energy_unit self
  = Some (self, Raised IndexError).
Proof.
  intros Hpre Hline. apply split_nil in Hline.
  unfold load_table. rewrite read_lines_app, Hpre. cbn [result_bind read_lines].
  unfold read_line. rewrite Hline. reflexivity.
Qed.

Ltac bind_inv H :=
  repeat match type of H with
         | result_bind ?m _ = inr _ =>
             let E := fresh "E" in
             destruct m eqn:E; [discriminate H|]; cbn [result_bind] in H
         | (if ?c then inl _ else _) = inr _ =>
             let E := fresh "E" in destruct c eqn:E; [discriminate H|]
         end.

Lemma read_terms_count (terms : list text) (v v' : table_vars) :
  read_terms terms v = inr v' ->
  (t_count v' <= S (t_count v))%nat /\
  (t_thetanum v = None \/ 3 <= t_count v -> t_thetanum v' = None \/ 3 <= t_count v')%nat.
Proof.
  unfold read_terms. intros H.
  destruct (t_count v) as [|[|[|c]]] eqn:Hc; bind_inv H; injection H as <-;
    cbn [t_count t_thetanum]; (split; [lia|]); try (intros _; right; lia).
  - intros [Hn|Hn]; [left; exact Hn | lia].
  - intros [Hn|Hn]; [left; exact Hn | lia].
Qed.

Lemma read_line_count (line : text) (v v' : table_vars) :
  read_line line v = inr v' ->
  strip line <> [] /\
  (t_count v' <= t_count v + (if is_data line then 1 else 0))%nat /\
  (t_thetanum v = None \/ 3 <= t_count v -> t_thetanum v' = None \/ 3 <= t_count v')%nat.
Proof.
  unfold read_line, is_data. destruct (strip line) as [|c r]; [discriminate|].
  intros H. split; [discriminate|].
  destruct (Ascii.eqb c hash) eqn:Hc; cbn [orb negb] in *.
  - injection H as <-. split; [lia | auto].
  - destruct (Nat.eqb (length (split line)) 0).
    + injection H as <-. split; [lia | auto].
    + apply read_terms_count in H. destruct H as [H1 H2]. split; [lia | exact H2].
Qed.

Lemma read_lines_count (lines : list text) (v v' : table_vars) :
  read_lines lines v = inr v' ->
  Forall (fun line => strip line <> []) lines /\
  (t_count v' <= t_count v + length (List.filter is_data lines))%nat /\
  (t_thetanum v = None \/ 3 <= t_count v -> t_thetanum v' = None \/ 3 <= t_count v')%nat.
Proof.
  revert v. induction lines as [|line lines IH]; intros v H.
  - injection H as <-. split; [constructor|]. split; [simpl; lia | auto].
  - cbn [read_lines] in H. destruct (read_line line v) as [e|v1] eqn:E; [discriminate H|].
    cbn [result_bind] in H. apply read_line_count in E. destruct E as (E1 & E2 & E3).
    apply IH in H. destruct H as (H1 & H2 & H3).
    split; [constructor; assumption|]. split; [|auto].
    cbn [List.filter]. destruct (is_data line); cbn [length]; lia.
Qed.

(** X26: [load_table] returns only for a file in which every line has a
    term (no line is empty or blank) and at least three lines are no
    comments. *)
Theorem load_table_returns_needs (lines : list text) (length_unit energy_unit : text)
    (self self' : BondAngleMap) :
  load_table lines length_unit energy_unit self = Some (self', Returned) ->
  Forall (fun line => split line <> []) lines /\
  (3 <= length (List.filter is_data lines))%nat.
Proof.
  unfold load_table. intros H.
  destruct (read_lines lines table_start) as [e|v] eqn:Hread; [discriminate H|].
  apply read_lines_count in Hread. destruct Hread as (H1 & H2 & H3).
  split.
  - eapply Forall_impl; [exact H1|]. intros line Hs Hn. apply Hs, split_nil, Hn.
  - destruct (table_call v length_unit energy_unit) as [e|call] eqn:Hcall;
      [discriminate H|].
    unfold table_call in Hcall. bind_inv Hcall.
    destruct (t_thetanum v) as [tn|] eqn:Htn; [|discriminate E7].
    destruct H3 as [H3|H3]; [left; reflexivity | discriminate H3 |].
    cbn [t_count table_start] in H2. lia.
Qed.

End LoadTableFacts.

Lemma load_table_blank_line_witness :
  @load_table whole_numbers straight_angles
    (map String.list_ascii_of_string ["1 2 2"; " "; "1 2 2"]%string) [] [] unset_map
  = Some (unset_map, Raised IndexError).
Proof.
  eapply (@load_table_blank_line whole_numbers straight_angles
            [String.list_ascii_of_string "1 2 2"] [String.list_ascii_of_string "1 2 2"]
            (String.list_ascii_of_string " ")).
  - vm_compute. reflexivity.
  - reflexivity.
Defined.

Lemma load_table_returns_needs_witness :
  Forall (fun line => split line <> []) table_lines /\
  (3 <= length (List.filter is_data table_lines))%nat.
Proof.
  assert (H : exists s, @load_table whole_numbers straight_angles table_lines [] []
                          unset_map = Some (s, Returned))
    by (eexists; vm_compute; reflexivity).
  destruct H as [s H].
  exact (@load_table_returns_needs whole_numbers straight_angles table_lines [] []
           unset_map s H).
Defined.

Section LoadTableIndex.
Context {T : TableText}.

(** X27: once the three range lines are read, a line [i j k E] with
    1 <= j <= rnum and 1 <= k <= thetanum stores E in row
    ((i - 1) * rnum + (j - 1)) * thetanum + (k - 1) of the energies, the row
    to which [set] gives the coordinates number i - 1, j - 1 and k - 1, and
    changes no other row.  A first index 0 is not refused: the negative
    array index counts from the end, and E is stored as if i were rnum. *)
Theorem read_terms_energy (terms : list text) (v : table_vars)
    (rn tn i j k : Z) (x : flt) :
  (3 <= t_count v)%nat -> t_rnum v = Some rn -> t_thetanum v = Some tn ->
  Z.of_nat (length (t_energies v)) = (rn * rn * tn)%Z ->
  int_term terms 0 = inr i -> int_term terms 1 = inr j -> int_term terms 2 = inr k ->
  float_term terms 3 = inr x ->
  (0 <= i <= rn)%Z -> (1 <= j <= rn)%Z -> (1 <= k <= tn)%Z ->
  read_terms terms v
  = inr (mkVars (t_count v) (t_rmin v) (t_rmax v) (t_rnum v)
                (t_thetamin v) (t_thetamax v) (t_thetanum v)
                (<[Z.to_nat ((((if (i =? 0)%Z then rn else i) - 1) * rn + (j - 1)) * tn
                             + (k - 1)) := x]> (t_energies v))).
Proof.
  intros Hc Hrn Htn Hlen Hi Hj Hk Hx Ri Rj Rk.
  unfold read_terms. destruct (t_count v) as [|[|[|c]]]; try lia.
  rewrite Hi, Hj, Hk, Htn, Hrn, Hx. cbn [result_bind bound].
  unfold setitem. rewrite Hlen.
  assert (Hjk : (0 <= (k - 1) + (j - 1) * tn < rn * tn)%Z) by nia.
  destruct (Z.eqb_spec i 0) as [->|Hi0].
  - assert (H1 : ((k - 1 + (j - 1) * tn + (0 - 1) * rn * tn <? - (rn * rn * tn))%Z
                  || (rn * rn * tn <=? k - 1 + (j - 1) * tn + (0 - 1) * rn * tn)%Z)%bool
                 = false).
    { apply orb_false_iff. split; [apply Z.ltb_ge | apply Z.leb_gt]; nia. }
    rewrite H1. cbn [result_bind].
    assert (H2 : (k - 1 + (j - 1) * tn + (0 - 1) * rn * tn <? 0)%Z = true)
      by (apply Z.ltb_lt; nia).
    rewrite H2. do 3 f_equal. nia.
  - assert (H1 : ((k - 1 + (j - 1) * tn + (i - 1) * rn * tn <? - (rn * rn * tn))%Z
                  || (rn * rn * tn <=? k - 1 + (j - 1) * tn + (i - 1) * rn * tn)%Z)%bool
                 = false).
    { apply orb_false_iff. split; [apply Z.ltb_ge | apply Z.leb_gt]; nia. }
    rewrite H1. cbn [result_bind].
    assert (H2 : (k - 1 + (j - 1) * tn + (i - 1) * rn * tn <? 0)%Z = false)
      by (apply Z.ltb_ge; nia).
    rewrite H2. do 3 f_equal. nia.
Qed.

End LoadTableIndex.

Lemma read_terms_energy_witness :
  @read_terms whole_numbers (map String.list_ascii_of_string ["0"; "2"; "1"; "7"]%string)
    table_header_vars
  = inr (mkVars 3 (Some (Num 1)) (Some (Num (qc 2 1))) (Some 2%Z)
                (Some (Num 0)) (Some (Num (qc 180 1))) (Some 2%Z)
                (<[6%nat := Num (Qc_of_Z 7)]> (replicate 8 (Num 0)))).
Proof.
  apply (@read_terms_energy whole_numbers
           (map String.list_ascii_of_string ["0"; "2"; "1"; "7"]%string)
           table_header_vars 2 2 0 2 1 (Num (Qc_of_Z 7)));
    try reflexivity; try (simpl; lia); lia.
Defined.

(** ** The state that [set] leaves *)

Lemma np_linspace_Some (a b : option Qc) (n : option Z) (l : list Qc) :
  np_linspace a b n = Some l ->
  exists a' b' m, a = Some a' /\ b = Some b' /\ n = Some m /\ Z.of_nat (length l) = m.
Proof.
  intros H. destruct (np_linspace_length a b n l H) as (m & Hn & Hm & Hl).
  destruct a as [a'|], b as [b'|]; try discriminate H.
  exists a', b', m. repeat split; try assumption. lia.
Qed.

Section BondAngleMapInvariant.
Context {N : Numerics}.

Lemma set_table_Returned (self self' : BondAngleMap) (a b t : list Qc)
    (e : option (list flt)) :
  set_table self a b t e = (self', Returned) ->
  length b = length a -> length t = length a ->
  exists d, self' = with_df self d /\ r_ij d = a /\
    length (r_ik d) = length a /\ length (r_jk d) = length a /\
    length (theta d) = length a /\ length (energy d) = length a.
Proof.
  intros H Hb Ht.
  assert (He : match e with None => True | Some e0 => length e0 = length a end).
  { destruct e as [e0|]; [|exact I].
    destruct (Nat.eqb_spec (length e0) (length a)) as [E|E]; [exact E|].
    unfold set_table in H. apply Nat.eqb_neq in E. rewrite E in H. discriminate H. }
  rewrite (set_table_returns self a b t e Hb Ht He) in H. injection H as <-.
  eexists. split; [reflexivity|]. cbn [r_ij r_ik r_jk theta energy].
  split; [reflexivity|]. split; [exact Hb|].
  split; [rewrite length_map, !length_zip, Hb, Ht, !Nat.min_id; reflexivity|].
  split; [exact Ht|].
  destruct e as [e0|]; [exact He | apply length_replicate].
Qed.

(** X28: when [set] returns, the object has a table whose five columns
    have one length, its symbols are the ones it had, and its six range
    attributes are either all None or all set, and if they are set the table
    has thetanum * rnum * rnum rows. *)
Theorem set_returns_invariant (a : set_args) (self self' : BondAngleMap) :
  BondAngleMap_set a self = (self', Returned) ->
  exists d, df self' = Some d /\
    length (r_ik d) = length (r_ij d) /\ length (r_jk d) = length (r_ij d) /\
    length (theta d) = length (r_ij d) /\ length (energy d) = length (r_ij d) /\
    symbols self' = symbols self /\
    ((rmin self' = None /\ rmax self' = None /\ rnum self' = None /\
      thetamin self' = None /\ thetamax self' = None /\ thetanum self' = None) \/
     (exists r0 r1 rn t0 t1 tn,
        rmin self' = Some r0 /\ rmax self' = Some r1 /\ rnum self' = Some rn /\
        thetamin self' = Some t0 /\ thetamax self' = Some t1 /\ thetanum self' = Some tn /\
        Z.of_nat (length (r_ij d)) = (tn * rn * rn)%Z)).
Proof.
  unfold BondAngleMap_set. intros H.
  destruct (a_rmin a) as [r0|].
  - destruct (_ || _ || _)%bool; [discriminate H|].
    destruct (np_linspace (Some r0) _ _) as [rvals|] eqn:Hr; [|discriminate H].
    destruct (np_linspace (a_thetamin a) _ _) as [tvals|] eqn:Ht; [|discriminate H].
    pose proof (meshgrid_ij_length rvals rvals tvals) as Hlen.
    destruct (meshgrid_ij rvals rvals tvals) as [[u v] w].
    destruct Hlen as (Lu & Lv & Lw).
    apply set_table_Returned in H; [|congruence|congruence].
    destruct H as (d & -> & Hd & H1 & H2 & H3 & H4).
    exists d. cbn [df with_df symbols with_ranges rmin rmax rnum thetamin thetamax thetanum].
    rewrite Hd. do 6 (split; [first [reflexivity | assumption]|]).
    right.
    destruct (np_linspace_Some _ _ _ _ Hr) as (x0 & r1 & rn & _ & -> & -> & Hrn).
    destruct (np_linspace_Some _ _ _ _ Ht) as (t0 & t1 & tn & -> & -> & -> & Htn).
    exists r0, r1, rn, t0, t1, tn. do 6 (split; [reflexivity|]).
    rewrite Lu, <- Hrn, <- Htn. lia.
  - destruct (negb _); [discriminate H|].
    destruct (a_r_ij a) as [r_ij|]; [|discriminate H].
    destruct (a_r_ik a) as [r_ik|]; [|discriminate H].
    destruct (a_theta a) as [theta|]; [|discriminate H].
    destruct (negb (Nat.eqb (length r_ij) (length r_ik))) eqn:H1; [discriminate H|].
    destruct (negb (Nat.eqb (length r_ij) (length theta))) eqn:H2; [discriminate H|].
    cbn [orb] in H.
    apply negb_false_iff, Nat.eqb_eq in H1, H2.
    destruct (col_min r_ij) as [r0|]; [|discriminate H].
    destruct (col_max r_ij) as [r1|]; [|discriminate H].
    destruct (col_min theta) as [t0|]; [|discriminate H].
    destruct (col_max theta) as [t1|]; [|discriminate H].
    apply set_table_Returned in H; [|congruence|congruence].
    destruct H as (d & -> & Hd & L1 & L2 & L3 & L4).
    exists d. rewrite Hd.
    destruct (Z.eqb_spec (Z.of_nat (length r_ij))
                (unique_count theta * unique_count r_ij * unique_count r_ij)) as [E|E].
    + match goal with
      | |- context [if ?c then with_ranges _ _ _ _ _ _ _ else _] => destruct c
      end;
        cbn [df with_df symbols with_ranges rmin rmax rnum thetamin thetamax thetanum];
        (do 6 (split; [first [reflexivity | assumption]|])).
      * right. exists r0, r1, (unique_count r_ij), t0, t1, (unique_count theta).
        do 6 (split; [reflexivity|]). exact E.
      * left. repeat split.
    + cbn [df with_df symbols with_ranges rmin rmax rnum thetamin thetamax thetanum].
      do 6 (split; [first [reflexivity | assumption]|]).
      left. repeat split.
Qed.

End BondAngleMapInvariant.

Lemma set_returns_invariant_witness :
  exists self' d, @BondAngleMap_set straight_angles (grid_args None) unset_map
                  = (self', Returned) /\
    df self' = Some d /\ length (energy d) = length (r_ij d) /\
    rnum self' <> None.
Proof.
  assert (H : exists s, @BondAngleMap_set straight_angles (grid_args None) unset_map
                        = (s, Returned))
    by (eexists; vm_compute; reflexivity).
  destruct H as [s H]. exists s.
  destruct (@set_returns_invariant straight_angles (grid_args None) unset_map s H)
    as (d & Hd & _ & _ & _ & He & _ & Hr).
  exists d. split; [exact H|]. split; [exact Hd|]. split; [exact He|].
  destruct Hr as [(_ & _ & Hn & _)|(r0 & r1 & rn & t0 & t1 & tn & _ & _ & Hn & _)].
  - pose proof H as H'. vm_compute in H'. injection H' as <-. discriminate Hn.
  - rewrite Hn. discriminate.
Defined.
